(** * VarioMS5611: the acquisition state machine and the compensation
      arithmetic of the MS5611 variometer driver

    The definitions follow [VarioMS5611.cpp] and [VarioMS5611.h] (and the
    [setup] function of the usage sketch) method by method.  The object's
    fields and the function-local statics form the record [VarioMS5611];
    the two-wire bus, [millis] and [delay] form the record [World].

    Conventions.
    - C integers are values in [Z]; every conversion and every operation
      that can leave its type is followed by the wrap-around of that type
      ([u8], [u32], [s32], [s64], ...).  Signed overflow is undefined in C;
      the model gives it the two's-complement result of the target
      processors.
    - C's [/] on integers truncates towards zero: [Z.quot] (written [÷]).
    - [double] arithmetic and [pow] are kept abstract (class [Floating]):
      no statement below depends on rounding.
    - [int] and [unsigned int] are 16 bits wide on AVR boards and 32 bits
      wide on ARM and ESP boards: the width is the parameter [int_width].
    - The build is the default one, without [VARIO_EXTENDED_INTERFACE]. *)

From Stdlib Require Import ZArith List Bool Lia String PrimFloat Uint63 FloatOps SpecFloat.
Import ListNotations.
Local Open Scope Z_scope.

(** ** Machine integers *)

Definition wrap_unsigned (bits x : Z) : Z := x mod 2 ^ bits.

Definition wrap_signed (bits x : Z) : Z :=
  (x + 2 ^ (bits - 1)) mod 2 ^ bits - 2 ^ (bits - 1).

Definition u8 : Z -> Z := wrap_unsigned 8.
Definition u16 : Z -> Z := wrap_unsigned 16.
Definition u32 : Z -> Z := wrap_unsigned 32.
Definition s32 : Z -> Z := wrap_signed 32.
Definition s64 : Z -> Z := wrap_signed 64.

Definition INT32_MAX : Z := 2147483647.

Arguments wrap_unsigned : simpl never.
Arguments wrap_signed : simpl never.
Arguments u8 : simpl never.
Arguments u16 : simpl never.
Arguments u32 : simpl never.
Arguments s32 : simpl never.
Arguments s64 : simpl never.

(** Width of [int] and [unsigned int] on the target. *)
Inductive int_width : Set := Int16 | Int32.
Existing Class int_width.

Definition int_bits (w : int_width) : Z :=
  match w with Int16 => 16 | Int32 => 32 end.

Definition c_uint {w : int_width} : Z -> Z := wrap_unsigned (int_bits w).
Definition c_int {w : int_width} : Z -> Z := wrap_signed (int_bits w).

Arguments c_uint : simpl never.
Arguments c_int : simpl never.

(** ** Constants and enumerations of VarioMS5611.h *)

Definition MS5611_ADDRESS : Z := 0x77.
Definition MS5611_CMD_ADC_READ : Z := 0x00.
Definition MS5611_CMD_RESET : Z := 0x1E.
Definition MS5611_CMD_CONV_D1 : Z := 0x40.
Definition MS5611_CMD_CONV_D2 : Z := 0x50.
Definition MS5611_CMD_READ_PROM : Z := 0xA2.
Definition PRESSURE_SEALEVEL : Z := 101325.

Inductive ms5611_osr_t : Set :=
| MS5611_ULTRA_HIGH_RES
| MS5611_HIGH_RES
| MS5611_STANDARD
| MS5611_LOW_POWER
| MS5611_ULTRA_LOW_POWER.

(** The enumerators' values. *)
Definition osr_code (osr : ms5611_osr_t) : Z :=
  match osr with
  | MS5611_ULTRA_HIGH_RES => 0x08
  | MS5611_HIGH_RES => 0x06
  | MS5611_STANDARD => 0x04
  | MS5611_LOW_POWER => 0x02
  | MS5611_ULTRA_LOW_POWER => 0x00
  end.

Inductive vario_value_t : Set :=
| NONE
| DIGITAL_PRESSURE_VALUE
| DIGITAL_TEMPERATURE_VALUE
| LAST.

Definition vario_value_eqb (a b : vario_value_t) : bool :=
  match a, b with
  | NONE, NONE => true
  | DIGITAL_PRESSURE_VALUE, DIGITAL_PRESSURE_VALUE => true
  | DIGITAL_TEMPERATURE_VALUE, DIGITAL_TEMPERATURE_VALUE => true
  | LAST, LAST => true
  | _, _ => false
  end.

(** ** Floating point

    The operations of [double] the driver uses.  [d_dec m e] is the decimal
    literal [m * 10^e] of type [double], [f_dec m e] the same literal with
    the suffix [f] (a [float] constant, widened where it meets a double). *)
Class Floating : Type := {
  double : Type;
  d_of_Z : Z -> double;
  d_trunc : double -> Z;
  d_dec : Z -> Z -> double;
  f_dec : Z -> Z -> double;
  dadd : double -> double -> double;
  dsub : double -> double -> double;
  dmul : double -> double -> double;
  ddiv : double -> double -> double;
  dpow : double -> double -> double
}.

(** ** The world outside the object *)

(** What the driver does to its surroundings, in order.  [RefHeightFixed]
    is not an action on the bus: it marks each execution of the assignment
    to [myReferenceHeight] in [triggerReadValues], so that statements
    counting these assignments can be written down. *)
Inductive event : Type :=
| WireBegin
| WireSent (b : Z)
| WireSentIndeterminate
| WireRequested (n : Z)
| SerialBegin (baud : Z)
| SerialPrintln (s : string)
| RefHeightFixed.

(** [clock] is what [millis()] returns, an [unsigned long] of 32 bits;
    it advances in [delay] and between the calls of the methods (bus
    transactions are short of a millisecond).  [wire_in] is the bytes the
    device answers with, [wire_pos] how many of them were consumed; the
    device is taken to answer every request.  [trace] is the events so
    far, newest first. *)
Record World : Type := mkWorld {
  clock : Z;
  wire_in : nat -> Z;
  wire_pos : nat;
  trace : list event
}.

Definition emit (e : event) (w : World) : World :=
  mkWorld (clock w) (wire_in w) (wire_pos w) (e :: trace w).

Definition take_byte (w : World) : Z * World :=
  (u8 (wire_in w (wire_pos w)),
   mkWorld (clock w) (wire_in w) (S (wire_pos w)) (trace w)).

Definition advance (ms : Z) (w : World) : World :=
  mkWorld (u32 (clock w + ms)) (wire_in w) (wire_pos w) (trace w).

Section Driver.

Context {FP : Floating} {IW : int_width}.

(** ** The object

    The members of class VarioMS5611 that the default build reads or
    writes, followed by the statics [nextRead] (of [triggerReadValues]),
    [lastTime] and [lastAltitude] (of [calcVerticalSpeed]).  [myuosr] only
    ever receives an [ms5611_osr_t]; it is kept as the enumerator and
    converted with [osr_code] where it is added to an opcode. *)
Record VarioMS5611 : Type := mkVario {
  myDoSecondOrderCompensation : bool;
  myWarmUpPhase : bool;
  myRunCnt : Z;
  myPressureSmoothingFactor : double;
  myReferenceHeight : double;
  myPendingValueType : vario_value_t;
  myVerticalSpeed : Z;
  myVerticalSpeedSmoothingFactor : double;
  myCompensationValues : list Z;
  myRawPressureVal_D1 : Z;
  myRawTemperatureVal_D2 : Z;
  myPressureVal : Z;
  mySmoothedPressureVal : double;
  myTemperatureVal : Z;
  myct : Z;
  myuosr : ms5611_osr_t;
  myTEMP2 : Z;
  myOFF2 : Z;
  mySENS2 : Z;
  nextRead : Z;
  lastTime : Z;
  lastAltitude : double
}.

Definition set_myDoSecondOrderCompensation (v : bool) (o : VarioMS5611) : VarioMS5611 :=
  mkVario v (myWarmUpPhase o) (myRunCnt o) (myPressureSmoothingFactor o)
    (myReferenceHeight o) (myPendingValueType o) (myVerticalSpeed o)
    (myVerticalSpeedSmoothingFactor o) (myCompensationValues o)
    (myRawPressureVal_D1 o) (myRawTemperatureVal_D2 o) (myPressureVal o)
    (mySmoothedPressureVal o) (myTemperatureVal o) (myct o) (myuosr o)
    (myTEMP2 o) (myOFF2 o) (mySENS2 o) (nextRead o) (lastTime o)
    (lastAltitude o).

Definition set_myWarmUpPhase (v : bool) (o : VarioMS5611) : VarioMS5611 :=
  mkVario (myDoSecondOrderCompensation o) v (myRunCnt o)
    (myPressureSmoothingFactor o) (myReferenceHeight o) (myPendingValueType o)
    (myVerticalSpeed o) (myVerticalSpeedSmoothingFactor o)
    (myCompensationValues o) (myRawPressureVal_D1 o)
    (myRawTemperatureVal_D2 o) (myPressureVal o) (mySmoothedPressureVal o)
    (myTemperatureVal o) (myct o) (myuosr o) (myTEMP2 o) (myOFF2 o)
    (mySENS2 o) (nextRead o) (lastTime o) (lastAltitude o).

Definition set_myRunCnt (v : Z) (o : VarioMS5611) : VarioMS5611 :=
  mkVario (myDoSecondOrderCompensation o) (myWarmUpPhase o) v
    (myPressureSmoothingFactor o) (myReferenceHeight o) (myPendingValueType o)
    (myVerticalSpeed o) (myVerticalSpeedSmoothingFactor o)
    (myCompensationValues o) (myRawPressureVal_D1 o)
    (myRawTemperatureVal_D2 o) (myPressureVal o) (mySmoothedPressureVal o)
    (myTemperatureVal o) (myct o) (myuosr o) (myTEMP2 o) (myOFF2 o)
    (mySENS2 o) (nextRead o) (lastTime o) (lastAltitude o).

Definition set_myPressureSmoothingFactor (v : double) (o : VarioMS5611) : VarioMS5611 :=
  mkVario (myDoSecondOrderCompensation o) (myWarmUpPhase o) (myRunCnt o) v
    (myReferenceHeight o) (myPendingValueType o) (myVerticalSpeed o)
    (myVerticalSpeedSmoothingFactor o) (myCompensationValues o)
    (myRawPressureVal_D1 o) (myRawTemperatureVal_D2 o) (myPressureVal o)
    (mySmoothedPressureVal o) (myTemperatureVal o) (myct o) (myuosr o)
    (myTEMP2 o) (myOFF2 o) (mySENS2 o) (nextRead o) (lastTime o)
    (lastAltitude o).

Definition set_myReferenceHeight (v : double) (o : VarioMS5611) : VarioMS5611 :=
  mkVario (myDoSecondOrderCompensation o) (myWarmUpPhase o) (myRunCnt o)
    (myPressureSmoothingFactor o) v (myPendingValueType o) (myVerticalSpeed o)
    (myVerticalSpeedSmoothingFactor o) (myCompensationValues o)
    (myRawPressureVal_D1 o) (myRawTemperatureVal_D2 o) (myPressureVal o)
    (mySmoothedPressureVal o) (myTemperatureVal o) (myct o) (myuosr o)
    (myTEMP2 o) (myOFF2 o) (mySENS2 o) (nextRead o) (lastTime o)
    (lastAltitude o).

Definition set_myPendingValueType (v : vario_value_t) (o : VarioMS5611) : VarioMS5611 :=
  mkVario (myDoSecondOrderCompensation o) (myWarmUpPhase o) (myRunCnt o)
    (myPressureSmoothingFactor o) (myReferenceHeight o) v (myVerticalSpeed o)
    (myVerticalSpeedSmoothingFactor o) (myCompensationValues o)
    (myRawPressureVal_D1 o) (myRawTemperatureVal_D2 o) (myPressureVal o)
    (mySmoothedPressureVal o) (myTemperatureVal o) (myct o) (myuosr o)
    (myTEMP2 o) (myOFF2 o) (mySENS2 o) (nextRead o) (lastTime o)
    (lastAltitude o).

Definition set_myVerticalSpeed (v : Z) (o : VarioMS5611) : VarioMS5611 :=
  mkVario (myDoSecondOrderCompensation o) (myWarmUpPhase o) (myRunCnt o)
    (myPressureSmoothingFactor o) (myReferenceHeight o) (myPendingValueType o)
    v (myVerticalSpeedSmoothingFactor o) (myCompensationValues o)
    (myRawPressureVal_D1 o) (myRawTemperatureVal_D2 o) (myPressureVal o)
    (mySmoothedPressureVal o) (myTemperatureVal o) (myct o) (myuosr o)
    (myTEMP2 o) (myOFF2 o) (mySENS2 o) (nextRead o) (lastTime o)
    (lastAltitude o).

Definition set_myVerticalSpeedSmoothingFactor (v : double) (o : VarioMS5611) : VarioMS5611 :=
  mkVario (myDoSecondOrderCompensation o) (myWarmUpPhase o) (myRunCnt o)
    (myPressureSmoothingFactor o) (myReferenceHeight o) (myPendingValueType o)
    (myVerticalSpeed o) v (myCompensationValues o) (myRawPressureVal_D1 o)
    (myRawTemperatureVal_D2 o) (myPressureVal o) (mySmoothedPressureVal o)
    (myTemperatureVal o) (myct o) (myuosr o) (myTEMP2 o) (myOFF2 o)
    (mySENS2 o) (nextRead o) (lastTime o) (lastAltitude o).

Definition set_myCompensationValues (v : list Z) (o : VarioMS5611) : VarioMS5611 :=
  mkVario (myDoSecondOrderCompensation o) (myWarmUpPhase o) (myRunCnt o)
    (myPressureSmoothingFactor o) (myReferenceHeight o) (myPendingValueType o)
    (myVerticalSpeed o) (myVerticalSpeedSmoothingFactor o) v
    (myRawPressureVal_D1 o) (myRawTemperatureVal_D2 o) (myPressureVal o)
    (mySmoothedPressureVal o) (myTemperatureVal o) (myct o) (myuosr o)
    (myTEMP2 o) (myOFF2 o) (mySENS2 o) (nextRead o) (lastTime o)
    (lastAltitude o).

Definition set_myRawPressureVal_D1 (v : Z) (o : VarioMS5611) : VarioMS5611 :=
  mkVario (myDoSecondOrderCompensation o) (myWarmUpPhase o) (myRunCnt o)
    (myPressureSmoothingFactor o) (myReferenceHeight o) (myPendingValueType o)
    (myVerticalSpeed o) (myVerticalSpeedSmoothingFactor o)
    (myCompensationValues o) v (myRawTemperatureVal_D2 o) (myPressureVal o)
    (mySmoothedPressureVal o) (myTemperatureVal o) (myct o) (myuosr o)
    (myTEMP2 o) (myOFF2 o) (mySENS2 o) (nextRead o) (lastTime o)
    (lastAltitude o).

Definition set_myRawTemperatureVal_D2 (v : Z) (o : VarioMS5611) : VarioMS5611 :=
  mkVario (myDoSecondOrderCompensation o) (myWarmUpPhase o) (myRunCnt o)
    (myPressureSmoothingFactor o) (myReferenceHeight o) (myPendingValueType o)
    (myVerticalSpeed o) (myVerticalSpeedSmoothingFactor o)
    (myCompensationValues o) (myRawPressureVal_D1 o) v (myPressureVal o)
    (mySmoothedPressureVal o) (myTemperatureVal o) (myct o) (myuosr o)
    (myTEMP2 o) (myOFF2 o) (mySENS2 o) (nextRead o) (lastTime o)
    (lastAltitude o).

Definition set_myPressureVal (v : Z) (o : VarioMS5611) : VarioMS5611 :=
  mkVario (myDoSecondOrderCompensation o) (myWarmUpPhase o) (myRunCnt o)
    (myPressureSmoothingFactor o) (myReferenceHeight o) (myPendingValueType o)
    (myVerticalSpeed o) (myVerticalSpeedSmoothingFactor o)
    (myCompensationValues o) (myRawPressureVal_D1 o)
    (myRawTemperatureVal_D2 o) v (mySmoothedPressureVal o)
    (myTemperatureVal o) (myct o) (myuosr o) (myTEMP2 o) (myOFF2 o)
    (mySENS2 o) (nextRead o) (lastTime o) (lastAltitude o).

Definition set_mySmoothedPressureVal (v : double) (o : VarioMS5611) : VarioMS5611 :=
  mkVario (myDoSecondOrderCompensation o) (myWarmUpPhase o) (myRunCnt o)
    (myPressureSmoothingFactor o) (myReferenceHeight o) (myPendingValueType o)
    (myVerticalSpeed o) (myVerticalSpeedSmoothingFactor o)
    (myCompensationValues o) (myRawPressureVal_D1 o)
    (myRawTemperatureVal_D2 o) (myPressureVal o) v (myTemperatureVal o)
    (myct o) (myuosr o) (myTEMP2 o) (myOFF2 o) (mySENS2 o) (nextRead o)
    (lastTime o) (lastAltitude o).

Definition set_myTemperatureVal (v : Z) (o : VarioMS5611) : VarioMS5611 :=
  mkVario (myDoSecondOrderCompensation o) (myWarmUpPhase o) (myRunCnt o)
    (myPressureSmoothingFactor o) (myReferenceHeight o) (myPendingValueType o)
    (myVerticalSpeed o) (myVerticalSpeedSmoothingFactor o)
    (myCompensationValues o) (myRawPressureVal_D1 o)
    (myRawTemperatureVal_D2 o) (myPressureVal o) (mySmoothedPressureVal o) v
    (myct o) (myuosr o) (myTEMP2 o) (myOFF2 o) (mySENS2 o) (nextRead o)
    (lastTime o) (lastAltitude o).

Definition set_myct (v : Z) (o : VarioMS5611) : VarioMS5611 :=
  mkVario (myDoSecondOrderCompensation o) (myWarmUpPhase o) (myRunCnt o)
    (myPressureSmoothingFactor o) (myReferenceHeight o) (myPendingValueType o)
    (myVerticalSpeed o) (myVerticalSpeedSmoothingFactor o)
    (myCompensationValues o) (myRawPressureVal_D1 o)
    (myRawTemperatureVal_D2 o) (myPressureVal o) (mySmoothedPressureVal o)
    (myTemperatureVal o) v (myuosr o) (myTEMP2 o) (myOFF2 o) (mySENS2 o)
    (nextRead o) (lastTime o) (lastAltitude o).

Definition set_myuosr (v : ms5611_osr_t) (o : VarioMS5611) : VarioMS5611 :=
  mkVario (myDoSecondOrderCompensation o) (myWarmUpPhase o) (myRunCnt o)
    (myPressureSmoothingFactor o) (myReferenceHeight o) (myPendingValueType o)
    (myVerticalSpeed o) (myVerticalSpeedSmoothingFactor o)
    (myCompensationValues o) (myRawPressureVal_D1 o)
    (myRawTemperatureVal_D2 o) (myPressureVal o) (mySmoothedPressureVal o)
    (myTemperatureVal o) (myct o) v (myTEMP2 o) (myOFF2 o) (mySENS2 o)
    (nextRead o) (lastTime o) (lastAltitude o).

Definition set_myTEMP2 (v : Z) (o : VarioMS5611) : VarioMS5611 :=
  mkVario (myDoSecondOrderCompensation o) (myWarmUpPhase o) (myRunCnt o)
    (myPressureSmoothingFactor o) (myReferenceHeight o) (myPendingValueType o)
    (myVerticalSpeed o) (myVerticalSpeedSmoothingFactor o)
    (myCompensationValues o) (myRawPressureVal_D1 o)
    (myRawTemperatureVal_D2 o) (myPressureVal o) (mySmoothedPressureVal o)
    (myTemperatureVal o) (myct o) (myuosr o) v (myOFF2 o) (mySENS2 o)
    (nextRead o) (lastTime o) (lastAltitude o).

Definition set_myOFF2 (v : Z) (o : VarioMS5611) : VarioMS5611 :=
  mkVario (myDoSecondOrderCompensation o) (myWarmUpPhase o) (myRunCnt o)
    (myPressureSmoothingFactor o) (myReferenceHeight o) (myPendingValueType o)
    (myVerticalSpeed o) (myVerticalSpeedSmoothingFactor o)
    (myCompensationValues o) (myRawPressureVal_D1 o)
    (myRawTemperatureVal_D2 o) (myPressureVal o) (mySmoothedPressureVal o)
    (myTemperatureVal o) (myct o) (myuosr o) (myTEMP2 o) v (mySENS2 o)
    (nextRead o) (lastTime o) (lastAltitude o).

Definition set_mySENS2 (v : Z) (o : VarioMS5611) : VarioMS5611 :=
  mkVario (myDoSecondOrderCompensation o) (myWarmUpPhase o) (myRunCnt o)
    (myPressureSmoothingFactor o) (myReferenceHeight o) (myPendingValueType o)
    (myVerticalSpeed o) (myVerticalSpeedSmoothingFactor o)
    (myCompensationValues o) (myRawPressureVal_D1 o)
    (myRawTemperatureVal_D2 o) (myPressureVal o) (mySmoothedPressureVal o)
    (myTemperatureVal o) (myct o) (myuosr o) (myTEMP2 o) (myOFF2 o) v
    (nextRead o) (lastTime o) (lastAltitude o).

Definition set_nextRead (v : Z) (o : VarioMS5611) : VarioMS5611 :=
  mkVario (myDoSecondOrderCompensation o) (myWarmUpPhase o) (myRunCnt o)
    (myPressureSmoothingFactor o) (myReferenceHeight o) (myPendingValueType o)
    (myVerticalSpeed o) (myVerticalSpeedSmoothingFactor o)
    (myCompensationValues o) (myRawPressureVal_D1 o)
    (myRawTemperatureVal_D2 o) (myPressureVal o) (mySmoothedPressureVal o)
    (myTemperatureVal o) (myct o) (myuosr o) (myTEMP2 o) (myOFF2 o)
    (mySENS2 o) v (lastTime o) (lastAltitude o).

Definition set_lastTime (v : Z) (o : VarioMS5611) : VarioMS5611 :=
  mkVario (myDoSecondOrderCompensation o) (myWarmUpPhase o) (myRunCnt o)
    (myPressureSmoothingFactor o) (myReferenceHeight o) (myPendingValueType o)
    (myVerticalSpeed o) (myVerticalSpeedSmoothingFactor o)
    (myCompensationValues o) (myRawPressureVal_D1 o)
    (myRawTemperatureVal_D2 o) (myPressureVal o) (mySmoothedPressureVal o)
    (myTemperatureVal o) (myct o) (myuosr o) (myTEMP2 o) (myOFF2 o)
    (mySENS2 o) (nextRead o) v (lastAltitude o).

Definition set_lastAltitude (v : double) (o : VarioMS5611) : VarioMS5611 :=
  mkVario (myDoSecondOrderCompensation o) (myWarmUpPhase o) (myRunCnt o)
    (myPressureSmoothingFactor o) (myReferenceHeight o) (myPendingValueType o)
    (myVerticalSpeed o) (myVerticalSpeedSmoothingFactor o)
    (myCompensationValues o) (myRawPressureVal_D1 o)
    (myRawTemperatureVal_D2 o) (myPressureVal o) (mySmoothedPressureVal o)
    (myTemperatureVal o) (myct o) (myuosr o) (myTEMP2 o) (myOFF2 o)
    (mySENS2 o) (nextRead o) (lastTime o) v.

(** [myCompensationValues[i]] *)
Definition C (o : VarioMS5611) (i : nat) : Z := nth i (myCompensationValues o) 0.

(** ** Compensation Engine *)

Definition calcTemperature (aRawTemperature : Z) (o : VarioMS5611)
  : Z * VarioMS5611 :=
  let D2 := aRawTemperature in
  let dT := s32 (u32 (D2 - u32 (u32 (C o 4) * 256))) in
  let TEMP := s32 (s64 (2000 + s64 (s64 (dT * C o 5) ÷ 8388608))) in
  let o := set_myTEMP2 0 o in
  (* second order temperature compensation *)
  let o :=
    if myDoSecondOrderCompensation o then
      if TEMP <? 2000 then set_myTEMP2 (s32 (s32 (dT * dT) ÷ INT32_MAX)) o
      else o
    else o in
  let TEMP := s32 (TEMP - myTEMP2 o) in
  (TEMP, o).

Definition calcTemperatureCompensatedPressure
  (aRawPressure aRawTemperature : Z) (o : VarioMS5611) : Z * VarioMS5611 :=
  let dT := s32 (u32 (aRawTemperature - u32 (u32 (C o 4) * 256))) in
  let OFF := s64 (s64 (C o 1 * 65536) + s64 (s64 (C o 3 * dT) ÷ 128)) in
  let SENS := s64 (s64 (C o 0 * 32768) + s64 (s64 (C o 2 * dT) ÷ 256)) in
  let '(OFF, SENS, o) :=
    if myDoSecondOrderCompensation o then
      let TEMP := s32 (s64 (2000 + s64 (s64 (dT * C o 5) ÷ 8388608))) in
      let o := set_myOFF2 0 o in
      let o := set_mySENS2 0 o in
      let o :=
        if TEMP <? 2000 then
          let o :=
            set_myOFF2
              (s32 (s32 (5 * s32 (s32 (TEMP - 2000) * s32 (TEMP - 2000))) ÷ 2)) o in
          set_mySENS2
            (s32 (s32 (5 * s32 (s32 (TEMP - 2000) * s32 (TEMP - 2000))) ÷ 4)) o
        else o in
      let o :=
        if TEMP <? -1500 then
          let o :=
            set_myOFF2
              (s64 (myOFF2 o
                    + s32 (7 * s32 (s32 (TEMP + 1500) * s32 (TEMP + 1500))))) o in
          set_mySENS2
            (s64 (mySENS2 o
                  + s32 (s32 (11 * s32 (s32 (TEMP + 1500) * s32 (TEMP + 1500))) ÷ 2)))
            o
        else o in
      (s64 (OFF - myOFF2 o), s64 (SENS - mySENS2 o), o)
    else (OFF, SENS, o) in
  let result :=
    u32 (s64 (s64 (s64 (s64 (aRawPressure * SENS) ÷ 2097152) - OFF) ÷ 32768)) in
  (s32 result, o).


(** ** Altitude/Vario Calculator *)

Definition calcAltitude (aPressure aSeaLevelPressure : double) : double :=
  dmul (f_dec 44330 0)
       (dsub (f_dec 1 0)
             (dpow (ddiv aPressure aSeaLevelPressure) (f_dec 1902949 (-7)))).

(** The default value of [aSeaLevelPressure] in the declaration. *)
Definition default_aSeaLevelPressure : double := d_of_Z 101325.

Definition calcRelAltitude (aPressure : double) (o : VarioMS5611) : double :=
  let retVal := dsub (calcAltitude aPressure default_aSeaLevelPressure)
                     (myReferenceHeight o) in
  retVal.

(** ** Methods that act on the world

    A method is a function from the configuration (object and world) to
    its result and the configuration it leaves. *)
Record Config : Type := mkConfig { obj : VarioMS5611; env : World }.

Definition M (A : Type) : Type := Config -> A * Config.

Definition ret {A : Type} (a : A) : M A := fun c => (a, c).

Definition bind {A B : Type} (m : M A) (k : A -> M B) : M B :=
  fun c => k (fst (m c)) (snd (m c)).

Notation "x <- m ;; k" := (bind m (fun x => k))
  (at level 61, m at next level, right associativity).
Notation "m ;; k" := (bind m (fun _ => k))
  (at level 61, right associativity).

(** Reading a member, assigning to one, calling a method of the object. *)
Definition the {A : Type} (f : VarioMS5611 -> A) : M A :=
  fun c => (f (obj c), c).

Definition assign {A : Type} (set : A -> VarioMS5611 -> VarioMS5611) (v : A)
  : M unit :=
  fun c => (tt, mkConfig (set v (obj c)) (env c)).

Definition method {A : Type} (f : VarioMS5611 -> A * VarioMS5611) : M A :=
  fun c => (fst (f (obj c)), mkConfig (snd (f (obj c))) (env c)).

Definition millis : M Z := fun c => (clock (env c), c).

Definition delay (ms : Z) : M unit :=
  fun c => (tt, mkConfig (obj c) (advance ms (env c))).

Definition log (e : event) : M unit :=
  fun c => (tt, mkConfig (obj c) (emit e (env c))).

Definition Wire_read : M Z :=
  fun c => (fst (take_byte (env c)), mkConfig (obj c) (snd (take_byte (env c)))).

(** One-byte transmission to the sensor:
    [beginTransmission; write; endTransmission]. *)
Definition Wire_transmit (b : Z) : M unit := log (WireSent b).

Definition reset : M unit := Wire_transmit MS5611_CMD_RESET.

Definition setOversampling (osr : ms5611_osr_t) : M unit :=
  (match osr with
   | MS5611_ULTRA_LOW_POWER => assign set_myct 1
   | MS5611_LOW_POWER => assign set_myct 2
   | MS5611_STANDARD => assign set_myct 3
   | MS5611_HIGH_RES => assign set_myct 5
   | MS5611_ULTRA_HIGH_RES => assign set_myct 10
   end) ;;
  assign set_myuosr osr.

Definition getOversampling : M ms5611_osr_t := the myuosr.

(** Read 16-bit from register (MSB, LSB).  The device is taken to answer:
    the wait for [Wire.available()] ends. *)
Definition readRegister16 (reg : Z) : M Z :=
  Wire_transmit reg ;;
  log (WireRequested 2) ;;
  vha <- Wire_read ;;
  vla <- Wire_read ;;
  ret (u16 (Z.lor (Z.shiftl vha 8) vla)).

(** Read 24-bit from register (XSB, MSB, LSB). *)
Definition readRegister24 (reg : Z) : M Z :=
  Wire_transmit reg ;;
  log (WireRequested 3) ;;
  vxa <- Wire_read ;;
  vha <- Wire_read ;;
  vla <- Wire_read ;;
  ret (u32 (Z.lor (Z.lor (Z.shiftl vxa 16) (Z.shiftl vha 8)) vla)).

Fixpoint list_set (i : nat) (v : Z) (l : list Z) : list Z :=
  match l, i with
  | [], _ => []
  | _ :: t, O => v :: t
  | h :: t, S j => h :: list_set j v t
  end.

Definition set_C (i : nat) (v : Z) (o : VarioMS5611) : VarioMS5611 :=
  set_myCompensationValues (list_set i v (myCompensationValues o)) o.

(** The loop of [readPROM], [n] iterations from [offset] on. *)
Fixpoint readPROM_from (n : nat) (offset : nat) : M unit :=
  match n with
  | O => ret tt
  | S n' =>
      v <- readRegister16 (u8 (MS5611_CMD_READ_PROM + Z.of_nat offset * 2)) ;;
      method (fun o => (tt, set_C offset v o)) ;;
      readPROM_from n' (S offset)
  end.

Definition readPROM : M unit := readPROM_from 6 0.

Definition getRawTemperature : M Z := the myRawTemperatureVal_D2.
Definition getRawPressure : M Z := the myRawPressureVal_D1.
Definition getSmoothedPressure : M double := the mySmoothedPressureVal.
Definition getPressure : M double := p <- the myPressureVal ;; ret (d_of_Z p).
Definition getReferenceHeight : M double := the myReferenceHeight.
Definition getVerticalSpeed : M Z := the myVerticalSpeed.
Definition getRunCount : M Z := the myRunCnt.
Definition getTemperature : M double :=
  t <- the myTemperatureVal ;; ret (ddiv (d_of_Z t) (d_of_Z 100)).

Definition setSecondOrderCompenstation (aDoCompensate : bool) : M unit :=
  assign set_myDoSecondOrderCompensation aDoCompensate.
Definition getSecondOrderCompenstation : M bool := the myDoSecondOrderCompensation.
Definition setPressureSmoothingFactor (aFactor : double) : M unit :=
  assign set_myPressureSmoothingFactor aFactor.
Definition getPressureSmoothingFactor : M double := the myPressureSmoothingFactor.
Definition setVerticalSpeedSmoothingFactor (aFactor : double) : M unit :=
  assign set_myVerticalSpeedSmoothingFactor aFactor.
Definition getVerticalSpeedSmoothingFactor : M double :=
  the myVerticalSpeedSmoothingFactor.

(** ** Filter Pipeline *)

Definition calcVerticalSpeed : M unit :=
  now <- millis ;;
  lastTime_ <- the lastTime ;;
  let dT := u32 (now - lastTime_) in
  p <- getSmoothedPressure ;;
  let altitude := dmul (calcAltitude p default_aSeaLevelPressure) (d_of_Z 100) in
  warm <- the myWarmUpPhase ;;
  (if warm then assign set_lastAltitude altitude else ret tt) ;;
  lastAltitude_ <- the lastAltitude ;;
  let vspeed := dmul (dsub altitude lastAltitude_)
                     (ddiv (d_dec 1000 0) (d_of_Z dT)) in
  vs <- the myVerticalSpeed ;;
  f <- the myVerticalSpeedSmoothingFactor ;;
  assign set_myVerticalSpeed
    (c_int (d_trunc (dadd vspeed (dmul f (dsub (d_of_Z vs) vspeed))))) ;;
  assign set_lastAltitude altitude ;;
  now <- millis ;;
  assign set_lastTime now.

Definition calcFilter : M unit :=
  pv <- the myPressureVal ;;
  f <- the myPressureSmoothingFactor ;;
  s <- the mySmoothedPressureVal ;;
  assign set_mySmoothedPressureVal
    (dadd (d_of_Z pv) (dmul f (dsub s (d_of_Z pv)))) ;;
  calcVerticalSpeed.

(** ** Acquisition State Machine *)

Definition triggerReadValues (aRequestType : vario_value_t) : M bool :=
  now <- millis ;;
  nextRead_ <- the nextRead ;;
  if nextRead_ <? now then
    (* values can be read now *)
    cnt <- the myRunCnt ;;
    assign set_myRunCnt (c_uint (cnt + 1)) ;;
    cnt <- the myRunCnt ;;
    (if cnt =? 100 then
       assign set_myWarmUpPhase false ;;
       p <- getSmoothedPressure ;;
       assign set_myReferenceHeight (calcAltitude p default_aSeaLevelPressure) ;;
       log RefHeightFixed
     else ret tt) ;;
    pending <- the myPendingValueType ;;
    (match pending with
     | DIGITAL_PRESSURE_VALUE =>
         v <- readRegister24 MS5611_CMD_ADC_READ ;;
         assign set_myRawPressureVal_D1 v ;;
         D2 <- the myRawTemperatureVal_D2 ;;
         t <- method (calcTemperature D2) ;;
         assign set_myTemperatureVal t ;;
         D1 <- the myRawPressureVal_D1 ;;
         D2 <- the myRawTemperatureVal_D2 ;;
         p <- method (calcTemperatureCompensatedPressure D1 D2) ;;
         assign set_myPressureVal p ;;
         calcFilter
     | DIGITAL_TEMPERATURE_VALUE =>
         v <- readRegister24 MS5611_CMD_ADC_READ ;;
         assign set_myRawTemperatureVal_D2 v
     | _ => ret tt
     end) ;;
    pending <- the myPendingValueType ;;
    let retVal := vario_value_eqb aRequestType pending in
    (* now a potentially pending value is read and a new one can be
       requested; [None] is the uninitialised [valueAddr] *)
    valueAddr <-
      (match aRequestType with
       | DIGITAL_TEMPERATURE_VALUE =>
           assign set_myPendingValueType aRequestType ;;
           uosr <- the myuosr ;;
           ret (Some (u8 (MS5611_CMD_CONV_D2 + osr_code uosr)))
       | DIGITAL_PRESSURE_VALUE =>
           assign set_myPendingValueType aRequestType ;;
           uosr <- the myuosr ;;
           ret (Some (u8 (MS5611_CMD_CONV_D1 + osr_code uosr)))
       | LAST =>
           assign set_myPendingValueType aRequestType ;;
           ret None
       | NONE =>
           cnt <- the myRunCnt ;;
           uosr <- the myuosr ;;
           if Z.rem cnt 2 =? 0 then
             assign set_myPendingValueType DIGITAL_TEMPERATURE_VALUE ;;
             ret (Some (u8 (MS5611_CMD_CONV_D2 + osr_code uosr)))
           else
             assign set_myPendingValueType DIGITAL_PRESSURE_VALUE ;;
             ret (Some (u8 (MS5611_CMD_CONV_D1 + osr_code uosr)))
       end) ;;
    (* request data and do not wait for the answer *)
    log (match valueAddr with
         | Some b => WireSent b
         | None => WireSentIndeterminate
         end) ;;
    now <- millis ;;
    ct <- the myct ;;
    assign set_nextRead (u32 (now + ct)) ;;
    ret retVal
  else
    (* do nothing: a value is pending and we have to wait *)
    ret false.

Definition run : M unit := triggerReadValues NONE ;; ret tt.

(** ** Blocking reads

    The [while] loops of the blocking methods run until the state machine
    reports the requested value; [fuel] bounds the number of iterations of
    each loop, and [None] is a loop that used all of it. *)
Definition B (A : Type) : Type := Config -> option (A * Config).

Definition lift {A : Type} (m : M A) : B A := fun c => Some (m c).

Definition bindB {A B' : Type} (m : B A) (k : A -> B B') : B B' :=
  fun c => match m c with
           | Some (a, c') => k a c'
           | None => None
           end.

Notation "x <~ m ;;; k" := (bindB m (fun x => k))
  (at level 61, m at next level, right associativity).
Notation "m ;;; k" := (bindB m (fun _ => k))
  (at level 61, right associativity).

(** [while (!triggerReadValues(aRequestType)) delay(1);] *)
Fixpoint await (fuel : nat) (aRequestType : vario_value_t) : B unit :=
  fun c =>
    match fuel with
    | O => None
    | S fuel' =>
        if fst (triggerReadValues aRequestType c)
        then Some (tt, snd (triggerReadValues aRequestType c))
        else await fuel' aRequestType
               (snd (delay 1 (snd (triggerReadValues aRequestType c))))
    end.

Definition readRawTemperature (fuel : nat) : B Z :=
  await fuel DIGITAL_TEMPERATURE_VALUE ;;;
  lift (the myRawTemperatureVal_D2).

Definition readRawPressure (fuel : nat) : B Z :=
  await fuel DIGITAL_PRESSURE_VALUE ;;;
  lift (the myRawPressureVal_D1).

Definition readPressure (fuel : nat) (aCompensation : bool) : B Z :=
  D1 <~ readRawPressure fuel ;;;
  D2 <~ readRawTemperature fuel ;;;
  lift (method (fun o =>
    let dT := s32 (u32 (D2 - u32 (u32 (C o 4) * 256))) in
    let OFF := s64 (s64 (C o 1 * 65536) + s64 (s64 (C o 3 * dT) ÷ 128)) in
    let SENS := s64 (s64 (C o 0 * 32768) + s64 (s64 (C o 2 * dT) ÷ 256)) in
    let '(OFF, SENS, o) :=
      if aCompensation then
        let TEMP := s32 (s64 (2000 + s64 (s64 (dT * C o 5) ÷ 8388608))) in
        let o := set_myOFF2 0 o in
        let o := set_mySENS2 0 o in
        let o :=
          if TEMP <? 2000 then
            let o :=
              set_myOFF2
                (s32 (s32 (5 * s32 (s32 (TEMP - 2000) * s32 (TEMP - 2000))) ÷ 2))
                o in
            set_mySENS2
              (s32 (s32 (5 * s32 (s32 (TEMP - 2000) * s32 (TEMP - 2000))) ÷ 4))
              o
          else o in
        let o :=
          if TEMP <? -1500 then
            let o :=
              set_myOFF2
                (s64 (myOFF2 o
                      + s32 (7 * s32 (s32 (TEMP + 1500) * s32 (TEMP + 1500)))))
                o in
            set_mySENS2
              (s64 (mySENS2 o
                    + s32 (s32 (11 * s32 (s32 (TEMP + 1500) * s32 (TEMP + 1500)))
                           ÷ 2)))
              o
          else o in
        (s64 (OFF - myOFF2 o), s64 (SENS - mySENS2 o), o)
      else (OFF, SENS, o) in
    let P := u32 (s64 (s64 (s64 (s64 (D1 * SENS) ÷ 2097152) - OFF) ÷ 32768)) in
    (s32 P, o))).

Definition readTemperature (fuel : nat) (aCompensation : bool) : B double :=
  D2 <~ readRawTemperature fuel ;;;
  lift (method (fun o =>
    let dT := s32 (u32 (D2 - u32 (u32 (C o 4) * 256))) in
    let TEMP := s32 (s64 (2000 + s64 (s64 (dT * C o 5) ÷ 8388608))) in
    let o := set_myTEMP2 0 o in
    let o :=
      if aCompensation then
        (* second order compensation *)
        if TEMP <? 2000 then set_myTEMP2 (s32 (s32 (dT * dT) ÷ INT32_MAX)) o
        else o
      else o in
    let TEMP := s32 (TEMP - myTEMP2 o) in
    (ddiv (d_of_Z TEMP) (d_of_Z 100), o))).

(** ** Initialisation *)

(** The loop of [begin] that sets a valid initial value, [n] iterations. *)
Fixpoint begin_seed (fuel : nat) (n : nat) : B unit :=
  match n with
  | O => lift (ret tt)
  | S n' =>
      p <~ readPressure fuel true ;;;
      lift (assign set_mySmoothedPressureVal (d_of_Z p)) ;;;
      begin_seed fuel n'
  end.

Definition begin (fuel : nat) (aSamplingRate : ms5611_osr_t) : B bool :=
  lift (log WireBegin ;;
        reset ;;
        setOversampling aSamplingRate ;;
        delay 100 ;;
        readPROM ;;
        assign set_myPendingValueType NONE ;;
        assign set_myPressureSmoothingFactor (d_dec 9 (-1))) ;;;
  begin_seed fuel 50 ;;;
  D2 <~ readRawTemperature fuel ;;;
  lift (assign set_myRawTemperatureVal_D2 D2 ;;
        assign set_myVerticalSpeed (c_int (d_trunc (d_dec 0 0))) ;;
        assign set_myVerticalSpeedSmoothingFactor (d_dec 9 (-1))) ;;;
  t <~ readTemperature fuel true ;;;
  lift (assign set_myTemperatureVal (s32 (d_trunc t)) ;;
        p <- getSmoothedPressure ;;
        assign set_myReferenceHeight (calcAltitude p default_aSeaLevelPressure) ;;
        assign set_myDoSecondOrderCompensation false ;;
        assign set_myRunCnt 0 ;;
        assign set_myWarmUpPhase true ;;
        ret true).

(** ** The usage sketch

    [setup] retries [begin] for as long as it returns false.  The result is
    the number of times the body of that loop ran; [tries] bounds the
    iterations of the loop. *)
Fixpoint setup_retry (tries : nat) (fuel : nat) (ran : nat) : B nat :=
  fun c =>
    match tries with
    | O => None
    | S tries' =>
        match begin fuel MS5611_ULTRA_HIGH_RES c with
        | None => None
        | Some (true, c') => Some (ran, c')
        | Some (false, c') =>
            setup_retry tries' fuel (S ran)
              (snd ((log (SerialPrintln "# waiting for varioMS5611") ;;
                     delay 500) c'))
        end
    end.

Definition setup (tries : nat) (fuel : nat) : B nat :=
  lift (log (SerialBegin 115200) ;;
        log (SerialPrintln "# Simple VarioMS5611 usage ... ")) ;;;
  ran <~ setup_retry tries fuel O ;;;
  lift (setOversampling MS5611_ULTRA_HIGH_RES ;;
        setVerticalSpeedSmoothingFactor (d_dec 92 (-2)) ;;
        setPressureSmoothingFactor (d_dec 93 (-2)) ;;
        ret ran).

(** ** Executions of the caller's loop

    Between two calls of the state machine any time may pass.  An
    execution is a list of such steps. *)
Inductive action : Type :=
| Elapse (ms : Z)
| Poll (aRequestType : vario_value_t).

(** The deadline has passed: the call is a ready cycle. *)
Definition ready (c : Config) : bool := nextRead (obj c) <? clock (env c).

Definition perform (a : action) (c : Config) : Config :=
  match a with
  | Elapse ms => snd (delay ms c)
  | Poll r => snd (triggerReadValues r c)
  end.

Fixpoint exec (acts : list action) (c : Config) : Config :=
  match acts with
  | [] => c
  | a :: rest => exec rest (perform a c)
  end.

(** Number of ready cycles in an execution. *)
Fixpoint ready_cycles (acts : list action) (c : Config) : nat :=
  match acts with
  | [] => O
  | a :: rest =>
      ((match a with
        | Poll _ => if ready c then 1 else 0
        | Elapse _ => 0
        end) + ready_cycles rest (perform a c))%nat
  end.

(** The conversion a command byte starts, if any. *)
Definition conversion_of (b : Z) : option vario_value_t :=
  if Z.land b 0xF0 =? MS5611_CMD_CONV_D1 then Some DIGITAL_PRESSURE_VALUE
  else if Z.land b 0xF0 =? MS5611_CMD_CONV_D2 then Some DIGITAL_TEMPERATURE_VALUE
  else None.

(** The conversion requests of a trace, newest first. *)
Fixpoint conversion_requests (tr : list event) : list vario_value_t :=
  match tr with
  | [] => []
  | WireSent b :: rest =>
      match conversion_of b with
      | Some k => k :: conversion_requests rest
      | None => conversion_requests rest
      end
  | _ :: rest => conversion_requests rest
  end.

(** Number of assignments to the reference height made by the state
    machine in a trace. *)
Fixpoint reference_fixes (tr : list event) : nat :=
  match tr with
  | [] => O
  | RefHeightFixed :: rest => S (reference_fixes rest)
  | _ :: rest => reference_fixes rest
  end.

End Driver.

Arguments VarioMS5611 {FP}.
Arguments Config {FP}.

(** ** The formulas in the specification's words

    Exact integer arithmetic; every division truncates. *)
Module Datasheet.

Definition dT (calib : list Z) (rawTemperature : Z) : Z :=
  rawTemperature - nth 4 calib 0 * 256.

Definition TEMP (calib : list Z) (rawTemperature : Z) : Z :=
  2000 + (dT calib rawTemperature * nth 5 calib 0) ÷ 8388608.

Definition OFF (calib : list Z) (rawTemperature : Z) : Z :=
  nth 1 calib 0 * 65536 + (nth 3 calib 0 * dT calib rawTemperature) ÷ 128.

Definition SENS (calib : list Z) (rawTemperature : Z) : Z :=
  nth 0 calib 0 * 32768 + (nth 2 calib 0 * dT calib rawTemperature) ÷ 256.

Definition Pressure (calib : list Z) (rawPressure rawTemperature : Z) : Z :=
  ((rawPressure * SENS calib rawTemperature) ÷ 2097152
   - OFF calib rawTemperature) ÷ 32768.

(** The temperature with its second-order correction, every product of
    [calcTemperature] evaluated without loss ("all intermediate arithmetic
    must use signed 64-bit precision"). *)
Definition TEMP_second_order (calib : list Z) (rawTemperature : Z) : Z :=
  let t := TEMP calib rawTemperature in
  if t <? 2000
  then t - (dT calib rawTemperature * dT calib rawTemperature) ÷ INT32_MAX
  else t.

End Datasheet.

Definition uint16 (x : Z) : Prop := 0 <= x < 65536.
Definition uint24 (x : Z) : Prop := 0 <= x < 16777216.

(** The return value of the acquisition step as the specification words
    it: true when the conversion just completed is of the kind the caller
    asked for, false otherwise. *)
Definition completed_conversion {FP : Floating} (c : Config)
  : option vario_value_t :=
  if ready c then
    match myPendingValueType (obj c) with
    | DIGITAL_PRESSURE_VALUE => Some DIGITAL_PRESSURE_VALUE
    | DIGITAL_TEMPERATURE_VALUE => Some DIGITAL_TEMPERATURE_VALUE
    | _ => None
    end
  else None.

Definition completed_matches {FP : Floating} (aRequestType : vario_value_t)
  (c : Config) : bool :=
  match completed_conversion c with
  | Some k => vario_value_eqb aRequestType k
  | None => false
  end.

(** ** IEEE binary64 as an instance of [Floating]

    Used to run the model on concrete inputs.  [pow] comes from the C
    library; [binary64_pow] stands in for it with [exp (y * ln x)] summed
    from the series. *)
Module Binary64.

Definition of_Z (z : Z) : float :=
  match z with
  | Z0 => PrimFloat.zero
  | Zpos _ => PrimFloat.of_uint63 (Uint63.of_Z z)
  | Zneg p => PrimFloat.opp (PrimFloat.of_uint63 (Uint63.of_Z (Zpos p)))
  end.

Definition trunc (x : float) : Z :=
  match Prim2SF x with
  | S754_finite s m e =>
      let v := if 0 <=? e then Zpos m * 2 ^ e else Zpos m / 2 ^ (- e) in
      if s then - v else v
  | _ => 0
  end.

Definition dec (m e : Z) : float :=
  if 0 <=? e then of_Z (m * 10 ^ e)
  else PrimFloat.div (of_Z m) (of_Z (10 ^ (- e))).

(** Rounding to the 24-bit significand of [float]. *)
Definition to_float32 (x : float) : float :=
  let '(m, e) := FloatOps.Z.frexp x in
  let big := of_Z (2 ^ 52) in
  let scaled := PrimFloat.mul m (of_Z (2 ^ 24)) in
  let rounded :=
    if PrimFloat.ltb scaled PrimFloat.zero
    then PrimFloat.add (PrimFloat.sub scaled big) big
    else PrimFloat.sub (PrimFloat.add scaled big) big in
  FloatOps.Z.ldexp rounded (e - 24).

Fixpoint series (n : nat) (term : nat -> float -> float) (acc x : float)
  : float :=
  match n with
  | O => acc
  | S n' => series n' term (PrimFloat.add (term n' x) acc) x
  end.

Fixpoint fpow (x : float) (n : nat) : float :=
  match n with
  | O => PrimFloat.one
  | S n' => PrimFloat.mul x (fpow x n')
  end.

Fixpoint ffact (n : nat) : float :=
  match n with
  | O => PrimFloat.one
  | S n' => PrimFloat.mul (of_Z (Z.of_nat n)) (ffact n')
  end.

Definition ln2 : float := 0x1.62e42fefa39efp-1%float.

Definition ln (x : float) : float :=
  let '(m, e) := FloatOps.Z.frexp x in
  let t := PrimFloat.div (PrimFloat.sub m PrimFloat.one)
                         (PrimFloat.add m PrimFloat.one) in
  let s := series 40
             (fun k t => PrimFloat.div (fpow t (2 * k + 1))
                                       (of_Z (Z.of_nat (2 * k + 1))))
             PrimFloat.zero t in
  PrimFloat.add (PrimFloat.mul PrimFloat.two s) (PrimFloat.mul (of_Z e) ln2).

Definition exp (z : float) : float :=
  let k := trunc (PrimFloat.div z ln2) in
  let r := PrimFloat.sub z (PrimFloat.mul (of_Z k) ln2) in
  let s := series 30 (fun i r => PrimFloat.div (fpow r i) (ffact i))
             PrimFloat.zero r in
  FloatOps.Z.ldexp s k.

Definition binary64_pow (x y : float) : float :=
  if PrimFloat.ltb PrimFloat.zero x then exp (PrimFloat.mul y (ln x))
  else if PrimFloat.eqb x PrimFloat.zero then PrimFloat.zero
  else PrimFloat.nan.

Definition binary64 : Floating := {|
  double := float;
  d_of_Z := of_Z;
  d_trunc := trunc;
  d_dec := dec;
  f_dec := fun m e => to_float32 (dec m e);
  dadd := PrimFloat.add;
  dsub := PrimFloat.sub;
  dmul := PrimFloat.mul;
  ddiv := PrimFloat.div;
  dpow := binary64_pow
|}.

End Binary64.

(** ** Concrete configurations *)

(** The sketch's global object before [begin]: static storage, every
    member zero. *)
Definition power_on {FP : Floating} : VarioMS5611 :=
  mkVario false false 0 (d_of_Z 0) (d_of_Z 0) NONE 0 (d_of_Z 0)
    [0; 0; 0; 0; 0; 0] 0 0 0 (d_of_Z 0) 0 0 MS5611_ULTRA_LOW_POWER
    0 0 0 0 0 (d_of_Z 0).

(** A world at time [t] whose device answers every read with [answers]. *)
Definition world_at (t : Z) (answers : nat -> Z) : World :=
  mkWorld t answers 0 [].

(** The calibration words of the datasheet's worked example. *)
Definition datasheet_calibration : list Z :=
  [40127; 36924; 23317; 23282; 33464; 28312].

Definition datasheet_object {FP : Floating} : VarioMS5611 :=
  set_myCompensationValues datasheet_calibration power_on.

(** The sketch's object right after power-on, in a world at 0 ms whose
    device answers zeros, with binary64 arithmetic. *)
Definition boot : @Config Binary64.binary64 :=
  mkConfig power_on (world_at 0 (fun _ => 0)).

(** ** The scheduling view of a configuration

    What the order of the conversions depends on: the cycle counter, the
    pending kind, the wait time and the oversampling code, the deadline,
    the clock, and, of the trace, the conversion requests and the number
    of reference-height assignments. *)
Record Sched : Type := mkSched {
  s_cnt : Z;
  s_pending : vario_value_t;
  s_ct : Z;
  s_uosr : ms5611_osr_t;
  s_next : Z;
  s_clock : Z;
  s_requests : list vario_value_t;
  s_fixes : nat
}.

Definition sched {FP : Floating} (c : Config) : Sched :=
  mkSched (myRunCnt (obj c)) (myPendingValueType (obj c)) (myct (obj c))
    (myuosr (obj c)) (nextRead (obj c)) (clock (env c))
    (conversion_requests (trace (env c))) (reference_fixes (trace (env c))).

(** The acquisition step seen through the view. *)
Definition sched_step {IW : int_width} (r : vario_value_t) (v : Sched)
  : bool * Sched :=
  if s_next v <? s_clock v then
    let cnt := c_uint (s_cnt v + 1) in
    let fixes := if cnt =? 100 then S (s_fixes v) else s_fixes v in
    let next_kind :=
      match r with
      | NONE => if Z.rem cnt 2 =? 0 then DIGITAL_TEMPERATURE_VALUE
                else DIGITAL_PRESSURE_VALUE
      | _ => r
      end in
    let requests :=
      match next_kind with
      | LAST | NONE => s_requests v
      | k => k :: s_requests v
      end in
    (vario_value_eqb r (s_pending v),
     mkSched cnt next_kind (s_ct v) (s_uosr v) (u32 (s_clock v + s_ct v))
       (s_clock v) requests fixes)
  else (false, v).

Definition sched_delay (ms : Z) (v : Sched) : Sched :=
  mkSched (s_cnt v) (s_pending v) (s_ct v) (s_uosr v) (s_next v)
    (u32 (s_clock v + ms)) (s_requests v) (s_fixes v).

(** The members of the object that the view shows. *)
Definition oview {FP : Floating} (o : VarioMS5611)
  : Z * vario_value_t * Z * ms5611_osr_t * Z :=
  (myRunCnt o, myPendingValueType o, myct o, myuosr o, nextRead o).

(** A method that leaves the view as it is. *)
Definition keeps_sched {FP : Floating} {A : Type} (m : M A) : Prop :=
  forall c, sched (snd (m c)) = sched c.

(** The three stages of a ready cycle of [triggerReadValues]. *)
Section Stages.

Context {FP : Floating} {IW : int_width}.

Notation "x <- m ;; k" := (bind m (fun x => k))
  (at level 61, m at next level, right associativity).
Notation "m ;; k" := (bind m (fun _ => k))
  (at level 61, right associativity).

Definition count_cycle : M unit :=
  cnt <- the myRunCnt ;;
  assign set_myRunCnt (c_uint (cnt + 1)) ;;
  cnt <- the myRunCnt ;;
  (if cnt =? 100 then
     assign set_myWarmUpPhase false ;;
     p <- getSmoothedPressure ;;
     assign set_myReferenceHeight (calcAltitude p default_aSeaLevelPressure) ;;
     log RefHeightFixed
   else ret tt).

Definition fetch_pending : M unit :=
  pending <- the myPendingValueType ;;
  match pending with
  | DIGITAL_PRESSURE_VALUE =>
      v <- readRegister24 MS5611_CMD_ADC_READ ;;
      assign set_myRawPressureVal_D1 v ;;
      D2 <- the myRawTemperatureVal_D2 ;;
      t <- method (calcTemperature D2) ;;
      assign set_myTemperatureVal t ;;
      D1 <- the myRawPressureVal_D1 ;;
      D2 <- the myRawTemperatureVal_D2 ;;
      p <- method (calcTemperatureCompensatedPressure D1 D2) ;;
      assign set_myPressureVal p ;;
      calcFilter
  | DIGITAL_TEMPERATURE_VALUE =>
      v <- readRegister24 MS5611_CMD_ADC_READ ;;
      assign set_myRawTemperatureVal_D2 v
  | _ => ret tt
  end.

Definition request_next (aRequestType : vario_value_t) : M bool :=
  pending <- the myPendingValueType ;;
  let retVal := vario_value_eqb aRequestType pending in
  valueAddr <-
    (match aRequestType with
     | DIGITAL_TEMPERATURE_VALUE =>
         assign set_myPendingValueType aRequestType ;;
         uosr <- the myuosr ;;
         ret (Some (u8 (MS5611_CMD_CONV_D2 + osr_code uosr)))
     | DIGITAL_PRESSURE_VALUE =>
         assign set_myPendingValueType aRequestType ;;
         uosr <- the myuosr ;;
         ret (Some (u8 (MS5611_CMD_CONV_D1 + osr_code uosr)))
     | LAST =>
         assign set_myPendingValueType aRequestType ;;
         ret None
     | NONE =>
         cnt <- the myRunCnt ;;
         uosr <- the myuosr ;;
         if Z.rem cnt 2 =? 0 then
           assign set_myPendingValueType DIGITAL_TEMPERATURE_VALUE ;;
           ret (Some (u8 (MS5611_CMD_CONV_D2 + osr_code uosr)))
         else
           assign set_myPendingValueType DIGITAL_PRESSURE_VALUE ;;
           ret (Some (u8 (MS5611_CMD_CONV_D1 + osr_code uosr)))
     end) ;;
  log (match valueAddr with
       | Some b => WireSent b
       | None => WireSentIndeterminate
       end) ;;
  now <- millis ;;
  ct <- the myct ;;
  assign set_nextRead (u32 (now + ct)) ;;
  ret retVal.

End Stages.

(** Executions seen through the view. *)
Definition sched_perform {IW : int_width} (a : action) (v : Sched) : Sched :=
  match a with
  | Elapse ms => sched_delay ms v
  | Poll r => snd (sched_step r v)
  end.

Fixpoint sched_exec {IW : int_width} (acts : list action) (v : Sched) : Sched :=
  match acts with
  | [] => v
  | a :: rest => sched_exec rest (sched_perform a v)
  end.

Fixpoint sched_ready_cycles {IW : int_width} (acts : list action) (v : Sched)
  : nat :=
  match acts with
  | [] => O
  | a :: rest =>
      Nat.add
        (match a with
         | Poll _ => if s_next v <? s_clock v then 1%nat else 0%nat
         | Elapse _ => 0%nat
         end)
        (sched_ready_cycles rest (sched_perform a v))
  end.

(** An execution in which no kind is ever asked for: only [run()], that
    is [triggerReadValues(NONE)], and the passing of time. *)
Definition only_run (acts : list action) : Prop :=
  Forall (fun a => match a with
                   | Poll r => r = NONE
                   | Elapse _ => True
                   end) acts.

(** The kind that the parity of the incremented counter selects. *)
Definition kind_of_count (cnt : Z) : vario_value_t :=
  if Z.rem cnt 2 =? 0 then DIGITAL_TEMPERATURE_VALUE
  else DIGITAL_PRESSURE_VALUE.

(** The kinds selected on [n] successive ready cycles that start from the
    counter value [cnt], oldest first. *)
Fixpoint expected_requests {IW : int_width} (cnt : Z) (n : nat)
  : list vario_value_t :=
  match n with
  | O => []
  | S n' =>
      kind_of_count (c_uint (cnt + 1))
      :: expected_requests (c_uint (cnt + 1)) n'
  end.

(** No two neighbours are equal. *)
Fixpoint alternating (l : list vario_value_t) : Prop :=
  match l with
  | a :: ((b :: _) as rest) => a <> b /\ alternating rest
  | _ => True
  end.

Definition count_kind (k : vario_value_t) (l : list vario_value_t) : nat :=
  List.length (filter (vario_value_eqb k) l).

(** Among [n] successive ready cycles that start from the counter value
    [cnt], the number of those on which the counter becomes 100. *)
Fixpoint hits_100 {IW : int_width} (cnt : Z) (n : nat) : nat :=
  match n with
  | O => O
  | S n' =>
      Nat.add (if c_uint (cnt + 1) =? 100 then 1%nat else 0%nat)
              (hits_100 (c_uint (cnt + 1)) n')
  end.

(** The sketch's [loop()], [n] times: [run()] once every 11 ms. *)
Fixpoint polling (n : nat) : list action :=
  match n with
  | O => []
  | S n' => Elapse 11 :: Poll NONE :: polling n'
  end.

(** The scheduling state in which a blocking read is sure to end: a wait
    time as [setOversampling] sets it, a deadline at most 10 ms ahead, a
    clock that has not passed [bound]. *)
Definition steady {FP : Floating} (bound : Z) (c : Config) : Prop :=
  0 <= myct (obj c) <= 10
  /\ 0 <= clock (env c) <= bound
  /\ nextRead (obj c) <= clock (env c) + 10.

(** The members a compensation call may write: two objects agree on all
    the others. *)
Definition same_but_scratch {FP : Floating} (o o' : VarioMS5611) : Prop :=
  set_myTEMP2 0 (set_myOFF2 0 (set_mySENS2 0 o))
  = set_myTEMP2 0 (set_myOFF2 0 (set_mySENS2 0 o')).

(** Simplification of member reads over member writes, leaving the
    integer arithmetic as it is written. *)
Ltac simpl_obj :=
  cbn [fst snd C
       myDoSecondOrderCompensation myWarmUpPhase myRunCnt myPressureSmoothingFactor myReferenceHeight myPendingValueType myVerticalSpeed myVerticalSpeedSmoothingFactor myCompensationValues myRawPressureVal_D1 myRawTemperatureVal_D2 myPressureVal mySmoothedPressureVal myTemperatureVal myct myuosr myTEMP2 myOFF2 mySENS2 nextRead lastTime lastAltitude
       set_myDoSecondOrderCompensation set_myWarmUpPhase set_myRunCnt set_myPressureSmoothingFactor set_myReferenceHeight set_myPendingValueType set_myVerticalSpeed set_myVerticalSpeedSmoothingFactor set_myCompensationValues set_myRawPressureVal_D1 set_myRawTemperatureVal_D2 set_myPressureVal set_mySmoothedPressureVal set_myTemperatureVal set_myct set_myuosr set_myTEMP2 set_myOFF2 set_mySENS2 set_nextRead set_lastTime set_lastAltitude].
Ltac simpl_obj_in H :=
  cbn [fst snd C
       myDoSecondOrderCompensation myWarmUpPhase myRunCnt myPressureSmoothingFactor myReferenceHeight myPendingValueType myVerticalSpeed myVerticalSpeedSmoothingFactor myCompensationValues myRawPressureVal_D1 myRawTemperatureVal_D2 myPressureVal mySmoothedPressureVal myTemperatureVal myct myuosr myTEMP2 myOFF2 mySENS2 nextRead lastTime lastAltitude
       set_myDoSecondOrderCompensation set_myWarmUpPhase set_myRunCnt set_myPressureSmoothingFactor set_myReferenceHeight set_myPendingValueType set_myVerticalSpeed set_myVerticalSpeedSmoothingFactor set_myCompensationValues set_myRawPressureVal_D1 set_myRawTemperatureVal_D2 set_myPressureVal set_mySmoothedPressureVal set_myTemperatureVal set_myct set_myuosr set_myTEMP2 set_myOFF2 set_mySENS2 set_nextRead set_lastTime set_lastAltitude] in H.

(** * Further definitions *)

(** ** The second-order pressure in exact arithmetic *)
(** The pressure with the second-order corrections as
    [calcTemperatureCompensatedPressure] writes them, in exact integer
    arithmetic. *)
Module Exact.

Definition OFF2 (TEMP : Z) : Z :=
  (if TEMP <? 2000 then (5 * ((TEMP - 2000) * (TEMP - 2000))) ÷ 2 else 0)
  + (if TEMP <? -1500 then 7 * ((TEMP + 1500) * (TEMP + 1500)) else 0).

Definition SENS2 (TEMP : Z) : Z :=
  (if TEMP <? 2000 then (5 * ((TEMP - 2000) * (TEMP - 2000))) ÷ 4 else 0)
  + (if TEMP <? -1500 then (11 * ((TEMP + 1500) * (TEMP + 1500))) ÷ 2 else 0).

Definition Pressure (calib : list Z) (rawPressure rawTemperature : Z) : Z :=
  let TEMP := Datasheet.TEMP calib rawTemperature in
  ((rawPressure * (Datasheet.SENS calib rawTemperature - SENS2 TEMP)) ÷ 2097152
   - (Datasheet.OFF calib rawTemperature - OFF2 TEMP)) ÷ 32768.

End Exact.

(** ** Words on the bus *)

(** The big-endian word of the [n] bytes that the device answers from
    position [pos] on. *)
Fixpoint wire_word (answers : nat -> Z) (pos : nat) (n : nat) : Z :=
  match n with
  | O => 0
  | S n' => u8 (answers pos) * 256 ^ Z.of_nat n' + wire_word answers (S pos) n'
  end.

(** The six calibration words that [readPROM] finds when the device
    answers from position [pos] on. *)
Definition prom_words (answers : nat -> Z) (pos : nat) : list Z :=
  map (fun i => wire_word answers (pos + 2 * i) 2) (seq 0 6).

(** The array and the trace after [n] iterations of the loop of
    [readPROM] from [offset] on. *)
Fixpoint prom_array (answers : nat -> Z) (pos : nat) (n offset : nat)
  (l : list Z) : list Z :=
  match n with
  | O => l
  | S n' =>
      prom_array answers (2 + pos) n' (S offset)
        (list_set offset (wire_word answers pos 2) l)
  end.

Fixpoint prom_trace (n offset : nat) (tr : list event) : list event :=
  match n with
  | O => tr
  | S n' =>
      prom_trace n' (S offset)
        (WireRequested 2
         :: WireSent (u8 (MS5611_CMD_READ_PROM + Z.of_nat offset * 2)) :: tr)
  end.

(** ** Frames and views of the object *)

(** A method that leaves a projection [P] of the object as it is, and a
    method that leaves the world as it is. *)
Definition okeeps {FP : Floating} {A X : Type} (P : VarioMS5611 -> X)
  (m : M A) : Prop :=
  forall c, P (obj (snd (m c))) = P (obj c).

Definition ekeeps {FP : Floating} {A : Type} (m : M A) : Prop :=
  forall c, env (snd (m c)) = env c.

(** What the caller configures: the calibration words, the second-order
    flag, the two smoothing factors, and the oversampling with its wait
    time. *)
Definition settings {FP : Floating} (o : VarioMS5611)
  : list Z * bool * double * double * Z * ms5611_osr_t :=
  (myCompensationValues o, myDoSecondOrderCompensation o,
   myPressureSmoothingFactor o, myVerticalSpeedSmoothingFactor o,
   myct o, myuosr o).

(** What a pressure cycle computes: the raw pressure and the values
    derived from it. *)
Definition measurement {FP : Floating} (o : VarioMS5611)
  : Z * Z * Z * double * Z * double * Z :=
  (myRawPressureVal_D1 o, myPressureVal o, myTemperatureVal o,
   mySmoothedPressureVal o, myVerticalSpeed o, lastAltitude o, lastTime o).

(** What the filters work on: the smoothing factors, the smoothed
    pressure, the vertical speed with its last altitude and time, and the
    warm-up flag. *)
Definition vario_state {FP : Floating} (o : VarioMS5611)
  : double * double * double * Z * double * Z * bool :=
  (myPressureSmoothingFactor o, mySmoothedPressureVal o,
   myVerticalSpeedSmoothingFactor o, myVerticalSpeed o,
   lastAltitude o, lastTime o, myWarmUpPhase o).

(** The wait time that [setOversampling] selects. *)
Definition conversion_time (osr : ms5611_osr_t) : Z :=
  match osr with
  | MS5611_ULTRA_LOW_POWER => 1
  | MS5611_LOW_POWER => 2
  | MS5611_STANDARD => 3
  | MS5611_HIGH_RES => 5
  | MS5611_ULTRA_HIGH_RES => 10
  end.

(** The kind that a ready cycle requests, from the request argument and
    the incremented counter, and the bus event of that request. *)
Definition next_kind (r : vario_value_t) (cnt : Z) : vario_value_t :=
  match r with
  | NONE => kind_of_count cnt
  | _ => r
  end.

Definition request_event (k : vario_value_t) (osr : ms5611_osr_t) : event :=
  match k with
  | DIGITAL_TEMPERATURE_VALUE => WireSent (u8 (MS5611_CMD_CONV_D2 + osr_code osr))
  | DIGITAL_PRESSURE_VALUE => WireSent (u8 (MS5611_CMD_CONV_D1 + osr_code osr))
  | _ => WireSentIndeterminate
  end.

(** Whether a conversion is pending, so that a ready cycle reads the
    ADC. *)
Definition conversion_pending (k : vario_value_t) : bool :=
  match k with
  | DIGITAL_PRESSURE_VALUE | DIGITAL_TEMPERATURE_VALUE => true
  | _ => false
  end.

(** The bus trace only grew from [c] to [c']. *)
Definition trace_extends {FP : Floating} (c c' : Config) : Prop :=
  exists l, trace (env c') = l ++ trace (env c).

(** ** Time in an execution *)

(** The time that passes in an execution, and an execution in which no
    step moves the clock backwards. *)
Fixpoint elapsed (acts : list action) : Z :=
  match acts with
  | [] => 0
  | Elapse ms :: rest => ms + elapsed rest
  | Poll _ :: rest => elapsed rest
  end.

Definition forward (acts : list action) : Prop :=
  Forall (fun a => match a with
                   | Elapse ms => 0 <= ms
                   | Poll _ => True
                   end) acts.

(** The largest value of [unsigned long]. *)
Definition UINT32_MAX : Z := 4294967295.

(** ** The driver in use

    A conversion has been requested and not yet read: the state of the
    driver from [begin] on. *)
Definition conversion_requested {FP : Floating} (c : Config) : Prop :=
  myPendingValueType (obj c) = DIGITAL_PRESSURE_VALUE
  \/ myPendingValueType (obj c) = DIGITAL_TEMPERATURE_VALUE.

(** The calls that the class makes of its private [triggerReadValues]:
    [run()] passes [NONE], the blocking reads pass the kind they wait
    for; [LAST] is never passed. *)
Definition class_calls (acts : list action) : Prop :=
  Forall (fun a => match a with
                   | Poll r => r <> LAST
                   | Elapse _ => True
                   end) acts.

(** The configuration at the start of iteration [k] of the loop
    [while (!triggerReadValues(aRequestType)) delay(1);]. *)
Fixpoint waits {FP : Floating} {IW : int_width} (k : nat)
  (aRequestType : vario_value_t) (c : Config) : Config :=
  match k with
  | O => c
  | S k' =>
      waits k' aRequestType
        (snd (delay 1 (snd (triggerReadValues aRequestType c))))
  end.

(** A blocking method that, when it returns, leaves a projection [P] of
    the object as it was. *)
Definition bkeeps {FP : Floating} {A X : Type} (P : VarioMS5611 -> X)
  (m : B A) : Prop :=
  forall c a c', m c = Some (a, c') -> P (obj c') = P (obj c).

(** ** Example configurations *)

(** Configurations for the examples: the datasheet's calibration, a
    conversion of kind [k] pending, the deadline passed at 1 ms, and a
    device that answers the bytes 130, 131, 132, ... *)
Definition counting_answers (n : nat) : Z := Z.of_nat n + 130.

Definition pending_at_1ms (k : vario_value_t) : @Config Binary64.binary64 :=
  mkConfig (set_myPendingValueType k datasheet_object)
           (world_at 1 counting_answers).

(** The object with the 10 ms wait time at clock [t]. *)
Definition waiting_10ms_at (t : Z) : @Config Binary64.binary64 :=
  mkConfig (set_myct 10 power_on) (world_at t counting_answers).

(** The counter at 0 and the warm-up phase on, as [begin] leaves them. *)
Definition warming_up : @Config Binary64.binary64 :=
  mkConfig (set_myWarmUpPhase true power_on) (world_at 0 counting_answers).

(** * Properties *)

(** ** Wrap-around is the identity within the type's range *)

Lemma u32_id x : 0 <= x < 2 ^ 32 -> u32 x = x.
Proof. intros H. unfold u32, wrap_unsigned. apply Z.mod_small. exact H. Qed.

Lemma s32_id x : - 2 ^ 31 <= x < 2 ^ 31 -> s32 x = x.
Proof.
  intros H. unfold s32, wrap_signed.
  change (2 ^ (32 - 1)) with 2147483648. change (2 ^ 32) with 4294967296.
  change (2 ^ 31) with 2147483648 in H.
  rewrite Z.mod_small; lia.
Qed.

Lemma s64_id x : - 2 ^ 63 <= x < 2 ^ 63 -> s64 x = x.
Proof.
  intros H. unfold s64, wrap_signed.
  change (2 ^ (64 - 1)) with 9223372036854775808.
  change (2 ^ 64) with 18446744073709551616.
  change (2 ^ 63) with 9223372036854775808 in H.
  rewrite Z.mod_small; lia.
Qed.

(** Converting a difference computed in [uint32_t] to [int32_t] gives the
    mathematical difference when that fits. *)
Lemma s32_u32 x : - 2 ^ 31 <= x < 2 ^ 31 -> s32 (u32 x) = x.
Proof.
  intros H. unfold s32, u32, wrap_signed, wrap_unsigned.
  change (2 ^ (32 - 1)) with 2147483648. change (2 ^ 32) with 4294967296.
  change (2 ^ 31) with 2147483648 in H.
  rewrite Zplus_mod_idemp_l. rewrite Z.mod_small; lia.
Qed.

(** Truncating division does not grow the magnitude. *)
Lemma quot_range x d m : 0 < d -> - (m * d) <= x <= m * d -> - m <= x ÷ d <= m.
Proof.
  intros Hd [Hlo Hhi]. split.
  - rewrite <- (Z.quot_mul (- m) d) by lia.
    apply Z.quot_le_mono; lia.
  - rewrite <- (Z.quot_mul m d) by lia.
    apply Z.quot_le_mono; lia.
Qed.

Lemma quot_range_lit x d m lo :
  0 < d -> lo = - m -> lo * d <= x <= m * d -> lo <= x ÷ d <= m.
Proof. intros Hd -> H. apply quot_range; lia. Qed.

Lemma mul_range a b A Bd :
  0 <= a <= A -> - Bd <= b <= Bd -> - (A * Bd) <= a * b <= A * Bd.
Proof. intros Ha Hb. nia. Qed.

Lemma nth_uint16 (l : list Z) (i : nat) : Forall uint16 l -> uint16 (nth i l 0).
Proof.
  intros H. revert i. induction H as [| x l Hx _ IH]; intros [| i]; simpl;
    try (unfold uint16; lia); auto.
Qed.

(** ** Compensation Engine *)

Section Compensation.

Context {FP : Floating}.

(** [dT] as the code computes it is the datasheet's [dT]. *)
Lemma code_dT (calib : list Z) (rawT : Z) :
  Forall uint16 calib -> uint24 rawT ->
  s32 (u32 (rawT - u32 (u32 (nth 4 calib 0) * 256))) = Datasheet.dT calib rawT
  /\ - 16777216 < Datasheet.dT calib rawT < 16777216.
Proof.
  intros Hc Ht. pose proof (nth_uint16 calib 4 Hc) as H4.
  unfold uint16, uint24 in *. unfold Datasheet.dT.
  rewrite (u32_id (nth 4 calib 0)) by lia.
  rewrite (u32_id (nth 4 calib 0 * 256)) by lia.
  rewrite s32_u32 by lia. lia.
Qed.

(** The first-order [TEMP] as the code computes it. *)
Lemma code_TEMP (calib : list Z) (rawT : Z) :
  Forall uint16 calib -> uint24 rawT ->
  s32 (s64 (2000 + s64 (s64 (Datasheet.dT calib rawT * nth 5 calib 0) ÷ 8388608)))
  = Datasheet.TEMP calib rawT.
Proof.
  intros Hc Ht. destruct (code_dT calib rawT Hc Ht) as [_ Hd].
  pose proof (nth_uint16 calib 5 Hc) as H5. unfold uint16 in H5.
  unfold Datasheet.TEMP.
  set (d := Datasheet.dT calib rawT) in *. set (c5 := nth 5 calib 0) in *.
  assert (Hp : - (65536 * 16777216) <= c5 * d <= 65536 * 16777216)
    by (apply mul_range; lia).
  rewrite (Z.mul_comm d c5).
  rewrite (s64_id (c5 * d)) by lia.
  assert (Hq : - 131072 <= (c5 * d) ÷ 8388608 <= 131072)
    by (apply quot_range_lit; lia).
  rewrite (s64_id ((c5 * d) ÷ 8388608)) by lia.
  rewrite s64_id by lia. rewrite s32_id by lia. reflexivity.
Qed.

(** [OFF] and [SENS] as the code computes them. *)
Lemma code_OFF (calib : list Z) (rawT : Z) :
  Forall uint16 calib -> uint24 rawT ->
  s64 (s64 (nth 1 calib 0 * 65536)
       + s64 (s64 (nth 3 calib 0 * Datasheet.dT calib rawT) ÷ 128))
  = Datasheet.OFF calib rawT
  /\ - 2 ^ 34 <= Datasheet.OFF calib rawT <= 2 ^ 34.
Proof.
  intros Hc Ht. destruct (code_dT calib rawT Hc Ht) as [_ Hd].
  pose proof (nth_uint16 calib 1 Hc) as H1.
  pose proof (nth_uint16 calib 3 Hc) as H3. unfold uint16 in *.
  unfold Datasheet.OFF.
  set (d := Datasheet.dT calib rawT) in *.
  set (c1 := nth 1 calib 0) in *. set (c3 := nth 3 calib 0) in *.
  assert (Hp : - (8589934592 * 128) <= c3 * d <= 8589934592 * 128)
    by (pose proof (mul_range c3 d 65536 16777216); lia).
  assert (Hq : - 8589934592 <= (c3 * d) ÷ 128 <= 8589934592)
    by (apply quot_range_lit; lia).
  change (2 ^ 34) with 17179869184.
  rewrite (s64_id (c1 * 65536)) by lia.
  rewrite (s64_id (c3 * d)) by lia.
  rewrite (s64_id ((c3 * d) ÷ 128)) by lia.
  rewrite s64_id by lia. lia.
Qed.

Lemma code_SENS (calib : list Z) (rawT : Z) :
  Forall uint16 calib -> uint24 rawT ->
  s64 (s64 (nth 0 calib 0 * 32768)
       + s64 (s64 (nth 2 calib 0 * Datasheet.dT calib rawT) ÷ 256))
  = Datasheet.SENS calib rawT
  /\ - 2 ^ 33 <= Datasheet.SENS calib rawT <= 2 ^ 33.
Proof.
  intros Hc Ht. destruct (code_dT calib rawT Hc Ht) as [_ Hd].
  pose proof (nth_uint16 calib 0 Hc) as H0.
  pose proof (nth_uint16 calib 2 Hc) as H2. unfold uint16 in *.
  unfold Datasheet.SENS.
  set (d := Datasheet.dT calib rawT) in *.
  set (c0 := nth 0 calib 0) in *. set (c2 := nth 2 calib 0) in *.
  assert (Hp : - (4294967296 * 256) <= c2 * d <= 4294967296 * 256)
    by (pose proof (mul_range c2 d 65536 16777216); lia).
  assert (Hq : - 4294967296 <= (c2 * d) ÷ 256 <= 4294967296)
    by (apply quot_range_lit; lia).
  change (2 ^ 33) with 8589934592.
  rewrite (s64_id (c0 * 32768)) by lia.
  rewrite (s64_id (c2 * d)) by lia.
  rewrite (s64_id ((c2 * d) ÷ 256)) by lia.
  rewrite s64_id by lia. lia.
Qed.

(** The last line of the pressure computation: the quotient fits
    [int32_t], so storing it in a [uint32_t] and returning it as
    [int32_t] loses nothing. *)
Lemma code_result (rawP off sens : Z) :
  uint24 rawP -> - 2 ^ 34 <= off <= 2 ^ 34 -> - 2 ^ 33 <= sens <= 2 ^ 33 ->
  s32 (u32 (s64 (s64 (s64 (s64 (rawP * sens) ÷ 2097152) - off) ÷ 32768)))
  = ((rawP * sens) ÷ 2097152 - off) ÷ 32768.
Proof.
  unfold uint24. change (2 ^ 34) with 17179869184.
  change (2 ^ 33) with 8589934592. intros Hp Ho Hs.
  assert (H1 : - (68719476736 * 2097152) <= rawP * sens <= 68719476736 * 2097152)
    by (pose proof (mul_range rawP sens 16777216 8589934592); lia).
  assert (H2 : - 68719476736 <= (rawP * sens) ÷ 2097152 <= 68719476736)
    by (apply quot_range_lit; lia).
  assert (H3 : - 4194304 <= ((rawP * sens) ÷ 2097152 - off) ÷ 32768 <= 4194304)
    by (apply quot_range_lit; lia).
  rewrite (s64_id (rawP * sens)) by lia.
  rewrite (s64_id ((rawP * sens) ÷ 2097152)) by lia.
  rewrite (s64_id ((rawP * sens) ÷ 2097152 - off)) by lia.
  rewrite s64_id by lia.
  apply s32_u32. lia.
Qed.

(** C1. With second-order compensation disabled, for six calibration
    words of 16 bits and raw pressure and temperature of 24 bits,
    [calcTemperatureCompensatedPressure] returns the datasheet's
    first-order pressure computed in exact integer arithmetic with
    truncating divisions. *)
Theorem calcTemperatureCompensatedPressure_first_order
  (o : VarioMS5611) (rawPressure rawTemperature : Z) :
  myDoSecondOrderCompensation o = false ->
  List.length (myCompensationValues o) = 6%nat ->
  Forall uint16 (myCompensationValues o) ->
  uint24 rawPressure -> uint24 rawTemperature ->
  fst (calcTemperatureCompensatedPressure rawPressure rawTemperature o)
  = Datasheet.Pressure (myCompensationValues o) rawPressure rawTemperature.
Proof.
  intros Hflag _ Hc Hp Ht.
  unfold calcTemperatureCompensatedPressure. rewrite Hflag. cbn [fst].
  unfold C.
  destruct (code_dT _ _ Hc Ht) as [-> _].
  destruct (code_OFF _ _ Hc Ht) as [-> Ho].
  destruct (code_SENS _ _ Hc Ht) as [-> Hs].
  unfold Datasheet.Pressure. apply code_result; assumption.
Qed.

(** C3. Whenever the first-order temperature is at least 2000 (20.00
    degrees C), the temperature and the pressure computed with the
    second-order flag set equal those computed with the flag cleared. *)
Theorem second_order_noop_from_20C
  (o : VarioMS5611) (rawPressure rawTemperature : Z) :
  List.length (myCompensationValues o) = 6%nat ->
  Forall uint16 (myCompensationValues o) ->
  uint24 rawTemperature ->
  2000 <= Datasheet.TEMP (myCompensationValues o) rawTemperature ->
  fst (calcTemperature rawTemperature (set_myDoSecondOrderCompensation true o))
  = fst (calcTemperature rawTemperature (set_myDoSecondOrderCompensation false o))
  /\ fst (calcTemperatureCompensatedPressure rawPressure rawTemperature
            (set_myDoSecondOrderCompensation true o))
     = fst (calcTemperatureCompensatedPressure rawPressure rawTemperature
              (set_myDoSecondOrderCompensation false o)).
Proof.
  intros _ Hc Ht Hwarm.
  assert (Hge : (Datasheet.TEMP (myCompensationValues o) rawTemperature <? 2000)
                = false) by (apply Z.ltb_ge; exact Hwarm).
  assert (Hge' : (Datasheet.TEMP (myCompensationValues o) rawTemperature <? -1500)
                 = false) by (apply Z.ltb_ge; lia).
  split.
  - unfold calcTemperature, C. simpl_obj.
    destruct (code_dT _ _ Hc Ht) as [-> _].
    rewrite (code_TEMP _ _ Hc Ht). rewrite Hge. reflexivity.
  - assert (Hon : myDoSecondOrderCompensation
                    (set_myDoSecondOrderCompensation true o) = true)
      by reflexivity.
    assert (Hoff : myDoSecondOrderCompensation
                     (set_myDoSecondOrderCompensation false o) = false)
      by reflexivity.
    assert (Hcal : forall b, myCompensationValues
                               (set_myDoSecondOrderCompensation b o)
                             = myCompensationValues o) by reflexivity.
    unfold calcTemperatureCompensatedPressure, C.
    rewrite Hon, Hoff, !Hcal. cbv zeta.
    destruct (code_dT _ _ Hc Ht) as [-> _].
    rewrite (code_TEMP _ _ Hc Ht). rewrite Hge, Hge'. simpl_obj.
    destruct (code_OFF _ _ Hc Ht) as [HO Ho].
    destruct (code_SENS _ _ Hc Ht) as [HS Hs].
    rewrite HO, HS.
    change (2 ^ 34) with 17179869184 in Ho.
    change (2 ^ 33) with 8589934592 in Hs.
    rewrite !Z.sub_0_r.
    rewrite (s64_id (Datasheet.OFF _ _)) by lia.
    rewrite (s64_id (Datasheet.SENS _ _)) by lia.
    reflexivity.
Qed.

(** The object after a compensation call: only the scratch members are
    written. *)
Lemma set_myTEMP2_twice (v w : Z) (o : VarioMS5611) :
  set_myTEMP2 v (set_myTEMP2 w o) = set_myTEMP2 v o.
Proof. destruct o. reflexivity. Qed.

Lemma set_scratch_twice (a b a' b' : Z) (o : VarioMS5611) :
  set_mySENS2 a (set_myOFF2 b (set_mySENS2 a' (set_myOFF2 b' o)))
  = set_mySENS2 a (set_myOFF2 b o).
Proof. destruct o. reflexivity. Qed.

Lemma calcTemperature_object (raw : Z) (o : VarioMS5611) :
  exists temp2, snd (calcTemperature raw o) = set_myTEMP2 temp2 o.
Proof.
  unfold calcTemperature. cbv zeta.
  change (myDoSecondOrderCompensation (set_myTEMP2 0 o))
    with (myDoSecondOrderCompensation o).
  destruct (myDoSecondOrderCompensation o);
    [match goal with |- context [?t <? 2000] => destruct (t <? 2000) end |];
    cbv beta iota delta [snd]; rewrite ?set_myTEMP2_twice;
    eexists; reflexivity.
Qed.

Lemma calcTemperatureCompensatedPressure_object (rawP rawT : Z)
  (o : VarioMS5611) :
  exists off2 sens2,
    snd (calcTemperatureCompensatedPressure rawP rawT o)
    = if myDoSecondOrderCompensation o
      then set_mySENS2 sens2 (set_myOFF2 off2 o)
      else o.
Proof.
  unfold calcTemperatureCompensatedPressure.
  destruct (myDoSecondOrderCompensation o) eqn:Hflag;
    [| exists 0, 0; reflexivity].
  cbv zeta.
  match goal with |- context [?t <? 2000] => destruct (t <? 2000) end;
    match goal with |- context [?t <? -1500] => destruct (t <? -1500) end;
    cbv beta iota delta [snd]; rewrite ?set_scratch_twice;
    eexists; eexists; reflexivity.
Qed.

(** C8, as the code has it.  The results of [calcTemperature] and
    [calcTemperatureCompensatedPressure] are functions of the raw values,
    the calibration words and the second-order flag alone, and a call
    leaves every member as it was except the scratch members:
    [calcTemperature] writes [myTEMP2] and nothing else;
    [calcTemperatureCompensatedPressure] writes [myOFF2] and [mySENS2]
    and nothing else when the flag is set, and nothing at all when it is
    not. *)
Theorem compensation_function_of_inputs
  (o1 o2 : VarioMS5611) (rawPressure rawTemperature : Z) :
  myCompensationValues o1 = myCompensationValues o2 ->
  myDoSecondOrderCompensation o1 = myDoSecondOrderCompensation o2 ->
  (fst (calcTemperature rawTemperature o1)
   = fst (calcTemperature rawTemperature o2)
   /\ fst (calcTemperatureCompensatedPressure rawPressure rawTemperature o1)
      = fst (calcTemperatureCompensatedPressure rawPressure rawTemperature o2))
  /\ same_but_scratch o1 (snd (calcTemperature rawTemperature o1))
  /\ same_but_scratch o1
       (snd (calcTemperatureCompensatedPressure rawPressure rawTemperature o1))
  /\ (exists temp2,
        snd (calcTemperature rawTemperature o1) = set_myTEMP2 temp2 o1)
  /\ (exists off2 sens2,
        snd (calcTemperatureCompensatedPressure rawPressure rawTemperature o1)
        = if myDoSecondOrderCompensation o1
          then set_mySENS2 sens2 (set_myOFF2 off2 o1)
          else o1).
Proof.
  intros Hc Hf.
  assert (H1 : forall v, myDoSecondOrderCompensation (set_myTEMP2 v o1)
                         = myDoSecondOrderCompensation o2) by exact (fun _ => Hf).
  assert (H2 : forall v, myDoSecondOrderCompensation (set_myTEMP2 v o2)
                         = myDoSecondOrderCompensation o2) by reflexivity.
  split; [split |]; [| | split; [| split; [| split]]].
  - unfold calcTemperature, C. rewrite Hc.
    cbv zeta. rewrite H1, H2.
    destruct (myDoSecondOrderCompensation o2); [| simpl_obj; reflexivity].
    match goal with |- context [?t <? 2000] => destruct (t <? 2000) end;
      simpl_obj; reflexivity.
  - unfold calcTemperatureCompensatedPressure, C. rewrite Hc, Hf.
    destruct (myDoSecondOrderCompensation o2); [| simpl_obj; reflexivity].
    cbv zeta.
    match goal with |- context [?t <? 2000] => destruct (t <? 2000) end;
      match goal with |- context [?t <? -1500] => destruct (t <? -1500) end;
      simpl_obj; reflexivity.
  - unfold same_but_scratch, calcTemperature.
    cbv zeta. rewrite H1, <- Hf.
    destruct (myDoSecondOrderCompensation o1); [| simpl_obj; reflexivity].
    match goal with |- context [?t <? 2000] => destruct (t <? 2000) end;
      simpl_obj; reflexivity.
  - unfold same_but_scratch, calcTemperatureCompensatedPressure.
    destruct (myDoSecondOrderCompensation o1); [| simpl_obj; reflexivity].
    cbv zeta.
    match goal with |- context [?t <? 2000] => destruct (t <? 2000) end;
      match goal with |- context [?t <? -1500] => destruct (t <? -1500) end;
      simpl_obj; reflexivity.
  - apply calcTemperature_object.
  - apply calcTemperatureCompensatedPressure_object.
Qed.

(** C9. The relative altitude of a pressure is its altitude over the
    default sea-level pressure of 101325 Pa minus the stored reference
    height, whatever reference height is stored. *)
Theorem calcRelAltitude_is_altitude_minus_reference
  (o : VarioMS5611) (aPressure aReferenceHeight : double) :
  calcRelAltitude aPressure o
  = dsub (calcAltitude aPressure (d_of_Z 101325)) (myReferenceHeight o)
  /\ calcRelAltitude aPressure (set_myReferenceHeight aReferenceHeight o)
     = dsub (calcAltitude aPressure (d_of_Z 101325)) aReferenceHeight.
Proof.
  split.
  - unfold calcRelAltitude, default_aSeaLevelPressure. reflexivity.
  - unfold calcRelAltitude, default_aSeaLevelPressure.
    simpl_obj. reflexivity.
Qed.

End Compensation.

(** C2, on the datasheet's calibration words with second-order
    compensation enabled and a raw temperature of 7974202 (just above
    0 degrees C).  [dT] is -592582; its square, which [calcTemperature]
    multiplies out in [int32_t], does not fit 32 bits, and the method
    returns 1 where the same formula evaluated without loss gives -162. *)
Theorem calcTemperature_int32_product_wraps (FP : Floating) :
  let o := set_myDoSecondOrderCompensation true datasheet_object in
  let dT := Datasheet.dT (myCompensationValues o) 7974202 in
  dT = -592582
  /\ s32 (dT * dT) <> dT * dT
  /\ fst (calcTemperature 7974202 o) = 1
  /\ Datasheet.TEMP_second_order (myCompensationValues o) 7974202 = -162.
Proof.
  cbv zeta. repeat split; try (vm_compute; reflexivity).
  vm_compute. discriminate.
Qed.

(** C8 as stated fails: with second-order compensation enabled, a call of
    [calcTemperatureCompensatedPressure] below 20 degrees C changes the
    object (it stores the corrections in [myOFF2] and [mySENS2]). *)
Lemma calcTemperatureCompensatedPressure_changes_object :
  let o := set_myDoSecondOrderCompensation true
             (@datasheet_object Binary64.binary64) in
  snd (calcTemperatureCompensatedPressure 9085466 7974202 o) <> o.
Proof.
  cbv zeta. intros H. apply (f_equal myOFF2) in H. vm_compute in H.
  discriminate.
Qed.

Lemma compensation_function_of_inputs_witness :
  let o1 := @datasheet_object Binary64.binary64 in
  let o2 := set_myTEMP2 5 (set_myPressureVal 17 o1) in
  fst (calcTemperature 8569150 o1) = fst (calcTemperature 8569150 o2)
  /\ snd (calcTemperatureCompensatedPressure 9085466 8569150 o1) = o1.
Proof.
  cbv zeta.
  destruct (compensation_function_of_inputs
              (@datasheet_object Binary64.binary64)
              (set_myTEMP2 5 (set_myPressureVal 17 datasheet_object))
              9085466 8569150) as ((H & _) & _ & _ & _ & off2 & sens2 & E).
  - reflexivity.
  - reflexivity.
  - split; [exact H | exact E].
Defined.

(** ** The acquisition step *)

Section Acquisition.

Context {FP : Floating} {IW : int_width}.

(** A call of [triggerReadValues] is its three stages when the deadline
    has passed and nothing otherwise. *)
Lemma triggerReadValues_stages (r : vario_value_t) (c : Config) :
  triggerReadValues r c
  = if ready c
    then bind count_cycle (fun _ => bind fetch_pending (fun _ => request_next r)) c
    else (false, c).
Proof.
  unfold triggerReadValues, ready. unfold bind at 1 2.
  cbn [millis the fst snd].
  destruct (nextRead (obj c) <? clock (env c)); reflexivity.
Qed.


(** *** Methods that leave the scheduling view alone *)

Lemma sched_of_views (c c' : Config) :
  oview (obj c') = oview (obj c) ->
  clock (env c') = clock (env c) ->
  conversion_requests (trace (env c')) = conversion_requests (trace (env c)) ->
  reference_fixes (trace (env c')) = reference_fixes (trace (env c)) ->
  sched c' = sched c.
Proof.
  unfold oview, sched. intros Ho Hc Hr Hf.
  injection Ho as -> -> -> -> ->. rewrite Hc, Hr, Hf. reflexivity.
Qed.

Lemma keeps_ret {A : Type} (a : A) : keeps_sched (ret a).
Proof. intros c. reflexivity. Qed.

Lemma keeps_bind {A B : Type} (m : M A) (k : A -> M B) :
  keeps_sched m -> (forall a, keeps_sched (k a)) -> keeps_sched (bind m k).
Proof.
  intros Hm Hk c. unfold bind. rewrite Hk. apply Hm.
Qed.

Lemma keeps_the {A : Type} (f : VarioMS5611 -> A) : keeps_sched (the f).
Proof. intros c. reflexivity. Qed.

Lemma keeps_millis : keeps_sched millis.
Proof. intros c. reflexivity. Qed.

Lemma keeps_Wire_read : keeps_sched Wire_read.
Proof. intros c. reflexivity. Qed.

Lemma keeps_method {A : Type} (f : VarioMS5611 -> A * VarioMS5611) :
  (forall o, oview (snd (f o)) = oview o) -> keeps_sched (method f).
Proof.
  intros Hf c. apply sched_of_views; try reflexivity. apply Hf.
Qed.

Lemma keeps_assign {A : Type} (set : A -> VarioMS5611 -> VarioMS5611) (v : A) :
  (forall o, oview (set v o) = oview o) -> keeps_sched (assign set v).
Proof.
  intros Hs c. apply sched_of_views; try reflexivity. apply Hs.
Qed.

Lemma keeps_log (e : event) :
  conversion_requests [e] = [] -> reference_fixes [e] = O ->
  keeps_sched (log e).
Proof.
  intros Hr Hf c. apply sched_of_views; try reflexivity.
  - cbn [log snd env emit trace]. destruct e; try reflexivity; try discriminate.
    cbn [conversion_requests] in *. destruct (conversion_of b);
      [discriminate | reflexivity].
  - cbn [log snd env emit trace]. destruct e; try reflexivity; discriminate.
Qed.

Lemma keeps_if {A : Type} (b : bool) (m1 m2 : M A) :
  keeps_sched m1 -> keeps_sched m2 -> keeps_sched (if b then m1 else m2).
Proof. destruct b; auto. Qed.

Lemma oview_calcTemperature (raw : Z) (o : VarioMS5611) :
  oview (snd (calcTemperature raw o)) = oview o.
Proof.
  unfold calcTemperature. cbv zeta.
  change (myDoSecondOrderCompensation (set_myTEMP2 0 o))
    with (myDoSecondOrderCompensation o).
  destruct (myDoSecondOrderCompensation o); [| reflexivity].
  match goal with |- context [?t <? 2000] => destruct (t <? 2000) end;
    reflexivity.
Qed.

Lemma oview_calcTemperatureCompensatedPressure (rawP rawT : Z) (o : VarioMS5611) :
  oview (snd (calcTemperatureCompensatedPressure rawP rawT o)) = oview o.
Proof.
  unfold calcTemperatureCompensatedPressure.
  destruct (myDoSecondOrderCompensation o); [| reflexivity].
  cbv zeta.
  match goal with |- context [?t <? 2000] => destruct (t <? 2000) end;
    match goal with |- context [?t <? -1500] => destruct (t <? -1500) end;
    reflexivity.
Qed.

Create HintDb sched discriminated.

#[local] Hint Resolve keeps_ret keeps_bind keeps_the keeps_millis
  keeps_Wire_read keeps_if oview_calcTemperature
  oview_calcTemperatureCompensatedPressure : sched.
#[local] Hint Extern 1 (keeps_sched (assign _ _)) =>
  apply keeps_assign; intros; reflexivity : sched.
#[local] Hint Extern 1 (keeps_sched (method _)) =>
  apply keeps_method; intros : sched.
#[local] Hint Extern 1 (keeps_sched (log _)) =>
  apply keeps_log; reflexivity : sched.

Lemma keeps_readRegister24 (reg : Z) :
  conversion_of reg = None -> keeps_sched (readRegister24 reg).
Proof.
  intros H. unfold readRegister24, Wire_transmit.
  apply keeps_bind; [| intros _; auto 10 with sched].
  apply keeps_log; [| reflexivity].
  cbn [conversion_requests]. rewrite H. reflexivity.
Qed.

Lemma keeps_readRegister16 (reg : Z) :
  conversion_of reg = None -> keeps_sched (readRegister16 reg).
Proof.
  intros H. unfold readRegister16, Wire_transmit.
  apply keeps_bind; [| intros _; auto 10 with sched].
  apply keeps_log; [| reflexivity].
  cbn [conversion_requests]. rewrite H. reflexivity.
Qed.

Lemma keeps_calcVerticalSpeed : keeps_sched calcVerticalSpeed.
Proof. unfold calcVerticalSpeed, getSmoothedPressure. auto 20 with sched. Qed.

Lemma keeps_calcFilter : keeps_sched calcFilter.
Proof.
  unfold calcFilter. pose proof keeps_calcVerticalSpeed. auto 10 with sched.
Qed.

Lemma keeps_fetch_pending : keeps_sched fetch_pending.
Proof.
  unfold fetch_pending.
  pose proof keeps_calcFilter.
  pose proof (keeps_readRegister24 MS5611_CMD_ADC_READ eq_refl).
  apply keeps_bind; [auto with sched |].
  intros [| | |]; auto 20 with sched.
Qed.


(** *** The stages seen through the view *)

Lemma sched_count_cycle (c : Config) :
  sched (snd (count_cycle c))
  = let v := sched c in
    let cnt := c_uint (s_cnt v + 1) in
    mkSched cnt (s_pending v) (s_ct v) (s_uosr v) (s_next v) (s_clock v)
      (s_requests v) (if cnt =? 100 then S (s_fixes v) else s_fixes v).
Proof.
  unfold count_cycle, bind. cbn [the assign fst snd obj myRunCnt set_myRunCnt].
  cbv zeta. change (s_cnt (sched c)) with (myRunCnt (obj c)).
  destruct (c_uint (myRunCnt (obj c) + 1) =? 100); reflexivity.
Qed.

Lemma conversion_of_D1 (osr : ms5611_osr_t) :
  conversion_of (u8 (MS5611_CMD_CONV_D1 + osr_code osr))
  = Some DIGITAL_PRESSURE_VALUE.
Proof. destruct osr; reflexivity. Qed.

Lemma conversion_of_D2 (osr : ms5611_osr_t) :
  conversion_of (u8 (MS5611_CMD_CONV_D2 + osr_code osr))
  = Some DIGITAL_TEMPERATURE_VALUE.
Proof. destruct osr; reflexivity. Qed.

Lemma sched_request_next (r : vario_value_t) (c : Config) :
  fst (request_next r c) = vario_value_eqb r (myPendingValueType (obj c))
  /\ sched (snd (request_next r c))
     = let v := sched c in
       let next_kind :=
         match r with
         | NONE => if Z.rem (s_cnt v) 2 =? 0 then DIGITAL_TEMPERATURE_VALUE
                   else DIGITAL_PRESSURE_VALUE
         | _ => r
         end in
       mkSched (s_cnt v) next_kind (s_ct v) (s_uosr v)
         (u32 (s_clock v + s_ct v)) (s_clock v)
         (match next_kind with
          | LAST | NONE => s_requests v
          | k => k :: s_requests v
          end)
         (s_fixes v).
Proof.
  unfold request_next, bind. cbv zeta.
  destruct r; cbn [the assign log millis ret fst snd obj env].
  - (* NONE: alternate by the parity of the counter *)
    change (s_cnt (sched c)) with (myRunCnt (obj c)).
    destruct (Z.rem (myRunCnt (obj c)) 2 =? 0);
      cbn [the assign log millis ret fst snd obj env]; (split; [reflexivity |]);
      unfold sched; cbn [obj env emit trace clock conversion_requests
                         reference_fixes myRunCnt myPendingValueType myct
                         myuosr nextRead set_nextRead set_myPendingValueType];
      rewrite ?conversion_of_D1, ?conversion_of_D2; reflexivity.
  - split; [reflexivity |].
    unfold sched; cbn [obj env emit trace clock conversion_requests
                       reference_fixes myRunCnt myPendingValueType myct
                       myuosr nextRead set_nextRead set_myPendingValueType
                       s_cnt s_pending s_ct s_uosr s_next s_clock
                       s_requests s_fixes].
    rewrite conversion_of_D1. reflexivity.
  - split; [reflexivity |].
    unfold sched; cbn [obj env emit trace clock conversion_requests
                       reference_fixes myRunCnt myPendingValueType myct
                       myuosr nextRead set_nextRead set_myPendingValueType
                       s_cnt s_pending s_ct s_uosr s_next s_clock
                       s_requests s_fixes].
    rewrite conversion_of_D2. reflexivity.
  - split; reflexivity.
Qed.

(** The acquisition step and its view commute. *)
Lemma triggerReadValues_sched (r : vario_value_t) (c : Config) :
  fst (triggerReadValues r c) = fst (sched_step r (sched c))
  /\ sched (snd (triggerReadValues r c)) = snd (sched_step r (sched c)).
Proof.
  rewrite triggerReadValues_stages. unfold sched_step, ready.
  change (s_next (sched c)) with (nextRead (obj c)).
  change (s_clock (sched c)) with (clock (env c)).
  destruct (nextRead (obj c) <? clock (env c)); [| split; reflexivity].
  unfold bind.
  destruct (sched_request_next r (snd (fetch_pending (snd (count_cycle c)))))
    as [Hret Hs].
  rewrite Hret, Hs. clear Hret Hs.
  pose proof (keeps_fetch_pending (snd (count_cycle c))) as Hk.
  assert (Hp : myPendingValueType (obj (snd (fetch_pending (snd (count_cycle c)))))
               = s_pending (sched c)).
  { change (s_pending (sched (snd (fetch_pending (snd (count_cycle c)))))
            = s_pending (sched c)).
    rewrite Hk, sched_count_cycle. reflexivity. }
  rewrite Hp, Hk, sched_count_cycle. cbv zeta.
  cbn [fst snd s_cnt s_pending s_ct s_uosr s_next s_clock s_requests s_fixes].
  split; reflexivity.
Qed.

Lemma delay_sched (ms : Z) (c : Config) :
  sched (snd (delay ms c)) = sched_delay ms (sched c).
Proof. reflexivity. Qed.


Lemma triggerReadValues_not_ready (r : vario_value_t) (c : Config) :
  ready c = false -> triggerReadValues r c = (false, c).
Proof. intros H. rewrite triggerReadValues_stages, H. reflexivity. Qed.

(** An acquisition step invoked while the clock is below the stored
    deadline returns false and leaves the whole configuration as it was:
    every member of the object, the deadline, and the world with its trace
    of bus commands. *)
Lemma triggerReadValues_before_stored_deadline (r : vario_value_t)
  (c : Config) :
  clock (env c) < nextRead (obj c) ->
  triggerReadValues r c = (false, c).
Proof.
  intros H. apply triggerReadValues_not_ready. unfold ready.
  apply Z.ltb_ge. lia.
Qed.

(** At the deadline itself the step still waits. *)
Lemma triggerReadValues_at_deadline (r : vario_value_t) (c : Config) :
  clock (env c) = nextRead (obj c) -> triggerReadValues r c = (false, c).
Proof.
  intros H. apply triggerReadValues_not_ready. unfold ready.
  apply Z.ltb_ge. lia.
Qed.

Lemma vario_value_eqb_eq (a b : vario_value_t) :
  vario_value_eqb a b = true <-> a = b.
Proof. destruct a, b; simpl; split; intros H; try reflexivity; discriminate. Qed.

Lemma triggerReadValues_true_iff (r : vario_value_t) (c : Config) :
  fst (triggerReadValues r c) = true
  <-> ready c = true /\ myPendingValueType (obj c) = r.
Proof.
  destruct (triggerReadValues_sched r c) as [-> _].
  unfold sched_step, ready.
  change (s_next (sched c)) with (nextRead (obj c)).
  change (s_clock (sched c)) with (clock (env c)).
  change (s_pending (sched c)) with (myPendingValueType (obj c)).
  destruct (nextRead (obj c) <? clock (env c)); cbn [fst].
  - rewrite vario_value_eqb_eq. intuition congruence.
  - intuition congruence.
Qed.

(** The loop of a blocking read ends on a call that returned true. *)
Lemma await_last_call (fuel : nat) (r : vario_value_t) (c c' : Config) :
  await fuel r c = Some (tt, c') ->
  exists c1, fst (triggerReadValues r c1) = true
             /\ c' = snd (triggerReadValues r c1).
Proof.
  revert c. induction fuel as [| fuel IH]; intros c H; [discriminate |].
  cbn [await] in H.
  destruct (fst (triggerReadValues r c)) eqn:E.
  - injection H as <-. exists c. split; [exact E | reflexivity].
  - apply IH in H. exact H.
Qed.

(** After a ready cycle with a request of [NONE], pressure or temperature
    a conversion is pending: once the state machine has run, something is
    always pending. *)
Lemma pending_after_ready_cycle (r : vario_value_t) (c : Config) :
  r <> LAST -> ready c = true ->
  myPendingValueType (obj (snd (triggerReadValues r c))) = DIGITAL_PRESSURE_VALUE
  \/ myPendingValueType (obj (snd (triggerReadValues r c)))
     = DIGITAL_TEMPERATURE_VALUE.
Proof.
  intros Hr Hready. destruct (triggerReadValues_sched r c) as [_ Hs].
  change (myPendingValueType (obj (snd (triggerReadValues r c))))
    with (s_pending (sched (snd (triggerReadValues r c)))).
  rewrite Hs. unfold sched_step.
  change (s_next (sched c) <? s_clock (sched c)) with (ready c).
  rewrite Hready. cbv zeta. cbn [snd s_pending].
  destruct r; try congruence; auto.
  destruct (Z.rem (c_uint (s_cnt (sched c) + 1)) 2 =? 0); auto.
Qed.

(** The return value is the one the specification words: on a cycle with a
    conversion pending, or for a request of pressure or temperature, the
    step returns true exactly when the conversion just read is of the
    requested kind. *)
Lemma triggerReadValues_completed (r : vario_value_t) (c : Config) :
  r = DIGITAL_PRESSURE_VALUE \/ r = DIGITAL_TEMPERATURE_VALUE
  \/ myPendingValueType (obj c) = DIGITAL_PRESSURE_VALUE
  \/ myPendingValueType (obj c) = DIGITAL_TEMPERATURE_VALUE ->
  fst (triggerReadValues r c) = completed_matches r c.
Proof.
  intros Hr. destruct (triggerReadValues_sched r c) as [-> _].
  unfold sched_step, completed_matches, completed_conversion, ready.
  change (s_next (sched c)) with (nextRead (obj c)).
  change (s_clock (sched c)) with (clock (env c)).
  change (s_pending (sched c)) with (myPendingValueType (obj c)).
  destruct (nextRead (obj c) <? clock (env c)); [| reflexivity].
  cbn [fst].
  destruct Hr as [-> | [-> | [-> | ->]]];
    try (destruct (myPendingValueType (obj c)); reflexivity);
    destruct r; reflexivity.
Qed.

(** *** Executions *)

Lemma perform_sched (a : action) (c : Config) :
  sched (perform a c) = sched_perform a (sched c).
Proof.
  destruct a as [ms | r]; cbn [perform sched_perform].
  - apply delay_sched.
  - apply triggerReadValues_sched.
Qed.

Lemma exec_sched (acts : list action) (c : Config) :
  sched (exec acts c) = sched_exec acts (sched c).
Proof.
  revert c. induction acts as [| a acts IH]; intros c; cbn [exec sched_exec].
  - reflexivity.
  - rewrite IH, perform_sched. reflexivity.
Qed.

Lemma ready_cycles_sched (acts : list action) (c : Config) :
  ready_cycles acts c = sched_ready_cycles acts (sched c).
Proof.
  revert c. induction acts as [| a acts IH]; intros c;
    cbn [ready_cycles sched_ready_cycles].
  - reflexivity.
  - rewrite IH, perform_sched. reflexivity.
Qed.


Lemma c_uint_range (x : Z) : 0 <= c_uint x < 2 ^ int_bits IW.
Proof.
  unfold c_uint, wrap_unsigned. apply Z.mod_pos_bound.
  destruct IW; reflexivity.
Qed.

Lemma int_bits_even : exists h, 2 ^ int_bits IW = 2 * h /\ 100 < h.
Proof.
  destruct IW; [exists 32768 | exists 2147483648]; split; reflexivity || lia.
Qed.

(** Incrementing the counter flips its parity, also across the
    wrap-around. *)
Lemma kind_of_count_flip (x : Z) :
  0 <= x < 2 ^ int_bits IW ->
  kind_of_count (c_uint (x + 1)) <> kind_of_count x.
Proof.
  intros Hx. pose proof (c_uint_range (x + 1)) as Hr.
  destruct int_bits_even as [h [Hh _]].
  unfold kind_of_count. rewrite !Z.rem_mod_nonneg by lia.
  unfold c_uint, wrap_unsigned in *. rewrite Hh in *.
  assert (E : ((x + 1) mod (2 * h)) mod 2 = (x + 1) mod 2).
  { apply Z.mod_mod_divide. exists h. lia. }
  rewrite E.
  destruct (Z.eqb_spec ((x + 1) mod 2) 0) as [E1 | E1];
    destruct (Z.eqb_spec (x mod 2) 0) as [E2 | E2];
    try discriminate; exfalso; revert E1 E2; clear;
    Z.div_mod_to_equations; lia.
Qed.

Lemma kind_of_count_cases (x : Z) :
  kind_of_count x = DIGITAL_TEMPERATURE_VALUE
  \/ kind_of_count x = DIGITAL_PRESSURE_VALUE.
Proof. unfold kind_of_count. destruct (Z.rem x 2 =? 0); auto. Qed.

Lemma expected_requests_alternating (cnt : Z) (n : nat) :
  alternating (expected_requests cnt n).
Proof.
  revert cnt. induction n as [| n IH]; intros cnt; [exact I |].
  cbn [expected_requests]. specialize (IH (c_uint (cnt + 1))).
  destruct n as [| n]; [exact I |].
  cbn [expected_requests alternating] in *. split; [| exact IH].
  intros E. symmetry in E. revert E. apply kind_of_count_flip.
  apply c_uint_range.
Qed.

Lemma count_kind_cons (k a : vario_value_t) (l : list vario_value_t) :
  count_kind k (a :: l)
  = ((if vario_value_eqb k a then 1 else 0) + count_kind k l)%nat.
Proof.
  unfold count_kind. cbn [filter]. destruct (vario_value_eqb k a); reflexivity.
Qed.

Lemma expected_requests_counts (cnt : Z) (n : nat) :
  count_kind DIGITAL_TEMPERATURE_VALUE (expected_requests cnt (2 * n)) = n
  /\ count_kind DIGITAL_PRESSURE_VALUE (expected_requests cnt (2 * n)) = n.
Proof.
  revert cnt. induction n as [| n IH]; intros cnt; [split; reflexivity |].
  replace (2 * S n)%nat with (S (S (2 * n))) by lia.
  cbn [expected_requests]. rewrite !count_kind_cons.
  destruct (IH (c_uint (c_uint (cnt + 1) + 1))) as [-> ->].
  pose proof (kind_of_count_flip (c_uint (cnt + 1)) (c_uint_range _)) as Hf.
  destruct (kind_of_count_cases (c_uint (cnt + 1))) as [E1 | E1];
    destruct (kind_of_count_cases (c_uint (c_uint (cnt + 1) + 1))) as [E2 | E2];
    rewrite E1, E2 in *; try congruence; split; reflexivity.
Qed.

(** Requests issued and counter reached by an execution of [run()]
    calls, through the view. *)
Lemma sched_exec_requests (acts : list action) (v : Sched) :
  only_run acts ->
  s_requests (sched_exec acts v)
  = rev (expected_requests (s_cnt v) (sched_ready_cycles acts v))
    ++ s_requests v.
Proof.
  intros H. revert v. induction H as [| a acts Ha _ IH]; intros v;
    cbn [sched_exec sched_ready_cycles]; [reflexivity |].
  rewrite IH. destruct a as [ms | r]; cbn [sched_perform].
  - reflexivity.
  - subst r. unfold sched_step.
    destruct (s_next v <? s_clock v); cbn [snd s_cnt s_requests Nat.add];
      [| reflexivity].
    cbn [expected_requests rev]. rewrite <- app_assoc. cbn [app].
    fold (kind_of_count (c_uint (s_cnt v + 1))).
    destruct (kind_of_count_cases (c_uint (s_cnt v + 1))) as [-> | ->];
      reflexivity.
Qed.

(** C4. In an execution that only calls [run()], with 2N ready cycles,
    the conversions requested are, in the order of issue, those selected
    by the parity of the incremented cycle counter (even: temperature,
    odd: pressure); they alternate strictly, N of them are temperature
    requests and N are pressure requests. *)
Theorem run_alternates_temperature_and_pressure
  (acts : list action) (c : Config) (n : nat) :
  only_run acts ->
  ready_cycles acts c = (2 * n)%nat ->
  let issued := expected_requests (myRunCnt (obj c)) (2 * n) in
  conversion_requests (trace (env (exec acts c)))
  = rev issued ++ conversion_requests (trace (env c))
  /\ alternating issued
  /\ count_kind DIGITAL_TEMPERATURE_VALUE issued = n
  /\ count_kind DIGITAL_PRESSURE_VALUE issued = n.
Proof.
  intros Hrun Hn. cbv zeta. split; [| split].
  - change (conversion_requests (trace (env (exec acts c))))
      with (s_requests (sched (exec acts c))).
    rewrite exec_sched, sched_exec_requests by exact Hrun.
    rewrite <- ready_cycles_sched, Hn. reflexivity.
  - apply expected_requests_alternating.
  - apply expected_requests_counts.
Qed.

(** *** The warm-up boundary *)

Lemma sched_exec_fixes (acts : list action) (v : Sched) :
  s_fixes (sched_exec acts v)
  = (s_fixes v + hits_100 (s_cnt v) (sched_ready_cycles acts v))%nat.
Proof.
  revert v. induction acts as [| a acts IH]; intros v;
    cbn [sched_exec sched_ready_cycles hits_100]; [lia |].
  rewrite IH. destruct a as [ms | r]; cbn [sched_perform].
  - reflexivity.
  - unfold sched_step.
    destruct (s_next v <? s_clock v); cbn [snd s_cnt s_fixes Nat.add];
      [| reflexivity].
    cbn [hits_100]. destruct (c_uint (s_cnt v + 1) =? 100); lia.
Qed.

(** The number of automatic assignments to the reference height in an
    execution is the number of ready cycles on which the counter becomes
    100. *)
Lemma reference_fixes_exec (acts : list action) (c : Config) :
  reference_fixes (trace (env (exec acts c)))
  = (reference_fixes (trace (env c))
     + hits_100 (myRunCnt (obj c)) (ready_cycles acts c))%nat.
Proof.
  change (reference_fixes (trace (env (exec acts c))))
    with (s_fixes (sched (exec acts c))).
  rewrite exec_sched, sched_exec_fixes, <- ready_cycles_sched. reflexivity.
Qed.

Lemma hits_100_none (n : nat) (cnt : Z) :
  (forall k, 1 <= k <= Z.of_nat n -> (cnt + k) mod 2 ^ int_bits IW <> 100) ->
  hits_100 cnt n = O.
Proof.
  revert cnt. induction n as [| n IH]; intros cnt H; [reflexivity |].
  cbn [hits_100].
  assert (E : (c_uint (cnt + 1) =? 100) = false).
  { apply Z.eqb_neq. unfold c_uint, wrap_unsigned. apply H. lia. }
  rewrite E. cbn [Nat.add]. apply IH. intros k Hk.
  unfold c_uint, wrap_unsigned. rewrite Zplus_mod_idemp_l.
  replace (cnt + 1 + k) with (cnt + (k + 1)) by lia. apply H. lia.
Qed.

Lemma mod_shift_ne (k m : Z) :
  0 < k < m -> 100 < m -> (100 + k) mod m <> 100.
Proof.
  intros Hk Hm. destruct (Z.lt_ge_cases (100 + k) m) as [Hs | Hs].
  - rewrite Z.mod_small; lia.
  - replace (100 + k) with ((100 + k - m) + 1 * m) by lia.
    rewrite Z_mod_plus_full, Z.mod_small; lia.
Qed.

(** From a counter below 100, and for fewer ready cycles than it takes the
    counter to come round to 100 again, the reference height is assigned
    once, on the cycle on which the counter becomes 100, and not
    before. *)
Lemma hits_100_once (n : nat) (cnt : Z) :
  0 <= cnt < 100 ->
  cnt + Z.of_nat n < 2 ^ int_bits IW + 100 ->
  hits_100 cnt n = if 100 - cnt <=? Z.of_nat n then 1%nat else 0%nat.
Proof.
  destruct int_bits_even as [h [Hh Hbig]].
  revert cnt. induction n as [| n IH]; intros cnt Hc Hn.
  - destruct (Z.leb_spec (100 - cnt) (Z.of_nat 0)); [lia | reflexivity].
  - cbn [hits_100].
    assert (E : c_uint (cnt + 1) = cnt + 1).
    { unfold c_uint, wrap_unsigned. apply Z.mod_small. lia. }
    rewrite E. destruct (Z.eqb_spec (cnt + 1) 100) as [E1 | E1].
    + rewrite hits_100_none.
      * destruct (Z.leb_spec (100 - cnt) (Z.of_nat (S n))); [reflexivity | lia].
      * intros k Hk. rewrite E1. apply mod_shift_ne; lia.
    + rewrite IH by lia. cbn [Nat.add].
      destruct (Z.leb_spec (100 - (cnt + 1)) (Z.of_nat n));
        destruct (Z.leb_spec (100 - cnt) (Z.of_nat (S n))); lia || reflexivity.
Qed.

(** Polling every 11 ms makes every call a ready cycle, as long as the
    clock does not wrap. *)
Lemma polling_ready_cycles (n : nat) (v : Sched) :
  0 <= s_ct v <= 10 ->
  s_next v <= s_clock v + 10 ->
  0 <= s_clock v ->
  s_clock v + 11 * Z.of_nat n + 10 < 2 ^ 32 ->
  sched_ready_cycles (polling n) v = n.
Proof.
  revert v. induction n as [| n IH]; intros v Hct Hnext Hclk Hwrap;
    [reflexivity |].
  cbn [polling sched_ready_cycles sched_perform Nat.add].
  assert (E : u32 (s_clock v + 11) = s_clock v + 11)
    by (apply u32_id; lia).
  unfold sched_step.
  cbn [sched_delay s_next s_clock s_ct s_cnt s_pending s_uosr s_requests
       s_fixes].
  rewrite E.
  destruct (Z.ltb_spec (s_next v) (s_clock v + 11)) as [_ | Hbad]; [| lia].
  cbn [snd]. rewrite IH; cbn [s_next s_clock s_ct]; try lia.
  rewrite u32_id; lia.
Qed.

End Acquisition.

(** C5, on a board with 16-bit [unsigned int].  After initialisation
    (counter 0), polling [run()] every 11 ms: all 65636 calls are ready
    cycles; the reference height has not been assigned after 99 of them,
    is assigned on the 100th, stays untouched up to the 65635th, and is
    assigned a second time on the 65636th, when the counter has wrapped
    around to 100 again. *)
Theorem reference_height_fixed_again_after_wraparound
  (FP : Floating) (c : Config) :
  myRunCnt (obj c) = 0 ->
  0 <= myct (obj c) <= 10 ->
  nextRead (obj c) <= clock (env c) + 10 ->
  0 <= clock (env c) ->
  clock (env c) + 11 * 65636 + 10 < 2 ^ 32 ->
  let fixes n :=
    reference_fixes (trace (env (exec (IW := Int16) (polling (Z.to_nat n)) c))) in
  ready_cycles (IW := Int16) (polling (Z.to_nat 65636)) c = Z.to_nat 65636
  /\ fixes 99 = reference_fixes (trace (env c))
  /\ fixes 100 = S (reference_fixes (trace (env c)))
  /\ fixes 65635 = S (reference_fixes (trace (env c)))
  /\ fixes 65636 = S (S (reference_fixes (trace (env c)))).
Proof.
  intros Hcnt Hct Hnext Hclk Hwrap. cbv zeta.
  assert (Hready : forall n, 0 <= n <= 65636 ->
            ready_cycles (IW := Int16) (polling (Z.to_nat n)) c = Z.to_nat n).
  { intros n Hn. rewrite ready_cycles_sched.
    apply polling_ready_cycles; cbn [sched s_ct s_next s_clock]; lia. }
  assert (Honce : forall n, 0 <= n < 65636 ->
            hits_100 (IW := Int16) 0 (Z.to_nat n)
            = if 100 <=? n then 1%nat else 0%nat).
  { intros n Hn. rewrite (hits_100_once (IW := Int16)).
    - rewrite Z2Nat.id by lia. reflexivity.
    - lia.
    - rewrite Z2Nat.id by lia. cbn [int_bits]. lia. }
  split; [apply Hready; lia |].
  rewrite !reference_fixes_exec, !Hready, Hcnt by lia.
  rewrite !Honce by lia.
  assert (Htwice : hits_100 (IW := Int16) 0 (Z.to_nat 65636) = 2%nat)
    by (vm_compute; reflexivity).
  rewrite Htwice. cbn [Z.leb Z.compare Pos.compare Pos.compare_cont].
  repeat split; lia.
Qed.

Lemma reference_height_fixed_again_after_wraparound_witness :
  let c := mkConfig (set_myct 10 (@power_on Binary64.binary64))
                    (world_at 0 (fun _ => 0)) in
  reference_fixes
    (trace (env (exec (IW := Int16) (polling (Z.to_nat 65636)) c)))
  = 2%nat.
Proof.
  cbv zeta.
  apply (reference_height_fixed_again_after_wraparound Binary64.binary64
           (mkConfig (set_myct 10 power_on) (world_at 0 (fun _ => 0))));
    cbn; lia.
Defined.

(** ** Blocking reads and initialisation *)

Section Blocking.

Context {FP : Floating} {IW : int_width}.

Lemma steady_of_sched (b : Z) (c c' : Config) :
  sched c' = sched c -> steady b c -> steady b c'.
Proof.
  intros H. unfold steady.
  change (myct (obj c')) with (s_ct (sched c')).
  change (clock (env c')) with (s_clock (sched c')).
  change (nextRead (obj c')) with (s_next (sched c')).
  rewrite H. exact (fun x => x).
Qed.

Lemma steady_weaken (b b' : Z) (c : Config) :
  b <= b' -> steady b c -> steady b' c.
Proof. unfold steady. intros Hb [H1 [H2 H3]]. repeat split; lia. Qed.

(** The view after a ready cycle with a request of pressure or
    temperature. *)
Lemma ready_cycle_view (r : vario_value_t) (c : Config) :
  r = DIGITAL_PRESSURE_VALUE \/ r = DIGITAL_TEMPERATURE_VALUE ->
  ready c = true ->
  let c' := snd (triggerReadValues r c) in
  myPendingValueType (obj c') = r
  /\ myct (obj c') = myct (obj c)
  /\ clock (env c') = clock (env c)
  /\ nextRead (obj c') = u32 (clock (env c) + myct (obj c)).
Proof.
  intros Hr Hready. cbv zeta.
  destruct (triggerReadValues_sched r c) as [_ Hs].
  change (myPendingValueType (obj (snd (triggerReadValues r c))))
    with (s_pending (sched (snd (triggerReadValues r c)))).
  change (myct (obj (snd (triggerReadValues r c))))
    with (s_ct (sched (snd (triggerReadValues r c)))).
  change (clock (env (snd (triggerReadValues r c))))
    with (s_clock (sched (snd (triggerReadValues r c)))).
  change (nextRead (obj (snd (triggerReadValues r c))))
    with (s_next (sched (snd (triggerReadValues r c)))).
  rewrite Hs. unfold sched_step.
  change (s_next (sched c) <? s_clock (sched c)) with (ready c).
  rewrite Hready. cbv zeta. cbn [snd s_pending s_ct s_clock s_next].
  destruct Hr as [-> | ->]; repeat split; reflexivity.
Qed.

(** The loop of a blocking read, when the value it waits for is the one
    pending: it ends within [k] waits if the deadline is less than [k] ms
    ahead. *)
Lemma await_pending (k : nat) :
  forall (fuel : nat) (r : vario_value_t) (c : Config),
    r = DIGITAL_PRESSURE_VALUE \/ r = DIGITAL_TEMPERATURE_VALUE ->
    myPendingValueType (obj c) = r ->
    0 <= myct (obj c) <= 10 ->
    0 <= clock (env c) ->
    nextRead (obj c) < clock (env c) + Z.of_nat k ->
    clock (env c) + Z.of_nat k + 10 < 2 ^ 32 ->
    (k < fuel)%nat ->
    exists c', await fuel r c = Some (tt, c')
               /\ steady (clock (env c) + Z.of_nat k) c'.
Proof.
  induction k as [| k IH]; intros fuel r c Hr Hp Hct Hclk Hnext Hwrap Hfuel;
    (destruct fuel as [| fuel]; [lia |]); cbn [await];
    destruct (ready c) eqn:Hready.
  - assert (E : fst (triggerReadValues r c) = true)
      by (apply triggerReadValues_true_iff; split; assumption).
    rewrite E.
    eexists. split; [reflexivity |].
    destruct (ready_cycle_view r c Hr Hready) as [_ [H2 [H3 H4]]].
    unfold steady. rewrite H2, H3, H4. rewrite u32_id by lia. lia.
  - unfold ready in Hready. apply Z.ltb_ge in Hready. lia.
  - assert (E : fst (triggerReadValues r c) = true)
      by (apply triggerReadValues_true_iff; split; assumption).
    rewrite E.
    eexists. split; [reflexivity |].
    destruct (ready_cycle_view r c Hr Hready) as [_ [H2 [H3 H4]]].
    unfold steady. rewrite H2, H3, H4. rewrite u32_id by lia. lia.
  - rewrite (triggerReadValues_not_ready r c Hready). cbn [fst snd].
    unfold ready in Hready. apply Z.ltb_ge in Hready.
    destruct (IH fuel r (snd (delay 1 c)) Hr Hp) as [c' [Ha Hs]];
      cbn [delay snd obj env advance clock]; rewrite ?u32_id by lia;
      try lia.
    exists c'. split; [exact Ha |].
    revert Hs. cbn [delay snd obj env advance clock]. rewrite u32_id by lia.
    apply steady_weaken. lia.
Qed.

(** The same loop when another value, or none, is pending: the first
    ready cycle issues the request, the loop then waits for its
    conversion. *)
Lemma await_other (k : nat) :
  forall (fuel : nat) (r : vario_value_t) (c : Config),
    r = DIGITAL_PRESSURE_VALUE \/ r = DIGITAL_TEMPERATURE_VALUE ->
    myPendingValueType (obj c) <> r ->
    0 <= myct (obj c) <= 10 ->
    0 <= clock (env c) ->
    nextRead (obj c) < clock (env c) + Z.of_nat k ->
    clock (env c) + Z.of_nat k + 22 < 2 ^ 32 ->
    (k + 12 < fuel)%nat ->
    exists c', await fuel r c = Some (tt, c')
               /\ steady (clock (env c) + Z.of_nat k + 12) c'.
Proof.
  assert (Hstep : forall fuel r c,
             r = DIGITAL_PRESSURE_VALUE \/ r = DIGITAL_TEMPERATURE_VALUE ->
             myPendingValueType (obj c) <> r ->
             0 <= myct (obj c) <= 10 ->
             0 <= clock (env c) ->
             clock (env c) + 22 < 2 ^ 32 ->
             (12 < fuel)%nat ->
             ready c = true ->
             exists c', await fuel r c = Some (tt, c')
                        /\ steady (clock (env c) + 12) c').
  { intros fuel r c Hr Hp Hct Hclk Hwrap Hfuel Hready.
    destruct fuel as [| fuel]; [lia |]. cbn [await].
    assert (E : fst (triggerReadValues r c) = false).
    { destruct (fst (triggerReadValues r c)) eqn:E; [| reflexivity].
      apply triggerReadValues_true_iff in E. tauto. }
    rewrite E.
    destruct (ready_cycle_view r c Hr Hready) as [H1 [H2 [H3 H4]]].
    set (c1 := snd (triggerReadValues r c)) in *.
    destruct (await_pending 11 fuel r (snd (delay 1 c1)) Hr) as [c' [Ha Hs]];
      cbn [delay snd obj env advance clock]; rewrite ?H1, ?H2, ?H3, ?H4;
      rewrite ?u32_id by lia; try lia; try reflexivity.
    exists c'. split; [exact Ha |].
    revert Hs. cbn [delay snd obj env advance clock]. rewrite H3.
    rewrite u32_id by lia. apply steady_weaken. lia. }
  induction k as [| k IH]; intros fuel r c Hr Hp Hct Hclk Hnext Hwrap Hfuel;
    destruct (ready c) eqn:Hready.
  - destruct (Hstep fuel r c) as [c' [Ha Hs]]; auto; try lia.
    exists c'. split; [exact Ha |]. revert Hs. apply steady_weaken. lia.
  - unfold ready in Hready. apply Z.ltb_ge in Hready. lia.
  - destruct (Hstep fuel r c) as [c' [Ha Hs]]; auto; try lia.
    exists c'. split; [exact Ha |]. revert Hs. apply steady_weaken. lia.
  - destruct fuel as [| fuel]; [lia |]. cbn [await].
    rewrite (triggerReadValues_not_ready r c Hready). cbn [fst snd].
    unfold ready in Hready. apply Z.ltb_ge in Hready.
    destruct (IH fuel r (snd (delay 1 c)) Hr Hp) as [c' [Ha Hs]];
      cbn [delay snd obj env advance clock]; rewrite ?u32_id by lia;
      try lia.
    exists c'. split; [exact Ha |].
    revert Hs. cbn [delay snd obj env advance clock]. rewrite u32_id by lia.
    apply steady_weaken. lia.
Qed.

Lemma vario_value_eq_dec (a b : vario_value_t) : a = b \/ a <> b.
Proof. destruct a, b; (left; reflexivity) || (right; discriminate). Qed.

(** From a steady state the loop of a blocking read ends within 24
    iterations and 23 ms, in a steady state. *)
Lemma await_terminates (fuel : nat) (r : vario_value_t) (b : Z) (c : Config) :
  r = DIGITAL_PRESSURE_VALUE \/ r = DIGITAL_TEMPERATURE_VALUE ->
  steady b c -> b + 40 < 2 ^ 32 -> (24 <= fuel)%nat ->
  exists c', await fuel r c = Some (tt, c') /\ steady (b + 23) c'.
Proof.
  intros Hr [Hct [Hclk Hnext]] Hb Hfuel.
  destruct (vario_value_eq_dec (myPendingValueType (obj c)) r) as [Hp | Hp].
  - destruct (await_pending 11 fuel r c) as [c' [Ha Hs]]; auto; try lia.
    exists c'. split; [exact Ha |]. revert Hs. apply steady_weaken. lia.
  - destruct (await_other 11 fuel r c) as [c' [Ha Hs]]; auto; try lia.
    exists c'. split; [exact Ha |]. revert Hs. apply steady_weaken. lia.
Qed.


Lemma bindB_some {A A' : Type} (m : B A) (k : A -> B A') (c c1 : Config) (a : A) :
  m c = Some (a, c1) -> bindB m k c = k a c1.
Proof. intros H. unfold bindB. rewrite H. reflexivity. Qed.

Lemma readRawTemperature_terminates (fuel : nat) (b : Z) (c : Config) :
  steady b c -> b + 40 < 2 ^ 32 -> (24 <= fuel)%nat ->
  exists v c', readRawTemperature fuel c = Some (v, c') /\ steady (b + 23) c'.
Proof.
  intros Hs Hb Hf.
  destruct (await_terminates fuel DIGITAL_TEMPERATURE_VALUE b c)
    as [c' [Ha Hs']]; auto.
  unfold readRawTemperature. rewrite (bindB_some _ _ _ _ _ Ha).
  eexists. eexists. split; [reflexivity | exact Hs'].
Qed.

Lemma readRawPressure_terminates (fuel : nat) (b : Z) (c : Config) :
  steady b c -> b + 40 < 2 ^ 32 -> (24 <= fuel)%nat ->
  exists v c', readRawPressure fuel c = Some (v, c') /\ steady (b + 23) c'.
Proof.
  intros Hs Hb Hf.
  destruct (await_terminates fuel DIGITAL_PRESSURE_VALUE b c)
    as [c' [Ha Hs']]; auto.
  unfold readRawPressure. rewrite (bindB_some _ _ _ _ _ Ha).
  eexists. eexists. split; [reflexivity | exact Hs'].
Qed.

Lemma readPressure_terminates (fuel : nat) (comp : bool) (b : Z) (c : Config) :
  steady b c -> b + 63 < 2 ^ 32 -> (24 <= fuel)%nat ->
  exists p c', readPressure fuel comp c = Some (p, c') /\ steady (b + 46) c'.
Proof.
  intros Hs Hb Hf.
  destruct (readRawPressure_terminates fuel b c) as [D1 [c1 [H1 Hs1]]];
    auto; try lia.
  destruct (readRawTemperature_terminates fuel (b + 23) c1)
    as [D2 [c2 [H2 Hs2]]]; auto; try lia.
  unfold readPressure.
  rewrite (bindB_some _ _ _ _ _ H1), (bindB_some _ _ _ _ _ H2).
  unfold lift. eexists. eexists. split; [apply f_equal, surjective_pairing |].
  replace (b + 46) with (b + 23 + 23) by lia.
  refine (steady_of_sched _ c2 _ _ Hs2).
  apply keeps_method. intros o. cbv zeta.
  destruct comp; [| reflexivity].
  match goal with |- context [?t <? 2000] => destruct (t <? 2000) end;
    match goal with |- context [?t <? -1500] => destruct (t <? -1500) end;
    reflexivity.
Qed.

Lemma readTemperature_terminates (fuel : nat) (comp : bool) (b : Z) (c : Config) :
  steady b c -> b + 40 < 2 ^ 32 -> (24 <= fuel)%nat ->
  exists t c', readTemperature fuel comp c = Some (t, c') /\ steady (b + 23) c'.
Proof.
  intros Hs Hb Hf.
  destruct (readRawTemperature_terminates fuel b c) as [D2 [c2 [H2 Hs2]]];
    auto.
  unfold readTemperature. rewrite (bindB_some _ _ _ _ _ H2).
  unfold lift. eexists. eexists. split; [apply f_equal, surjective_pairing |].
  refine (steady_of_sched _ c2 _ _ Hs2).
  apply keeps_method. intros o. cbv zeta.
  destruct comp; [| reflexivity].
  match goal with |- context [?t <? 2000] => destruct (t <? 2000) end;
    reflexivity.
Qed.

Lemma begin_seed_terminates (fuel : nat) (n : nat) :
  forall (b : Z) (c : Config),
    steady b c -> b + 46 * Z.of_nat n + 63 < 2 ^ 32 -> (24 <= fuel)%nat ->
    exists c', begin_seed fuel n c = Some (tt, c')
               /\ steady (b + 46 * Z.of_nat n) c'.
Proof.
  induction n as [| n IH]; intros b c Hs Hb Hf.
  - exists c. split; [reflexivity |]. revert Hs. apply steady_weaken. lia.
  - destruct (readPressure_terminates fuel true b c) as [p [c1 [H1 Hs1]]];
      auto; try lia.
    cbn [begin_seed]. rewrite (bindB_some _ _ _ _ _ H1).
    unfold bindB at 1, lift at 1.
    destruct (IH (b + 46)
                 (snd (assign set_mySmoothedPressureVal (d_of_Z p) c1)))
      as [c' [H2 Hs2]]; try lia.
    + revert Hs1. apply steady_of_sched. reflexivity.
    + exists c'. split.
      * rewrite <- H2. reflexivity.
      * revert Hs2. apply steady_weaken. lia.
Qed.

Lemma keeps_readPROM : keeps_sched readPROM.
Proof.
  unfold readPROM. cbn [readPROM_from].
  repeat (apply keeps_bind;
          [first [apply keeps_readRegister16; reflexivity
                 | apply keeps_method; intros; reflexivity]
          | intros ]).
  apply keeps_ret.
Qed.

Lemma setOversampling_view (osr : ms5611_osr_t) (c : Config) :
  0 <= myct (obj (snd (setOversampling osr c))) <= 10
  /\ nextRead (obj (snd (setOversampling osr c))) = nextRead (obj c)
  /\ env (snd (setOversampling osr c)) = env c.
Proof. destruct osr; repeat split; cbn; lia. Qed.

Lemma begin_prelude_steady (osr : ms5611_osr_t) (c : Config) :
  0 <= clock (env c) ->
  nextRead (obj c) <= clock (env c) + 100 ->
  clock (env c) + 100 < 2 ^ 32 ->
  steady (clock (env c) + 100)
    (snd (bind (log WireBegin) (fun _ =>
          bind reset (fun _ =>
          bind (setOversampling osr) (fun _ =>
          bind (delay 100) (fun _ =>
          bind readPROM (fun _ =>
          bind (assign set_myPendingValueType NONE) (fun _ =>
          assign set_myPressureSmoothingFactor (d_dec 9 (-1)))))))) c)).
Proof.
  intros Hclk Hnext Hwrap.
  assert (Hpost : forall c5 : Config,
            steady (clock (env c) + 100) c5 ->
            steady (clock (env c) + 100)
              (snd (assign set_myPressureSmoothingFactor (d_dec 9 (-1))
                      (snd (assign set_myPendingValueType NONE c5)))))
    by (intros c5 H5; exact H5).
  apply Hpost.
  apply (steady_of_sched _ _ _ (keeps_readPROM _)).
  destruct (setOversampling_view osr (snd (reset (snd (log WireBegin c)))))
    as [H1 [H2 H3]].
  unfold steady.
  change (0 <= myct (obj (snd (setOversampling osr (snd (reset (snd (log WireBegin c)))))))
               <= 10
          /\ 0 <= u32 (clock (env (snd (setOversampling osr (snd (reset (snd (log WireBegin c))))))) + 100) <= clock (env c) + 100
          /\ nextRead (obj (snd (setOversampling osr (snd (reset (snd (log WireBegin c)))))))
             <= u32 (clock (env (snd (setOversampling osr (snd (reset (snd (log WireBegin c))))))) + 100) + 10).
  rewrite H2, H3.
  change (nextRead (obj (snd (reset (snd (log WireBegin c)))))) with (nextRead (obj c)).
  change (clock (env (snd (reset (snd (log WireBegin c)))))) with (clock (env c)).
  rewrite u32_id by lia. lia.
Qed.

(** Whatever the fuel, when [begin] returns it returns true, with the
    cycle counter at 0 and the warm-up phase on. *)
Lemma begin_result (fuel : nat) (osr : ms5611_osr_t) (c c' : Config) (b : bool) :
  begin fuel osr c = Some (b, c') ->
  b = true /\ myRunCnt (obj c') = 0 /\ myWarmUpPhase (obj c') = true.
Proof.
  unfold begin, bindB. unfold lift at 1.
  match goal with |- context [let (_, _) := ?x in _] =>
    destruct x as [u1 c1] end.
  destruct (begin_seed fuel 50 c1) as [[u2 c2] |]; [| discriminate].
  destruct (readRawTemperature fuel c2) as [[D2 c3] |]; [| discriminate].
  unfold lift at 1.
  match goal with |- context [let (_, _) := ?x in _] =>
    destruct x as [u4 c4] end.
  destruct (readTemperature fuel true c4) as [[t c5] |]; [| discriminate].
  unfold lift, bind. intros H. injection H as <- <-.
  repeat split.
Qed.

Lemma begin_terminates (fuel : nat) (osr : ms5611_osr_t) (c : Config) :
  (24 <= fuel)%nat ->
  0 <= clock (env c) ->
  nextRead (obj c) <= clock (env c) + 100 ->
  clock (env c) + 3000 < 2 ^ 32 ->
  exists c', begin fuel osr c = Some (true, c').
Proof.
  intros Hf Hclk Hnext Hwrap.
  pose proof (begin_prelude_steady osr c Hclk Hnext ltac:(lia)) as H1.
  set (b1 := clock (env c) + 100) in *.
  assert (Hb1 : 0 <= b1 /\ b1 + 2900 < 2 ^ 32) by (subst b1; lia).
  clearbody b1.
  unfold begin. unfold bindB at 1, lift at 1.
  match goal with |- context [let (_, _) := ?x in _] =>
    destruct x as [u1 c1] end.
  cbn [snd] in H1.
  destruct (begin_seed_terminates fuel 50 b1 c1 H1 ltac:(lia) Hf)
    as [c2 [E2 H2]].
  rewrite (bindB_some _ _ _ _ _ E2).
  destruct (readRawTemperature_terminates fuel _ c2 H2 ltac:(lia) Hf)
    as [D2 [c3 [E3 H3]]].
  rewrite (bindB_some _ _ _ _ _ E3).
  unfold bindB at 1, lift at 1.
  match goal with |- context [let (_, _) := ?x in _] =>
    assert (H4 : steady (b1 + 46 * Z.of_nat 50 + 23) (snd x))
      by (revert H3; apply steady_of_sched; reflexivity);
    destruct x as [u4 c4] end.
  cbn [snd] in H4.
  destruct (readTemperature_terminates fuel true _ c4 H4 ltac:(lia) Hf)
    as [t [c5 [E5 H5]]].
  rewrite (bindB_some _ _ _ _ _ E5).
  unfold lift. eexists. apply f_equal.
  match goal with |- ?x = _ => rewrite (surjective_pairing x) end.
  apply f_equal2; reflexivity.
Qed.

(** C10. [begin] returns true for every oversampling argument: from a
    start of the sketch (deadline not more than 100 ms ahead, clock not
    about to wrap) it returns, and whenever it returns the result is true;
    the loop of [setup] that retries [begin] runs its body zero times. *)
Theorem begin_returns_true (fuel : nat) (osr : ms5611_osr_t) (c : Config) :
  (24 <= fuel)%nat ->
  0 <= clock (env c) ->
  nextRead (obj c) <= clock (env c) + 100 ->
  clock (env c) + 3000 < 2 ^ 32 ->
  (exists c', begin fuel osr c = Some (true, c'))
  /\ (forall fuel' b c', begin fuel' osr c = Some (b, c') -> b = true)
  /\ (forall tries, exists c', setup (S tries) fuel c = Some (O, c')).
Proof.
  intros Hf Hclk Hnext Hwrap. split; [| split].
  - apply begin_terminates; assumption.
  - intros fuel' b c' H. apply begin_result in H. tauto.
  - intros tries. unfold setup. unfold bindB at 1, lift at 1.
    match goal with |- context [let (_, _) := ?x in _] =>
      assert (H0 : nextRead (obj (snd x)) = nextRead (obj c)
                   /\ clock (env (snd x)) = clock (env c))
        by (split; reflexivity);
      destruct x as [u0 c0] end.
    cbn [snd] in H0. destruct H0 as [Hn0 Hc0].
    destruct (begin_terminates fuel MS5611_ULTRA_HIGH_RES c0 Hf)
      as [c1 E1]; try (rewrite ?Hn0, ?Hc0; assumption).
    assert (E : setup_retry (S tries) fuel O c0 = Some (O, c1))
      by (cbn [setup_retry]; rewrite E1; reflexivity).
    rewrite (bindB_some _ _ _ _ _ E).
    unfold lift. eexists. apply f_equal.
    match goal with |- ?x = _ => rewrite (surjective_pairing x) end.
    apply f_equal2; reflexivity.
Qed.

End Blocking.

(** ** The statements at concrete configurations *)

Section Concrete.

#[local] Existing Instance Binary64.binary64.

(** The datasheet's worked example: 20.07 degrees C and 1000.09 mbar. *)
Example datasheet_worked_example :
  fst (calcTemperature 8569150 (@datasheet_object Binary64.binary64)) = 2007
  /\ fst (calcTemperatureCompensatedPressure 9085466 8569150
            (@datasheet_object Binary64.binary64)) = 100009.
Proof. split; vm_compute; reflexivity. Qed.

Lemma calcTemperatureCompensatedPressure_first_order_witness :
  fst (calcTemperatureCompensatedPressure 9085466 8569150
         (@datasheet_object Binary64.binary64))
  = Datasheet.Pressure datasheet_calibration 9085466 8569150.
Proof.
  apply (calcTemperatureCompensatedPressure_first_order
           (@datasheet_object Binary64.binary64) 9085466 8569150).
  - reflexivity.
  - reflexivity.
  - repeat constructor; unfold uint16; cbn; lia.
  - unfold uint24. lia.
  - unfold uint24. lia.
Defined.

Lemma second_order_noop_from_20C_witness :
  fst (calcTemperature 8569150
         (set_myDoSecondOrderCompensation true
            (@datasheet_object Binary64.binary64)))
  = fst (calcTemperature 8569150
           (set_myDoSecondOrderCompensation false datasheet_object)).
Proof.
  apply (second_order_noop_from_20C
           (@datasheet_object Binary64.binary64) 9085466 8569150).
  - reflexivity.
  - repeat constructor; unfold uint16; cbn; lia.
  - unfold uint24. lia.
  - vm_compute. discriminate.
Defined.

Lemma run_alternates_temperature_and_pressure_witness :
  conversion_requests (trace (env (exec (IW := Int32) (polling 4) boot)))
  = [DIGITAL_TEMPERATURE_VALUE; DIGITAL_PRESSURE_VALUE;
     DIGITAL_TEMPERATURE_VALUE; DIGITAL_PRESSURE_VALUE]
  /\ count_kind DIGITAL_TEMPERATURE_VALUE
       (expected_requests (IW := Int32) (myRunCnt (obj boot)) 4) = 2%nat.
Proof.
  destruct (run_alternates_temperature_and_pressure (IW := Int32)
              (polling 4) boot 2) as [H1 [_ [H3 _]]].
  - repeat constructor.
  - vm_compute. reflexivity.
  - split; [| exact H3]. rewrite H1. vm_compute. reflexivity.
Defined.

(** Why the return value is stated for an initialised driver: on the
    object as the constructor leaves it, before [begin], nothing is
    pending, and the step of a first [run()] returns true although no
    conversion was read ([run()] drops the value). *)
Lemma triggerReadValues_true_with_nothing_read :
  let c := mkConfig (@power_on Binary64.binary64) (world_at 1 (fun _ => 0)) in
  fst (triggerReadValues (IW := Int32) NONE c) = true
  /\ completed_conversion c = None
  /\ completed_matches NONE c = false.
Proof. cbv zeta. repeat split; vm_compute; reflexivity. Qed.

Lemma begin_returns_true_witness :
  exists c', begin (IW := Int32) 24 MS5611_ULTRA_HIGH_RES boot = Some (true, c').
Proof.
  apply (begin_returns_true (IW := Int32) 24 MS5611_ULTRA_HIGH_RES boot);
    cbn; lia.
Defined.

End Concrete.

(** * Further properties *)

(** ** More on the Compensation Engine *)

(** A product with an odd factor is a multiple of [2 ^ n] only if the
    other factor is. *)
Lemma odd_factor_cancel (n : nat) :
  forall k c t : Z, k * (2 * c + 1) = 2 ^ Z.of_nat n * t ->
                    exists j, k = 2 ^ Z.of_nat n * j.
Proof.
  induction n as [| n IH]; intros k c t H.
  - exists k. change (2 ^ Z.of_nat 0) with 1. lia.
  - rewrite Nat2Z.inj_succ, Z.pow_succ_r in * by lia.
    set (p := 2 ^ Z.of_nat n) in *.
    assert (Hk : exists k', k = 2 * k').
    { exists (p * t - k * c). lia. }
    destruct Hk as [k' ->].
    destruct (IH k' c t) as [j Hj]; [lia |].
    exists j. lia.
Qed.

(** No square is an odd multiple of an odd power of 2. *)
Lemma square_not_odd_power (n : nat) :
  forall k m : Z, k * k <> 2 ^ (2 * Z.of_nat n + 1) * (2 * m + 1).
Proof.
  induction n as [| n IH]; intros k m H.
  - change (2 ^ (2 * Z.of_nat 0 + 1)) with 2 in H.
    pose proof (Z.div_mod k 2 ltac:(lia)) as Hd.
    pose proof (Z.mod_pos_bound k 2 ltac:(lia)) as Hr.
    set (j := k / 2) in *. set (r := k mod 2) in *.
    assert (E : k * k = 4 * (j * j) + 4 * (j * r) + r * r) by (rewrite Hd; ring).
    assert (Hr' : r = 0 \/ r = 1) by lia.
    destruct Hr' as [Hr0 | Hr1]; rewrite ?Hr0, ?Hr1 in E; lia.
  - replace (2 * Z.of_nat (S n) + 1) with (2 + (2 * Z.of_nat n + 1)) in H by lia.
    rewrite Z.pow_add_r in H by lia. change (2 ^ 2) with 4 in H.
    set (p := 2 ^ (2 * Z.of_nat n + 1) * (2 * m + 1)) in *.
    assert (Hp : 4 * 2 ^ (2 * Z.of_nat n + 1) * (2 * m + 1) = 4 * p)
      by (subst p; ring).
    rewrite Hp in H.
    pose proof (Z.div_mod k 2 ltac:(lia)) as Hd.
    pose proof (Z.mod_pos_bound k 2 ltac:(lia)) as Hr.
    set (j := k / 2) in *. set (r := k mod 2) in *.
    assert (E : k * k = 4 * (j * j) + 4 * (j * r) + r * r) by (rewrite Hd; ring).
    assert (Hr' : r = 0 \/ r = 1) by lia.
    destruct Hr' as [Hr0 | Hr1]; rewrite ?Hr0, ?Hr1 in E; [| lia].
    apply (IH j m). subst p. lia.
Qed.

(** The square of a 25-bit [dT], multiplied out in [int32_t], never
    reaches [INT32_MAX] in magnitude: its quotient by [INT32_MAX] is 0. *)
Lemma wrapped_square_quot (d : Z) :
  - 16777216 < d < 16777216 -> s32 (d * d) ÷ INT32_MAX = 0.
Proof.
  intros Hd. unfold s32, wrap_signed, INT32_MAX.
  change (2 ^ (32 - 1)) with 2147483648. change (2 ^ 32) with 4294967296.
  pose proof (Z.div_mod (d * d + 2147483648) 4294967296 ltac:(lia)) as Hq.
  pose proof (Z.mod_pos_bound (d * d + 2147483648) 4294967296 ltac:(lia)) as Hm.
  set (q := (d * d + 2147483648) / 4294967296) in *.
  set (x := (d * d + 2147483648) mod 4294967296) in *.
  pose proof (Z.div_mod d 2 ltac:(lia)) as Hd2.
  pose proof (Z.mod_pos_bound d 2 ltac:(lia)) as Hr.
  set (j := d / 2) in *. set (r := d mod 2) in *.
  assert (E : d * d = 4 * (j * j) + 4 * (j * r) + r * r) by (rewrite Hd2; ring).
  assert (Hx1 : x <> 4294967295).
  { intros Hx. assert (Hr' : r = 0 \/ r = 1) by lia.
    destruct Hr' as [Hr0 | Hr1]; rewrite ?Hr0, ?Hr1 in E; lia. }
  assert (Hx2 : x <> 0).
  { intros Hx. apply (square_not_odd_power 15 d (q - 1)).
    change (2 ^ (2 * Z.of_nat 15 + 1)) with 2147483648. lia. }
  assert (Hx3 : x <> 1).
  { intros Hx. assert (Hr' : r = 0 \/ r = 1) by lia.
    destruct Hr' as [Hr0 | Hr1]; rewrite ?Hr0, ?Hr1 in E; [lia |].
    (* d = 2 j + 1 and j (j + 1) = 2^29 (2 q - 1) *)
    assert (Hj : j * (j + 1) = 2 ^ Z.of_nat 29 * (2 * q - 1)).
    { change (2 ^ Z.of_nat 29) with 536870912. lia. }
    pose proof (Z.div_mod j 2 ltac:(lia)) as Hj2.
    pose proof (Z.mod_pos_bound j 2 ltac:(lia)) as Hs.
    set (a := j / 2) in *. set (s := j mod 2) in *.
    assert (Hs' : s = 0 \/ s = 1) by lia.
    destruct Hs' as [Hs0 | Hs1].
    - destruct (odd_factor_cancel 29 j a (2 * q - 1)) as [i Hi].
      + rewrite <- Hj. replace (2 * a + 1) with (j + 1) by lia. reflexivity.
      + change (2 ^ Z.of_nat 29) with 536870912 in *.
        assert (i = 0) by lia. subst i. assert (j = 0) by lia. lia.
    - destruct (odd_factor_cancel 29 (j + 1) a (2 * q - 1)) as [i Hi].
      + rewrite <- Hj. replace (2 * a + 1) with j by lia. ring.
      + change (2 ^ Z.of_nat 29) with 536870912 in *.
        assert (i = 0) by lia. subst i. assert (j = -1) by lia. lia. }
  destruct (Z.le_gt_cases 2147483648 x) as [Hpos | Hneg].
  - apply Z.quot_small. lia.
  - replace (x - 2147483648) with (- (2147483648 - x)) by lia.
    rewrite Z.quot_opp_l by lia. rewrite Z.quot_small; lia.
Qed.

Section CompensationMore.

Context {FP : Floating}.

(** X1.  The temperature that [calcTemperature] returns is the datasheet's
    first-order [TEMP], whether second-order compensation is enabled or
    not: on 16-bit calibration words and a 24-bit raw temperature the
    correction [myTEMP2] always comes out as 0, the square of [dT] being
    multiplied out in [int32_t]. *)
Theorem calcTemperature_correction_is_zero
  (o : VarioMS5611) (rawTemperature : Z) :
  Forall uint16 (myCompensationValues o) ->
  uint24 rawTemperature ->
  fst (calcTemperature rawTemperature o)
  = Datasheet.TEMP (myCompensationValues o) rawTemperature
  /\ myTEMP2 (snd (calcTemperature rawTemperature o)) = 0.
Proof.
  intros Hc Ht.
  destruct (code_dT _ _ Hc Ht) as [HdT Hrange].
  pose proof (code_TEMP _ _ Hc Ht) as HT.
  assert (Hin : - 2 ^ 31 <= Datasheet.TEMP (myCompensationValues o) rawTemperature
                < 2 ^ 31).
  { rewrite <- HT. unfold s32, wrap_signed.
    change (2 ^ (32 - 1)) with 2147483648. change (2 ^ 32) with 4294967296.
    change (2 ^ 31) with 2147483648.
    match goal with |- _ <= ?a mod ?b - _ < _ =>
      pose proof (Z.mod_pos_bound a b ltac:(lia)) end. lia. }
  unfold calcTemperature, C. cbv zeta.
  change (myDoSecondOrderCompensation (set_myTEMP2 0 o))
    with (myDoSecondOrderCompensation o).
  rewrite HdT, HT.
  rewrite (wrapped_square_quot _ Hrange).
  change (s32 0) with 0.
  destruct (myDoSecondOrderCompensation o);
    [destruct (Datasheet.TEMP (myCompensationValues o) rawTemperature <? 2000) |];
    simpl_obj; rewrite Z.sub_0_r, s32_id by exact Hin; split; reflexivity.
Qed.

(** The last line of the pressure computation with wider bounds on its
    operands. *)
Lemma code_result_wide (rawP off sens : Z) :
  uint24 rawP -> - 2 ^ 35 <= off <= 2 ^ 35 -> - 2 ^ 34 <= sens <= 2 ^ 34 ->
  s32 (u32 (s64 (s64 (s64 (s64 (rawP * sens) ÷ 2097152) - off) ÷ 32768)))
  = ((rawP * sens) ÷ 2097152 - off) ÷ 32768.
Proof.
  unfold uint24. change (2 ^ 35) with 34359738368.
  change (2 ^ 34) with 17179869184. intros Hp Ho Hs.
  assert (H1 : - (137438953472 * 2097152) <= rawP * sens
               <= 137438953472 * 2097152)
    by (pose proof (mul_range rawP sens 16777216 17179869184); lia).
  assert (H2 : - 137438953472 <= (rawP * sens) ÷ 2097152 <= 137438953472)
    by (apply quot_range_lit; lia).
  assert (H3 : - 8388608 <= ((rawP * sens) ÷ 2097152 - off) ÷ 32768 <= 8388608)
    by (apply quot_range_lit; lia).
  rewrite (s64_id (rawP * sens)) by lia.
  rewrite (s64_id ((rawP * sens) ÷ 2097152)) by lia.
  rewrite (s64_id ((rawP * sens) ÷ 2097152 - off)) by lia.
  rewrite s64_id by lia.
  apply s32_u32. lia.
Qed.

(** The correction terms as the code computes them in [int32_t], for a
    temperature down to -150.00 degrees C. *)
Lemma code_cold_terms (T : Z) :
  - 15000 <= T < 2000 ->
  s32 (s32 (5 * s32 (s32 (T - 2000) * s32 (T - 2000))) ÷ 2)
  = (5 * ((T - 2000) * (T - 2000))) ÷ 2
  /\ s32 (s32 (5 * s32 (s32 (T - 2000) * s32 (T - 2000))) ÷ 4)
     = (5 * ((T - 2000) * (T - 2000))) ÷ 4
  /\ 0 <= (5 * ((T - 2000) * (T - 2000))) ÷ 2 <= 1445000000
  /\ 0 <= (5 * ((T - 2000) * (T - 2000))) ÷ 4 <= 1445000000.
Proof.
  intros HT. change (2 ^ 31) with 2147483648.
  assert (Hsq : 0 <= (T - 2000) * (T - 2000) <= 289000000) by nia.
  set (sq := (T - 2000) * (T - 2000)) in *.
  rewrite (s32_id (T - 2000)) by (change (2 ^ 31) with 2147483648; lia).
  fold sq.
  rewrite (s32_id sq) by (change (2 ^ 31) with 2147483648; lia).
  rewrite (s32_id (5 * sq)) by (change (2 ^ 31) with 2147483648; lia).
  assert (H2 : 0 <= (5 * sq) ÷ 2 <= 1445000000).
  { split; [apply Z.quot_pos; lia |].
    apply Z.le_trans with (5 * sq); [apply Z.quot_le_upper_bound; lia | lia]. }
  assert (H4 : 0 <= (5 * sq) ÷ 4 <= 1445000000).
  { split; [apply Z.quot_pos; lia |].
    apply Z.le_trans with (5 * sq); [apply Z.quot_le_upper_bound; lia | lia]. }
  rewrite !s32_id by (change (2 ^ 31) with 2147483648; lia).
  repeat split; lia.
Qed.

Lemma code_very_cold_terms (T : Z) :
  - 15000 <= T < -1500 ->
  s32 (7 * s32 (s32 (T + 1500) * s32 (T + 1500)))
  = 7 * ((T + 1500) * (T + 1500))
  /\ s32 (s32 (11 * s32 (s32 (T + 1500) * s32 (T + 1500))) ÷ 2)
     = (11 * ((T + 1500) * (T + 1500))) ÷ 2
  /\ 0 <= 7 * ((T + 1500) * (T + 1500)) <= 2004750000
  /\ 0 <= (11 * ((T + 1500) * (T + 1500))) ÷ 2 <= 2004750000.
Proof.
  intros HT.
  assert (Hsq : 0 <= (T + 1500) * (T + 1500) <= 182250000) by nia.
  set (sq := (T + 1500) * (T + 1500)) in *.
  rewrite (s32_id (T + 1500)) by (change (2 ^ 31) with 2147483648; lia).
  fold sq.
  rewrite (s32_id sq) by (change (2 ^ 31) with 2147483648; lia).
  rewrite (s32_id (11 * sq)) by (change (2 ^ 31) with 2147483648; lia).
  assert (H2 : 0 <= (11 * sq) ÷ 2 <= 2004750000).
  { split; [apply Z.quot_pos; lia |].
    apply Z.le_trans with (11 * sq); [apply Z.quot_le_upper_bound; lia | lia]. }
  rewrite !s32_id by (change (2 ^ 31) with 2147483648; lia).
  repeat split; lia.
Qed.

(** X2.  With second-order compensation enabled, and for a temperature not
    below -150.00 degrees C, no [int32_t] term of
    [calcTemperatureCompensatedPressure] overflows: the pressure returned
    is the one the corrected formula gives in exact integer arithmetic. *)
Theorem calcTemperatureCompensatedPressure_second_order
  (o : VarioMS5611) (rawPressure rawTemperature : Z) :
  myDoSecondOrderCompensation o = true ->
  Forall uint16 (myCompensationValues o) ->
  uint24 rawPressure -> uint24 rawTemperature ->
  - 15000 <= Datasheet.TEMP (myCompensationValues o) rawTemperature ->
  fst (calcTemperatureCompensatedPressure rawPressure rawTemperature o)
  = Exact.Pressure (myCompensationValues o) rawPressure rawTemperature.
Proof.
  intros Hflag Hc Hp Ht Hcold.
  destruct (code_dT _ _ Hc Ht) as [HdT _].
  pose proof (code_TEMP _ _ Hc Ht) as HT.
  destruct (code_OFF _ _ Hc Ht) as [HO Ho].
  destruct (code_SENS _ _ Hc Ht) as [HS Hs].
  change (2 ^ 34) with 17179869184 in Ho.
  change (2 ^ 33) with 8589934592 in Hs.
  unfold calcTemperatureCompensatedPressure, C. rewrite Hflag. cbv zeta.
  rewrite HdT, HT, HO, HS.
  unfold Exact.Pressure, Exact.OFF2, Exact.SENS2. cbv zeta.
  set (T := Datasheet.TEMP (myCompensationValues o) rawTemperature) in *.
  set (OFF := Datasheet.OFF (myCompensationValues o) rawTemperature) in *.
  set (SENS := Datasheet.SENS (myCompensationValues o) rawTemperature) in *.
  destruct (Z.ltb_spec T 2000) as [H1 | H1];
    destruct (Z.ltb_spec T (-1500)) as [H2 | H2]; try lia; simpl_obj.
  - destruct (code_cold_terms T ltac:(lia)) as [E1 [E2 [B1 B2]]].
    destruct (code_very_cold_terms T ltac:(lia)) as [E3 [E4 [B3 B4]]].
    rewrite E1, E2, E3, E4.
    rewrite (s64_id (_ + 7 * _)) by (change (2 ^ 63) with 9223372036854775808; lia).
    rewrite (s64_id (_ ÷ 4 + _)) by (change (2 ^ 63) with 9223372036854775808; lia).
    rewrite (s64_id (OFF - _)) by (change (2 ^ 63) with 9223372036854775808; lia).
    rewrite (s64_id (SENS - _)) by (change (2 ^ 63) with 9223372036854775808; lia).
    apply code_result_wide; [exact Hp | |];
      change (2 ^ 35) with 34359738368; change (2 ^ 34) with 17179869184; lia.
  - destruct (code_cold_terms T ltac:(lia)) as [E1 [E2 [B1 B2]]].
    rewrite E1, E2, !Z.add_0_r.
    rewrite (s64_id (OFF - _)) by (change (2 ^ 63) with 9223372036854775808; lia).
    rewrite (s64_id (SENS - _)) by (change (2 ^ 63) with 9223372036854775808; lia).
    apply code_result_wide; [exact Hp | |];
      change (2 ^ 35) with 34359738368; change (2 ^ 34) with 17179869184; lia.
  - rewrite !Z.add_0_r, !Z.sub_0_r.
    rewrite (s64_id OFF) by (change (2 ^ 63) with 9223372036854775808; lia).
    rewrite (s64_id SENS) by (change (2 ^ 63) with 9223372036854775808; lia).
    apply code_result_wide; [exact Hp | |];
      change (2 ^ 35) with 34359738368; change (2 ^ 34) with 17179869184; lia.
Qed.

End CompensationMore.

(** ** Bus transport *)

Lemma u8_range (x : Z) : 0 <= u8 x < 256.
Proof. unfold u8, wrap_unsigned. apply Z.mod_pos_bound. reflexivity. Qed.

(** Joining a high part shifted by [n] bits with a low part of [n]
    bits. *)
Lemma lor_shiftl_low (hi lo n : Z) :
  0 <= n -> 0 <= lo < 2 ^ n -> Z.lor (Z.shiftl hi n) lo = hi * 2 ^ n + lo.
Proof.
  intros Hn Hlo.
  assert (E : Z.land (Z.shiftl hi n) lo = 0).
  { apply Z.bits_inj'. intros i Hi. rewrite Z.land_spec, Z.bits_0.
    destruct (Z.lt_ge_cases i n) as [Hlt | Hge].
    - rewrite Z.shiftl_spec_low by lia. reflexivity.
    - assert (Z.testbit lo i = false).
      { destruct (Z.eq_dec lo 0) as [-> | Hnz]; [apply Z.bits_0 |].
        apply Z.bits_above_log2; [lia |].
        apply Z.lt_le_trans with n; [| exact Hge].
        apply Z.log2_lt_pow2; lia. }
      rewrite H. apply andb_false_r. }
  pose proof (Z.add_lor_land (Z.shiftl hi n) lo) as H.
  rewrite E, Z.add_0_r in H. rewrite H, Z.shiftl_mul_pow2 by lia. reflexivity.
Qed.

Section Bus.

Context {FP : Floating}.

Lemma readRegister24_spec (reg : Z) (c : Config) :
  fst (readRegister24 reg c) = wire_word (wire_in (env c)) (wire_pos (env c)) 3
  /\ uint24 (fst (readRegister24 reg c))
  /\ obj (snd (readRegister24 reg c)) = obj c
  /\ env (snd (readRegister24 reg c))
     = mkWorld (clock (env c)) (wire_in (env c)) (3 + wire_pos (env c))
               (WireRequested 3 :: WireSent reg :: trace (env c)).
Proof.
  assert (E : fst (readRegister24 reg c)
              = wire_word (wire_in (env c)) (wire_pos (env c)) 3).
  { unfold readRegister24, Wire_transmit, bind.
    cbn [log Wire_read take_byte ret fst snd obj env emit wire_in wire_pos
         wire_word].
    set (a := u8 (wire_in (env c) (wire_pos (env c)))).
    set (b := u8 (wire_in (env c) (S (wire_pos (env c))))).
    set (d := u8 (wire_in (env c) (S (S (wire_pos (env c)))))).
    pose proof (u8_range (wire_in (env c) (wire_pos (env c)))) as Ha.
    pose proof (u8_range (wire_in (env c) (S (wire_pos (env c))))) as Hb.
    pose proof (u8_range (wire_in (env c) (S (S (wire_pos (env c)))))) as Hd.
    fold a in Ha. fold b in Hb. fold d in Hd.
    rewrite (Z.shiftl_mul_pow2 b 8) by lia.
    rewrite (lor_shiftl_low a (b * 2 ^ 8) 16) by
      (change (2 ^ 16) with 65536; change (2 ^ 8) with 256; lia).
    replace (a * 2 ^ 16 + b * 2 ^ 8) with ((a * 2 ^ 8 + b) * 2 ^ 8)
      by (change (2 ^ 16) with 65536; change (2 ^ 8) with 256; lia).
    rewrite <- (Z.shiftl_mul_pow2 _ 8) by lia.
    rewrite (lor_shiftl_low (a * 2 ^ 8 + b) d 8) by
      (change (2 ^ 8) with 256; lia).
    change (2 ^ 8) with 256.
    change (256 ^ Z.of_nat 2) with 65536. change (256 ^ Z.of_nat 1) with 256.
    change (256 ^ Z.of_nat 0) with 1.
    rewrite u32_id by (change (2 ^ 32) with 4294967296; lia). lia. }
  split; [exact E |]. split; [| split; reflexivity].
  rewrite E. unfold uint24. cbn [wire_word].
  pose proof (u8_range (wire_in (env c) (wire_pos (env c)))) as Ha.
  pose proof (u8_range (wire_in (env c) (S (wire_pos (env c))))) as Hb.
  pose proof (u8_range (wire_in (env c) (S (S (wire_pos (env c)))))) as Hd.
  change (256 ^ Z.of_nat 2) with 65536. change (256 ^ Z.of_nat 1) with 256.
  change (256 ^ Z.of_nat 0) with 1. lia.
Qed.

Lemma readRegister16_spec (reg : Z) (c : Config) :
  fst (readRegister16 reg c) = wire_word (wire_in (env c)) (wire_pos (env c)) 2
  /\ uint16 (fst (readRegister16 reg c))
  /\ obj (snd (readRegister16 reg c)) = obj c
  /\ env (snd (readRegister16 reg c))
     = mkWorld (clock (env c)) (wire_in (env c)) (2 + wire_pos (env c))
               (WireRequested 2 :: WireSent reg :: trace (env c)).
Proof.
  assert (E : fst (readRegister16 reg c)
              = wire_word (wire_in (env c)) (wire_pos (env c)) 2).
  { unfold readRegister16, Wire_transmit, bind.
    cbn [log Wire_read take_byte ret fst snd obj env emit wire_in wire_pos
         wire_word].
    set (a := u8 (wire_in (env c) (wire_pos (env c)))).
    set (b := u8 (wire_in (env c) (S (wire_pos (env c))))).
    pose proof (u8_range (wire_in (env c) (wire_pos (env c)))) as Ha.
    pose proof (u8_range (wire_in (env c) (S (wire_pos (env c))))) as Hb.
    fold a in Ha. fold b in Hb.
    rewrite (lor_shiftl_low a b 8) by (change (2 ^ 8) with 256; lia).
    change (2 ^ 8) with 256.
    change (256 ^ Z.of_nat 1) with 256. change (256 ^ Z.of_nat 0) with 1.
    unfold u16, wrap_unsigned. change (2 ^ 16) with 65536.
    rewrite Z.mod_small; lia. }
  split; [exact E |]. split; [| split; reflexivity].
  rewrite E. unfold uint16. cbn [wire_word].
  pose proof (u8_range (wire_in (env c) (wire_pos (env c)))) as Ha.
  pose proof (u8_range (wire_in (env c) (S (wire_pos (env c))))) as Hb.
  change (256 ^ Z.of_nat 1) with 256. change (256 ^ Z.of_nat 0) with 1. lia.
Qed.

(** X3.  The register reads: [readRegister24] and [readRegister16] send the
    register, ask for three (two) bytes, consume them and return their
    big-endian word, a 24-bit (16-bit) value; the object is not touched,
    and of the world only the read position and the trace change. *)
Theorem register_reads_are_big_endian (reg : Z) (c : Config) :
  (fst (readRegister24 reg c) = wire_word (wire_in (env c)) (wire_pos (env c)) 3
   /\ uint24 (fst (readRegister24 reg c))
   /\ obj (snd (readRegister24 reg c)) = obj c
   /\ env (snd (readRegister24 reg c))
      = mkWorld (clock (env c)) (wire_in (env c)) (3 + wire_pos (env c))
                (WireRequested 3 :: WireSent reg :: trace (env c)))
  /\ (fst (readRegister16 reg c) = wire_word (wire_in (env c)) (wire_pos (env c)) 2
      /\ uint16 (fst (readRegister16 reg c))
      /\ obj (snd (readRegister16 reg c)) = obj c
      /\ env (snd (readRegister16 reg c))
         = mkWorld (clock (env c)) (wire_in (env c)) (2 + wire_pos (env c))
                   (WireRequested 2 :: WireSent reg :: trace (env c))).
Proof.
  split; [apply readRegister24_spec | apply readRegister16_spec].
Qed.

Lemma set_myCompensationValues_same (o : VarioMS5611) :
  set_myCompensationValues (myCompensationValues o) o = o.
Proof. destruct o. reflexivity. Qed.

Lemma readPROM_from_spec (n : nat) :
  forall (offset : nat) (c : Config),
    snd (readPROM_from n offset c)
    = mkConfig
        (set_myCompensationValues
           (prom_array (wire_in (env c)) (wire_pos (env c)) n offset
              (myCompensationValues (obj c)))
           (obj c))
        (mkWorld (clock (env c)) (wire_in (env c)) (2 * n + wire_pos (env c))
           (prom_trace n offset (trace (env c)))).
Proof.
  induction n as [| n IH]; intros offset c.
  - cbn [readPROM_from ret snd prom_array prom_trace Nat.mul Nat.add].
    rewrite set_myCompensationValues_same. destruct c as [o [t a p tr]].
    reflexivity.
  - cbn [readPROM_from]. unfold bind at 1 2.
    rewrite IH. clear IH.
    destruct (readRegister16_spec
                (u8 (MS5611_CMD_READ_PROM + Z.of_nat offset * 2)) c)
      as [Hv [_ [Ho He]]].
    cbn [method snd fst obj env]. rewrite Hv, Ho, He.
    cbn [clock wire_in wire_pos trace prom_array prom_trace].
    f_equal. f_equal. lia.
Qed.

Lemma prom_array_six (answers : nat -> Z) (pos : nat) (l : list Z) :
  List.length l = 6%nat ->
  prom_array answers pos 6 0 l = prom_words answers pos.
Proof.
  intros Hlen.
  destruct l as [| c0 [| c1 [| c2 [| c3 [| c4 [| c5 [| ]]]]]]];
    try discriminate.
  unfold prom_words. cbn [prom_array list_set map seq].
  repeat (apply f_equal2;
          [apply (f_equal (fun p => wire_word _ p 2)); lia |]).
  reflexivity.
Qed.

(** X4.  [readPROM] on the six-element array: it reads the PROM addresses
    0xA2, 0xA4, ..., 0xAC in this order, two bytes each, stores the six
    big-endian words, all of 16 bits, and changes no other member. *)
Theorem readPROM_reads_six_words (c : Config) :
  List.length (myCompensationValues (obj c)) = 6%nat ->
  obj (snd (readPROM c))
  = set_myCompensationValues
      (prom_words (wire_in (env c)) (wire_pos (env c))) (obj c)
  /\ Forall uint16 (myCompensationValues (obj (snd (readPROM c))))
  /\ List.length (myCompensationValues (obj (snd (readPROM c)))) = 6%nat
  /\ wire_pos (env (snd (readPROM c))) = (12 + wire_pos (env c))%nat
  /\ trace (env (snd (readPROM c)))
     = [WireRequested 2; WireSent 0xAC; WireRequested 2; WireSent 0xAA;
        WireRequested 2; WireSent 0xA8; WireRequested 2; WireSent 0xA6;
        WireRequested 2; WireSent 0xA4; WireRequested 2; WireSent 0xA2]
       ++ trace (env c).
Proof.
  intros Hlen. unfold readPROM. rewrite readPROM_from_spec.
  cbn [obj env wire_pos trace].
  rewrite (prom_array_six _ _ _ Hlen).
  split; [reflexivity |]. split; [| split; [| split]].
  - generalize (wire_pos (env c)) as p. intros p.
    unfold prom_words. cbn [map seq myCompensationValues
                            set_myCompensationValues].
    repeat (apply Forall_cons;
            [match goal with |- uint16 (wire_word ?a ?q 2) =>
               unfold uint16; cbn [wire_word];
               pose proof (u8_range (a q)); pose proof (u8_range (a (S q)));
               change (256 ^ Z.of_nat 1) with 256;
               change (256 ^ Z.of_nat 0) with 1; lia
             end |]).
    apply Forall_nil.
  - reflexivity.
  - reflexivity.
  - reflexivity.
Qed.

End Bus.

(** ** What the acquisition step leaves alone *)

Section FrameRules.

Context {FP : Floating}.

Lemma okeeps_ret {A X : Type} (P : VarioMS5611 -> X) (a : A) : okeeps P (ret a).
Proof. intros c. reflexivity. Qed.

Lemma okeeps_bind {A B X : Type} (P : VarioMS5611 -> X) (m : M A) (k : A -> M B) :
  okeeps P m -> (forall a, okeeps P (k a)) -> okeeps P (bind m k).
Proof. intros Hm Hk c. unfold bind. rewrite Hk. apply Hm. Qed.

Lemma okeeps_the {A X : Type} (P : VarioMS5611 -> X) (f : VarioMS5611 -> A) :
  okeeps P (the f).
Proof. intros c. reflexivity. Qed.

Lemma okeeps_millis {X : Type} (P : VarioMS5611 -> X) : okeeps P millis.
Proof. intros c. reflexivity. Qed.

Lemma okeeps_delay {X : Type} (P : VarioMS5611 -> X) (ms : Z) :
  okeeps P (delay ms).
Proof. intros c. reflexivity. Qed.

Lemma okeeps_log {X : Type} (P : VarioMS5611 -> X) (e : event) :
  okeeps P (log e).
Proof. intros c. reflexivity. Qed.

Lemma okeeps_Wire_read {X : Type} (P : VarioMS5611 -> X) : okeeps P Wire_read.
Proof. intros c. reflexivity. Qed.

Lemma okeeps_method {A X : Type} (P : VarioMS5611 -> X)
  (f : VarioMS5611 -> A * VarioMS5611) :
  (forall o, P (snd (f o)) = P o) -> okeeps P (method f).
Proof. intros Hf c. apply Hf. Qed.

Lemma okeeps_assign {A X : Type} (P : VarioMS5611 -> X)
  (set : A -> VarioMS5611 -> VarioMS5611) (v : A) :
  (forall o, P (set v o) = P o) -> okeeps P (assign set v).
Proof. intros Hs c. apply Hs. Qed.

Lemma okeeps_if {A X : Type} (P : VarioMS5611 -> X) (b : bool) (m1 m2 : M A) :
  okeeps P m1 -> okeeps P m2 -> okeeps P (if b then m1 else m2).
Proof. destruct b; auto. Qed.

Lemma okeeps_readRegister24 {X : Type} (P : VarioMS5611 -> X) (reg : Z) :
  okeeps P (readRegister24 reg).
Proof.
  intros c. destruct (readRegister24_spec reg c) as [_ [_ [-> _]]]. reflexivity.
Qed.

Lemma ekeeps_ret {A : Type} (a : A) : ekeeps (ret a).
Proof. intros c. reflexivity. Qed.

Lemma ekeeps_bind {A B : Type} (m : M A) (k : A -> M B) :
  ekeeps m -> (forall a, ekeeps (k a)) -> ekeeps (bind m k).
Proof. intros Hm Hk c. unfold bind. rewrite Hk. apply Hm. Qed.

Lemma ekeeps_the {A : Type} (f : VarioMS5611 -> A) : ekeeps (the f).
Proof. intros c. reflexivity. Qed.

Lemma ekeeps_millis : ekeeps millis.
Proof. intros c. reflexivity. Qed.

Lemma ekeeps_method {A : Type} (f : VarioMS5611 -> A * VarioMS5611) :
  ekeeps (method f).
Proof. intros c. reflexivity. Qed.

Lemma ekeeps_assign {A : Type} (set : A -> VarioMS5611 -> VarioMS5611) (v : A) :
  ekeeps (assign set v).
Proof. intros c. reflexivity. Qed.

Lemma ekeeps_if {A : Type} (b : bool) (m1 m2 : M A) :
  ekeeps m1 -> ekeeps m2 -> ekeeps (if b then m1 else m2).
Proof. destruct b; auto. Qed.

End FrameRules.

Create HintDb frames discriminated.

#[local] Hint Resolve okeeps_ret okeeps_bind okeeps_the okeeps_millis
  okeeps_delay okeeps_log okeeps_Wire_read okeeps_if okeeps_readRegister24
  ekeeps_ret ekeeps_bind ekeeps_the ekeeps_millis ekeeps_method ekeeps_assign
  ekeeps_if : frames.
#[local] Hint Extern 1 (okeeps _ (assign _ _)) =>
  apply okeeps_assign; intros; reflexivity : frames.

Ltac okeeps_tac :=
  lazymatch goal with
  | |- okeeps _ (bind _ _) =>
      apply okeeps_bind; [okeeps_tac | intros; okeeps_tac]
  | |- okeeps _ (if _ then _ else _) => apply okeeps_if; okeeps_tac
  | |- okeeps _ (match ?x with _ => _ end) => destruct x; okeeps_tac
  | |- okeeps _ (method (calcTemperature ?t)) =>
      apply okeeps_method; intros o;
      let a := fresh in let H := fresh in
      destruct (calcTemperature_object t o) as [a H];
      rewrite H; reflexivity
  | |- okeeps _ (method (calcTemperatureCompensatedPressure ?p ?t)) =>
      apply okeeps_method; intros o;
      let a := fresh in let b := fresh in let H := fresh in
      destruct (calcTemperatureCompensatedPressure_object p t o) as [a [b H]];
      rewrite H; destruct (myDoSecondOrderCompensation o); reflexivity
  | |- okeeps _ (assign _ _) => apply okeeps_assign; intros; reflexivity
  | |- okeeps _ (let _ := _ in _) => cbv zeta; okeeps_tac
  | |- okeeps _ calcFilter => unfold calcFilter; okeeps_tac
  | |- okeeps _ calcVerticalSpeed => unfold calcVerticalSpeed; okeeps_tac
  | |- okeeps _ getSmoothedPressure => unfold getSmoothedPressure; okeeps_tac
  | |- okeeps _ fetch_pending => unfold fetch_pending; okeeps_tac
  | |- okeeps _ (request_next _) => unfold request_next; okeeps_tac
  | |- okeeps _ count_cycle => unfold count_cycle; okeeps_tac
  | _ => solve [auto with frames]
  end.

Lemma settings_inv {FP : Floating} (o : VarioMS5611) (cal : list Z) (flag : bool)
  (pf vsf : double) (ct : Z) (uosr : ms5611_osr_t) :
  settings o = (cal, flag, pf, vsf, ct, uosr) ->
  myCompensationValues o = cal
  /\ myDoSecondOrderCompensation o = flag
  /\ myPressureSmoothingFactor o = pf
  /\ myVerticalSpeedSmoothingFactor o = vsf
  /\ myct o = ct
  /\ myuosr o = uosr.
Proof.
  unfold settings. intros H. inversion H. repeat split; reflexivity.
Qed.

Lemma snd_bind {FP : Floating} {A A' : Type} (m : M A) (k : A -> M A')
  (c : Config) :
  snd (bind m k c) = snd (k (fst (m c)) (snd (m c))).
Proof. reflexivity. Qed.

Lemma vario_state_inv {FP : Floating} (o1 o2 : VarioMS5611) :
  vario_state o1 = vario_state o2 ->
  myPressureSmoothingFactor o1 = myPressureSmoothingFactor o2
  /\ mySmoothedPressureVal o1 = mySmoothedPressureVal o2
  /\ myVerticalSpeedSmoothingFactor o1 = myVerticalSpeedSmoothingFactor o2
  /\ myVerticalSpeed o1 = myVerticalSpeed o2
  /\ lastAltitude o1 = lastAltitude o2
  /\ lastTime o1 = lastTime o2
  /\ myWarmUpPhase o1 = myWarmUpPhase o2.
Proof.
  unfold vario_state. intros H. inversion H. repeat split; reflexivity.
Qed.

Section Frames.

Context {FP : Floating} {IW : int_width}.

(** The filters read the clock and write no setting; they issue nothing
    on the bus. *)
Lemma ekeeps_calcFilter : ekeeps calcFilter.
Proof.
  unfold calcFilter, calcVerticalSpeed, getSmoothedPressure.
  auto 30 with frames.
Qed.

Lemma settings_calcTemperature (raw : Z) (o : VarioMS5611) :
  settings (snd (calcTemperature raw o)) = settings o.
Proof.
  unfold calcTemperature. cbv zeta.
  change (myDoSecondOrderCompensation (set_myTEMP2 0 o))
    with (myDoSecondOrderCompensation o).
  destruct (myDoSecondOrderCompensation o); [| reflexivity].
  match goal with |- context [?t <? 2000] => destruct (t <? 2000) end;
    reflexivity.
Qed.

Lemma settings_calcTemperatureCompensatedPressure (rawP rawT : Z) (o : VarioMS5611) :
  settings (snd (calcTemperatureCompensatedPressure rawP rawT o)) = settings o.
Proof.
  unfold calcTemperatureCompensatedPressure.
  destruct (myDoSecondOrderCompensation o); [| reflexivity].
  cbv zeta.
  match goal with |- context [?t <? 2000] => destruct (t <? 2000) end;
    match goal with |- context [?t <? -1500] => destruct (t <? -1500) end;
    reflexivity.
Qed.

Lemma okeeps_settings_calcFilter : okeeps settings calcFilter.
Proof.
  unfold calcFilter, calcVerticalSpeed, getSmoothedPressure.
  auto 30 with frames.
Qed.

Lemma okeeps_settings_triggerReadValues (r : vario_value_t) :
  okeeps settings (triggerReadValues r).
Proof.
  intros c. rewrite triggerReadValues_stages.
  destruct (ready c); [| reflexivity].
  revert c. change (okeeps settings
                      (bind count_cycle
                         (fun _ => bind fetch_pending (fun _ => request_next r)))).
  pose proof okeeps_settings_calcFilter.
  assert (okeeps settings count_cycle).
  { unfold count_cycle, getSmoothedPressure.
    repeat (apply okeeps_bind; [auto with frames | intros]).
    auto 10 with frames. }
  assert (okeeps settings fetch_pending).
  { unfold fetch_pending. apply okeeps_bind; [auto with frames |].
    intros [| | |]; [auto with frames | | auto 10 with frames
                     | auto with frames].
    repeat (lazymatch goal with
            | |- okeeps _ calcFilter => fail
            | _ =>
                apply okeeps_bind;
                [first [apply okeeps_method; intros;
                        first [apply settings_calcTemperature
                              | apply settings_calcTemperatureCompensatedPressure]
                       | solve [auto with frames]]
                | intros]
            end).
    assumption. }
  assert (okeeps settings (request_next r)).
  { unfold request_next. cbv zeta.
    apply okeeps_bind; [auto with frames | intros p].
    apply okeeps_bind; [| intros; auto 10 with frames].
    destruct r; auto 10 with frames. }
  auto with frames.
Qed.

(** X5.  The state machine never touches what the caller configures: after any
    execution the calibration words, the second-order flag, the smoothing
    factors and the oversampling with its wait time are what they
    were. *)
Theorem exec_keeps_settings (acts : list action) (c : Config) :
  settings (obj (exec acts c)) = settings (obj c).
Proof.
  revert c. induction acts as [| a acts IH]; intros c; cbn [exec];
    [reflexivity |].
  rewrite IH. destruct a as [ms | r]; cbn [perform].
  - reflexivity.
  - apply okeeps_settings_triggerReadValues.
Qed.

(** *** The three stages, member by member *)

Lemma count_cycle_object (c : Config) :
  obj (snd (count_cycle c))
  = let o1 := set_myRunCnt (c_uint (myRunCnt (obj c) + 1)) (obj c) in
    if c_uint (myRunCnt (obj c) + 1) =? 100
    then set_myReferenceHeight
           (calcAltitude (mySmoothedPressureVal (obj c)) default_aSeaLevelPressure)
           (set_myWarmUpPhase false o1)
    else o1.
Proof.
  unfold count_cycle, bind, getSmoothedPressure.
  cbn [the assign fst snd obj myRunCnt set_myRunCnt]. cbv zeta.
  destruct (c_uint (myRunCnt (obj c) + 1) =? 100); reflexivity.
Qed.

Lemma count_cycle_env (c : Config) :
  env (snd (count_cycle c))
  = if c_uint (myRunCnt (obj c) + 1) =? 100
    then emit RefHeightFixed (env c) else env c.
Proof.
  unfold count_cycle, bind, getSmoothedPressure.
  cbn [the assign fst snd obj myRunCnt set_myRunCnt].
  destruct (c_uint (myRunCnt (obj c) + 1) =? 100); reflexivity.
Qed.

Lemma fetch_pending_env (c : Config) :
  env (snd (fetch_pending c))
  = if conversion_pending (myPendingValueType (obj c))
    then mkWorld (clock (env c)) (wire_in (env c)) (3 + wire_pos (env c))
           (WireRequested 3 :: WireSent MS5611_CMD_ADC_READ :: trace (env c))
    else env c.
Proof.
  destruct (readRegister24_spec MS5611_CMD_ADC_READ c) as [_ [_ [_ He]]].
  unfold fetch_pending. unfold bind at 1. cbn [the fst snd].
  destruct (myPendingValueType (obj c)); cbn [conversion_pending ret snd];
    try reflexivity.
  unfold bind. rewrite ekeeps_calcFilter. cbn [assign method the snd env].
  exact He.
Qed.

Lemma request_next_env (r : vario_value_t) (c : Config) :
  env (snd (request_next r c))
  = emit (request_event (next_kind r (myRunCnt (obj c))) (myuosr (obj c)))
         (env c).
Proof.
  unfold request_next, bind, next_kind, kind_of_count. cbv zeta.
  destruct r; cbn [the assign log millis ret fst snd obj env request_event];
    try reflexivity.
  destruct (Z.rem (myRunCnt (obj c)) 2 =? 0);
    cbn [the assign log millis ret fst snd obj env request_event];
    reflexivity.
Qed.

(** X6.  What a ready cycle does on the bus: when a conversion is pending it
    sends the ADC read command and takes three bytes, otherwise it reads
    nothing; then it sends one conversion command.  The clock and the
    device's answers are as before. *)
Theorem ready_cycle_on_the_bus (r : vario_value_t) (c : Config) :
  ready c = true ->
  let cnt := c_uint (myRunCnt (obj c) + 1) in
  let pending := conversion_pending (myPendingValueType (obj c)) in
  env (snd (triggerReadValues r c))
  = mkWorld (clock (env c)) (wire_in (env c))
      ((if pending then 3 else 0) + wire_pos (env c))
      (request_event (next_kind r cnt) (myuosr (obj c))
       :: (if pending
           then [WireRequested 3; WireSent MS5611_CMD_ADC_READ] else [])
       ++ (if cnt =? 100 then [RefHeightFixed] else [])
       ++ trace (env c)).
Proof.
  intros Hready. cbv zeta. rewrite triggerReadValues_stages, Hready.
  unfold bind. rewrite request_next_env, fetch_pending_env.
  assert (Hp : okeeps myPendingValueType count_cycle) by okeeps_tac.
  assert (Hu : okeeps myuosr count_cycle) by okeeps_tac.
  assert (Hu' : okeeps myuosr fetch_pending) by okeeps_tac.
  assert (Hc : okeeps myRunCnt fetch_pending) by okeeps_tac.
  rewrite Hu', Hu, Hc, Hp, count_cycle_env, count_cycle_object.
  cbv zeta.
  assert (Hcnt : forall (b : bool) (x y : VarioMS5611),
             myRunCnt x = myRunCnt y -> myRunCnt (if b then x else y) = myRunCnt y)
    by (intros [] x y H; [exact H | reflexivity]).
  rewrite Hcnt by reflexivity. cbn [myRunCnt set_myRunCnt].
  destruct (conversion_pending (myPendingValueType (obj c)));
    destruct (c_uint (myRunCnt (obj c) + 1) =? 100);
    destruct c as [o [t a p tr]]; reflexivity.
Qed.

(** *** What a cycle measures *)

Lemma ready_cycle_projection {X : Type} (P : VarioMS5611 -> X)
  (r : vario_value_t) (c : Config) :
  ready c = true -> okeeps P (request_next r) ->
  P (obj (snd (triggerReadValues r c)))
  = P (obj (snd (fetch_pending (snd (count_cycle c))))).
Proof.
  intros Hready Hk. rewrite triggerReadValues_stages, Hready.
  unfold bind. apply Hk.
Qed.

(** The results of the compensation depend on the object only through
    the calibration words and the second-order flag. *)
Lemma compensation_results_agree (o1 o2 : VarioMS5611) (rawP rawT : Z) :
  myCompensationValues o1 = myCompensationValues o2 ->
  myDoSecondOrderCompensation o1 = myDoSecondOrderCompensation o2 ->
  fst (calcTemperature rawT o1) = fst (calcTemperature rawT o2)
  /\ fst (calcTemperatureCompensatedPressure rawP rawT o1)
     = fst (calcTemperatureCompensatedPressure rawP rawT o2).
Proof.
  intros Hc Hf.
  assert (H1 : forall v, myDoSecondOrderCompensation (set_myTEMP2 v o1)
                         = myDoSecondOrderCompensation o2) by exact (fun _ => Hf).
  assert (H2 : forall v, myDoSecondOrderCompensation (set_myTEMP2 v o2)
                         = myDoSecondOrderCompensation o2) by reflexivity.
  split.
  - unfold calcTemperature, C. rewrite Hc.
    cbv zeta. rewrite H1, H2.
    destruct (myDoSecondOrderCompensation o2); [| simpl_obj; reflexivity].
    match goal with |- context [?t <? 2000] => destruct (t <? 2000) end;
      simpl_obj; reflexivity.
  - unfold calcTemperatureCompensatedPressure, C. rewrite Hc, Hf.
    destruct (myDoSecondOrderCompensation o2); [| simpl_obj; reflexivity].
    cbv zeta.
    match goal with |- context [?t <? 2000] => destruct (t <? 2000) end;
      match goal with |- context [?t <? -1500] => destruct (t <? -1500) end;
      simpl_obj; reflexivity.
Qed.

(** The object after the fetch stage of a temperature cycle. *)
Lemma fetch_pending_temperature (c : Config) :
  myPendingValueType (obj c) = DIGITAL_TEMPERATURE_VALUE ->
  obj (snd (fetch_pending c))
  = set_myRawTemperatureVal_D2
      (wire_word (wire_in (env c)) (wire_pos (env c)) 3) (obj c).
Proof.
  intros Hp. unfold fetch_pending. unfold bind at 1. cbn [the fst snd].
  rewrite Hp. unfold bind. cbn [assign snd obj].
  destruct (readRegister24_spec MS5611_CMD_ADC_READ c) as [-> [_ [-> _]]].
  reflexivity.
Qed.

(** X7.  A ready cycle on which a temperature conversion is pending stores the
    24-bit word read from the ADC as the raw temperature and computes
    nothing: the raw pressure, the compensated pressure and temperature,
    the smoothed pressure and the vertical speed are as before. *)
Theorem temperature_cycle_only_stores_raw (r : vario_value_t) (c : Config) :
  ready c = true ->
  myPendingValueType (obj c) = DIGITAL_TEMPERATURE_VALUE ->
  myRawTemperatureVal_D2 (obj (snd (triggerReadValues r c)))
  = wire_word (wire_in (env c)) (wire_pos (env c)) 3
  /\ uint24 (myRawTemperatureVal_D2 (obj (snd (triggerReadValues r c))))
  /\ measurement (obj (snd (triggerReadValues r c))) = measurement (obj c).
Proof.
  intros Hready Hp.
  assert (Hp1 : myPendingValueType (obj (snd (count_cycle c)))
                = DIGITAL_TEMPERATURE_VALUE).
  { assert (H : okeeps myPendingValueType count_cycle) by okeeps_tac.
    rewrite H. exact Hp. }
  assert (Hfetch : obj (snd (fetch_pending (snd (count_cycle c))))
                   = set_myRawTemperatureVal_D2
                       (wire_word (wire_in (env c)) (wire_pos (env c)) 3)
                       (obj (snd (count_cycle c)))).
  { rewrite (fetch_pending_temperature _ Hp1), count_cycle_env.
    destruct (c_uint (myRunCnt (obj c) + 1) =? 100); reflexivity. }
  assert (E : myRawTemperatureVal_D2 (obj (snd (triggerReadValues r c)))
              = wire_word (wire_in (env c)) (wire_pos (env c)) 3).
  { rewrite (ready_cycle_projection myRawTemperatureVal_D2 r c Hready)
      by okeeps_tac.
    rewrite Hfetch. reflexivity. }
  split; [exact E |]. split.
  - rewrite E.
    destruct (readRegister24_spec MS5611_CMD_ADC_READ c) as [<- [H _]].
    exact H.
  - rewrite (ready_cycle_projection measurement r c Hready) by okeeps_tac.
    rewrite Hfetch.
    assert (H : okeeps measurement count_cycle) by okeeps_tac.
    rewrite <- (H c). reflexivity.
Qed.

(** What [calcFilter] does: the low pass on the pressure, then the
    vertical speed from the altitude of the smoothed pressure. *)
Lemma calcFilter_effect (c : Config) :
  let o := obj c in
  let o' := obj (snd (calcFilter c)) in
  let s' := dadd (d_of_Z (myPressureVal o))
                 (dmul (myPressureSmoothingFactor o)
                       (dsub (mySmoothedPressureVal o) (d_of_Z (myPressureVal o)))) in
  let alt := dmul (calcAltitude s' default_aSeaLevelPressure) (d_of_Z 100) in
  let base := if myWarmUpPhase o then alt else lastAltitude o in
  let v := dmul (dsub alt base)
                (ddiv (d_dec 1000 0) (d_of_Z (u32 (clock (env c) - lastTime o)))) in
  mySmoothedPressureVal o' = s'
  /\ myVerticalSpeed o'
     = c_int (d_trunc (dadd v (dmul (myVerticalSpeedSmoothingFactor o)
                                    (dsub (d_of_Z (myVerticalSpeed o)) v))))
  /\ lastAltitude o' = alt
  /\ lastTime o' = clock (env c).
Proof.
  cbv zeta. unfold calcFilter, calcVerticalSpeed, getSmoothedPressure.
  repeat (rewrite snd_bind; cbv beta).
  cbn [the assign millis fst snd obj env].
  destruct (myWarmUpPhase (obj c)) eqn:Hwarm.
  - change (myWarmUpPhase
              (set_mySmoothedPressureVal
                 (dadd (d_of_Z (myPressureVal (obj c)))
                    (dmul (myPressureSmoothingFactor (obj c))
                       (dsub (mySmoothedPressureVal (obj c))
                          (d_of_Z (myPressureVal (obj c))))))
                 (obj c)))
      with (myWarmUpPhase (obj c)).
    rewrite Hwarm. repeat (rewrite snd_bind; cbv beta).
    cbn [the assign millis fst snd obj env]. repeat split.
  - change (myWarmUpPhase
              (set_mySmoothedPressureVal
                 (dadd (d_of_Z (myPressureVal (obj c)))
                    (dmul (myPressureSmoothingFactor (obj c))
                       (dsub (mySmoothedPressureVal (obj c))
                          (d_of_Z (myPressureVal (obj c))))))
                 (obj c)))
      with (myWarmUpPhase (obj c)).
    rewrite Hwarm. repeat (rewrite snd_bind; cbv beta).
    cbn [the assign millis ret fst snd obj env]. repeat split.
Qed.

(** The fetch stage of a pressure cycle up to the filter: the object that
    [calcFilter] starts from. *)
Lemma fetch_pending_pressure_stage (c : Config) :
  myPendingValueType (obj c) = DIGITAL_PRESSURE_VALUE ->
  let w := wire_word (wire_in (env c)) (wire_pos (env c)) 3 in
  let D2 := myRawTemperatureVal_D2 (obj c) in
  exists o1 : VarioMS5611,
    snd (fetch_pending c)
    = snd (calcFilter
             (mkConfig o1 (env (snd (readRegister24 MS5611_CMD_ADC_READ c)))))
    /\ myRawPressureVal_D1 o1 = w
    /\ myRawTemperatureVal_D2 o1 = D2
    /\ myTemperatureVal o1 = fst (calcTemperature D2 (obj c))
    /\ myPressureVal o1 = fst (calcTemperatureCompensatedPressure w D2 (obj c))
    /\ vario_state o1 = vario_state (obj c).
Proof.
  intros Hp. cbv zeta.
  destruct (readRegister24_spec MS5611_CMD_ADC_READ c) as [Hw [_ [Ho _]]].
  set (w := wire_word (wire_in (env c)) (wire_pos (env c)) 3) in *.
  set (cA := snd (readRegister24 MS5611_CMD_ADC_READ c)) in *.
  set (oB := set_myRawPressureVal_D1 w (obj c)).
  set (D2 := myRawTemperatureVal_D2 (obj c)).
  destruct (calcTemperature_object D2 oB) as [t2 HC].
  set (t := fst (calcTemperature D2 oB)) in *.
  set (oD := set_myTemperatureVal t (set_myTEMP2 t2 oB)).
  destruct (calcTemperatureCompensatedPressure_object w D2 oD) as [a [b HE]].
  set (p := fst (calcTemperatureCompensatedPressure w D2 oD)) in *.
  set (oE := if myDoSecondOrderCompensation oD
             then set_mySENS2 b (set_myOFF2 a oD) else oD) in *.
  assert (Hchain : snd (fetch_pending c)
                   = snd (calcFilter (mkConfig (set_myPressureVal p oE) (env cA)))).
  { unfold fetch_pending. unfold bind at 1. cbn [the fst snd]. rewrite Hp.
    unfold bind at 1. cbv beta. fold cA. rewrite Hw.
    unfold bind at 1. cbn [assign fst snd obj env]. rewrite Ho. fold oB.
    unfold bind at 1. cbn [the fst snd obj].
    change (myRawTemperatureVal_D2 oB) with D2.
    unfold bind at 1. cbn [method fst snd obj env]. fold t. rewrite HC.
    unfold bind at 1. cbn [assign fst snd obj env]. fold oD.
    unfold bind at 1. cbn [the fst snd obj].
    change (myRawPressureVal_D1 oD) with w.
    unfold bind at 1. cbn [the fst snd obj].
    change (myRawTemperatureVal_D2 oD) with D2.
    unfold bind at 1. cbn [method fst snd obj env]. fold p. rewrite HE.
    unfold bind at 1. cbn [assign fst snd obj env].
    reflexivity. }
  assert (HoE : forall X (P : VarioMS5611 -> X),
             (forall x y o', P (set_mySENS2 x (set_myOFF2 y o')) = P o') ->
             P oE = P oD).
  { intros X P HP. subst oE. destruct (myDoSecondOrderCompensation oD);
      [apply HP | reflexivity]. }
  assert (Hagree : t = fst (calcTemperature D2 (obj c))
                   /\ p = fst (calcTemperatureCompensatedPressure w D2 (obj c))).
  { split.
    - apply (compensation_results_agree oB (obj c) w D2); reflexivity.
    - apply (compensation_results_agree oD (obj c) w D2); reflexivity. }
  destruct Hagree as [Ht Hpp].
  assert (HoD : myRawPressureVal_D1 oD = w /\ myRawTemperatureVal_D2 oD = D2
                /\ myTemperatureVal oD = t
                /\ vario_state oD = vario_state (obj c))
    by (repeat split; reflexivity).
  destruct HoD as (D1 & D2' & D3 & D4).
  pose proof (HoE _ myRawPressureVal_D1 (fun _ _ _ => eq_refl)) as G1.
  pose proof (HoE _ myRawTemperatureVal_D2 (fun _ _ _ => eq_refl)) as G2.
  pose proof (HoE _ myTemperatureVal (fun _ _ _ => eq_refl)) as G3.
  pose proof (HoE _ vario_state (fun _ _ _ => eq_refl)) as G4.
  rewrite D1 in G1. rewrite D2' in G2. rewrite D3 in G3. rewrite D4 in G4.
  clear HoE D1 D2' D3 D4 HE HC.
  clearbody oE p t oD oB cA w D2.
  exists (set_myPressureVal p oE). split; [exact Hchain |].
  assert (E4 : forall o, myPressureVal (set_myPressureVal p o) = p)
    by reflexivity.
  assert (E1 : forall o, myRawPressureVal_D1 (set_myPressureVal p o)
                         = myRawPressureVal_D1 o) by reflexivity.
  assert (E2 : forall o, myRawTemperatureVal_D2 (set_myPressureVal p o)
                         = myRawTemperatureVal_D2 o) by reflexivity.
  assert (E3 : forall o, myTemperatureVal (set_myPressureVal p o)
                         = myTemperatureVal o) by reflexivity.
  assert (E5 : forall o, vario_state (set_myPressureVal p o) = vario_state o)
    by reflexivity.
  rewrite E1, E2, E3, E4, E5, G1, G2, G3, G4, <- Ht, <- Hpp.
  repeat split.
Qed.

(** The object after the fetch stage of a pressure cycle. *)
Lemma fetch_pending_pressure (c : Config) :
  myPendingValueType (obj c) = DIGITAL_PRESSURE_VALUE ->
  let w := wire_word (wire_in (env c)) (wire_pos (env c)) 3 in
  let D2 := myRawTemperatureVal_D2 (obj c) in
  let o := obj (snd (fetch_pending c)) in
  myRawPressureVal_D1 o = w
  /\ myRawTemperatureVal_D2 o = D2
  /\ myTemperatureVal o = fst (calcTemperature D2 (obj c))
  /\ myPressureVal o = fst (calcTemperatureCompensatedPressure w D2 (obj c))
  /\ mySmoothedPressureVal o
     = dadd (d_of_Z (myPressureVal o))
            (dmul (myPressureSmoothingFactor (obj c))
                  (dsub (mySmoothedPressureVal (obj c)) (d_of_Z (myPressureVal o)))).
Proof.
  intros Hp. cbv zeta.
  destruct (fetch_pending_pressure_stage c Hp)
    as (o1 & -> & G1 & G2 & G3 & G4 & G5).
  assert (K1 : okeeps myRawPressureVal_D1 calcFilter) by okeeps_tac.
  assert (K2 : okeeps myRawTemperatureVal_D2 calcFilter) by okeeps_tac.
  assert (K3 : okeeps myTemperatureVal calcFilter) by okeeps_tac.
  assert (K4 : okeeps myPressureVal calcFilter) by okeeps_tac.
  rewrite K1, K2, K3, K4.
  match goal with |- context [calcFilter ?c0] =>
    destruct (calcFilter_effect c0) as (F1 & _) end.
  rewrite F1. cbn [obj]. rewrite G1, G2, G3, G4.
  destruct (vario_state_inv _ _ G5) as (-> & -> & _).
  repeat split.
Qed.

(** The vertical speed after the fetch stage of a pressure cycle. *)
Lemma fetch_pending_vertical_speed (c : Config) :
  myPendingValueType (obj c) = DIGITAL_PRESSURE_VALUE ->
  let o := obj c in
  let o' := obj (snd (fetch_pending c)) in
  let alt := dmul (calcAltitude (mySmoothedPressureVal o')
                     default_aSeaLevelPressure) (d_of_Z 100) in
  let base := if myWarmUpPhase o then alt else lastAltitude o in
  let v := dmul (dsub alt base)
                (ddiv (d_dec 1000 0) (d_of_Z (u32 (clock (env c) - lastTime o)))) in
  myVerticalSpeed o'
  = c_int (d_trunc (dadd v (dmul (myVerticalSpeedSmoothingFactor o)
                                 (dsub (d_of_Z (myVerticalSpeed o)) v))))
  /\ lastAltitude o' = alt
  /\ lastTime o' = clock (env c).
Proof.
  intros Hp. cbv zeta.
  destruct (fetch_pending_pressure_stage c Hp)
    as (o1 & -> & _ & _ & _ & _ & G5).
  destruct (readRegister24_spec MS5611_CMD_ADC_READ c) as (_ & _ & _ & He).
  match goal with |- context [calcFilter ?c0] =>
    destruct (calcFilter_effect c0) as (F1 & F2 & F3 & F4) end.
  rewrite F1, F2, F3, F4. cbn [obj env]. rewrite He. cbn [clock].
  destruct (vario_state_inv _ _ G5) as (-> & -> & -> & -> & -> & -> & ->).
  repeat split.
Qed.

End Frames.

Section PressureCycle.

Context {FP : Floating} {IW : int_width}.

(** X8.  A ready cycle on which a pressure conversion is pending stores the
    24-bit word read from the ADC as the raw pressure, keeps the raw
    temperature of the cycle before, and computes the temperature and the
    pressure from exactly this pair; the smoothed pressure moves from its
    old value towards the new pressure by the smoothing factor. *)
Theorem pressure_cycle_compensates_the_pair (r : vario_value_t) (c : Config) :
  ready c = true ->
  myPendingValueType (obj c) = DIGITAL_PRESSURE_VALUE ->
  let w := wire_word (wire_in (env c)) (wire_pos (env c)) 3 in
  let D2 := myRawTemperatureVal_D2 (obj c) in
  let o := obj (snd (triggerReadValues r c)) in
  myRawPressureVal_D1 o = w
  /\ myRawTemperatureVal_D2 o = D2
  /\ myTemperatureVal o = fst (calcTemperature D2 (obj c))
  /\ myPressureVal o = fst (calcTemperatureCompensatedPressure w D2 (obj c))
  /\ mySmoothedPressureVal o
     = dadd (d_of_Z (myPressureVal o))
            (dmul (myPressureSmoothingFactor (obj c))
                  (dsub (mySmoothedPressureVal (obj c)) (d_of_Z (myPressureVal o)))).
Proof.
  intros Hready Hp. cbv zeta.
  set (c1 := snd (count_cycle c)).
  assert (Hp1 : myPendingValueType (obj c1) = DIGITAL_PRESSURE_VALUE).
  { assert (H : okeeps myPendingValueType count_cycle) by okeeps_tac.
    unfold c1. rewrite H. exact Hp. }
  assert (Hw : wire_word (wire_in (env c1)) (wire_pos (env c1)) 3
               = wire_word (wire_in (env c)) (wire_pos (env c)) 3).
  { unfold c1. rewrite count_cycle_env.
    destruct (c_uint (myRunCnt (obj c) + 1) =? 100); reflexivity. }
  assert (HD : myRawTemperatureVal_D2 (obj c1) = myRawTemperatureVal_D2 (obj c)).
  { assert (H : okeeps myRawTemperatureVal_D2 count_cycle) by okeeps_tac.
    apply H. }
  assert (Hs : settings (obj c1) = settings (obj c)).
  { assert (H : okeeps settings count_cycle) by okeeps_tac. apply H. }
  assert (Hsm : mySmoothedPressureVal (obj c1) = mySmoothedPressureVal (obj c)).
  { assert (H : okeeps mySmoothedPressureVal count_cycle) by okeeps_tac.
    apply H. }
  unfold settings in Hs. injection Hs as Hcal Hflag Hpf _ _ _.
  destruct (compensation_results_agree (obj c1) (obj c)
              (wire_word (wire_in (env c)) (wire_pos (env c)) 3)
              (myRawTemperatureVal_D2 (obj c)) Hcal Hflag) as [Ht Hpr].
  pose proof (fetch_pending_pressure c1 Hp1) as H. cbv zeta in H.
  rewrite Hw, HD, Ht, Hpr, Hpf, Hsm in H.
  rewrite !(ready_cycle_projection _ r c Hready) by okeeps_tac.
  exact H.
Qed.

(** X9.  The vertical speed of a pressure cycle: the altitude of the new
    smoothed pressure in cm, its difference to the altitude of the
    pressure cycle before (to itself while the warm-up phase lasts, the
    100th cycle being past it), scaled by the time since that cycle and
    smoothed by the vertical-speed factor; the altitude and the time are
    kept for the next pressure cycle. *)
Theorem pressure_cycle_vertical_speed (r : vario_value_t) (c : Config) :
  ready c = true ->
  myPendingValueType (obj c) = DIGITAL_PRESSURE_VALUE ->
  let o := obj c in
  let o' := obj (snd (triggerReadValues r c)) in
  let alt := dmul (calcAltitude (mySmoothedPressureVal o')
                     default_aSeaLevelPressure) (d_of_Z 100) in
  let base := if myWarmUpPhase o' then alt else lastAltitude o in
  let v := dmul (dsub alt base)
                (ddiv (d_dec 1000 0) (d_of_Z (u32 (clock (env c) - lastTime o)))) in
  myVerticalSpeed o'
  = c_int (d_trunc (dadd v (dmul (myVerticalSpeedSmoothingFactor o)
                                 (dsub (d_of_Z (myVerticalSpeed o)) v))))
  /\ lastAltitude o' = alt
  /\ lastTime o' = clock (env c)
  /\ myWarmUpPhase o'
     = (if c_uint (myRunCnt o + 1) =? 100 then false else myWarmUpPhase o).
Proof.
  intros Hready Hp. cbv zeta.
  set (c1 := snd (count_cycle c)).
  assert (Hp1 : myPendingValueType (obj c1) = DIGITAL_PRESSURE_VALUE).
  { assert (H : okeeps myPendingValueType count_cycle) by okeeps_tac.
    unfold c1. rewrite H. exact Hp. }
  assert (Hclk : clock (env c1) = clock (env c)).
  { unfold c1. rewrite count_cycle_env.
    destruct (c_uint (myRunCnt (obj c) + 1) =? 100); reflexivity. }
  assert (K : okeeps (fun o => (myVerticalSpeedSmoothingFactor o,
                                myVerticalSpeed o, lastAltitude o, lastTime o))
                count_cycle) by okeeps_tac.
  specialize (K c). fold c1 in K. injection K as K1 K2 K3 K4.
  assert (Hwarm : myWarmUpPhase (obj c1)
                  = if c_uint (myRunCnt (obj c) + 1) =? 100 then false
                    else myWarmUpPhase (obj c)).
  { unfold c1. rewrite count_cycle_object. cbv zeta.
    destruct (c_uint (myRunCnt (obj c) + 1) =? 100); reflexivity. }
  assert (Kw : okeeps myWarmUpPhase fetch_pending) by okeeps_tac.
  pose proof (fetch_pending_vertical_speed c1 Hp1) as H. cbv zeta in H.
  rewrite Hclk, K1, K2, K3, K4 in H. rewrite <- (Kw c1) in H.
  rewrite !(ready_cycle_projection _ r c Hready) by okeeps_tac.
  fold c1. destruct H as (H1 & H2 & H3).
  split; [exact H1 |]. split; [exact H2 |]. split; [exact H3 |].
  rewrite (Kw c1). exact Hwarm.
Qed.

End PressureCycle.

(** ** The schedule of the ready cycles *)

Lemma u32_range (x : Z) : 0 <= u32 x < 2 ^ 32.
Proof. unfold u32, wrap_unsigned. apply Z.mod_pos_bound. reflexivity. Qed.

Lemma elapsed_nonneg (acts : list action) : forward acts -> 0 <= elapsed acts.
Proof.
  induction 1 as [| a acts Ha _ IH]; cbn [elapsed]; [lia |].
  destruct a; lia.
Qed.

Section Schedule.

Context {FP : Floating} {IW : int_width}.

Lemma sched_exec_cnt (acts : list action) (v : Sched) :
  0 <= s_cnt v < 2 ^ int_bits IW ->
  s_cnt (sched_exec acts v)
  = (s_cnt v + Z.of_nat (sched_ready_cycles acts v)) mod 2 ^ int_bits IW.
Proof.
  revert v. induction acts as [| a acts IH]; intros v Hv;
    cbn [sched_exec sched_ready_cycles].
  - rewrite Z.add_0_r, Z.mod_small; [reflexivity | exact Hv].
  - destruct a as [ms | r]; cbn [sched_perform].
    + rewrite (IH (sched_delay ms v)) by exact Hv. reflexivity.
    + unfold sched_step. destruct (s_next v <? s_clock v); cbn [snd].
      * rewrite IH by (cbn [s_cnt]; apply c_uint_range).
        cbn [s_cnt]. unfold c_uint, wrap_unsigned.
        rewrite Zplus_mod_idemp_l. f_equal. lia.
      * rewrite IH by exact Hv. reflexivity.
Qed.

(** X10.  The cycle counter counts the ready cycles, modulo the range of
    [unsigned int]: the calls that come before the deadline do not
    count. *)
Theorem run_counter_counts_ready_cycles (acts : list action) (c : Config) :
  0 <= myRunCnt (obj c) < 2 ^ int_bits IW ->
  myRunCnt (obj (exec acts c))
  = (myRunCnt (obj c) + Z.of_nat (ready_cycles acts c)) mod 2 ^ int_bits IW.
Proof.
  intros H.
  change (myRunCnt (obj (exec acts c))) with (s_cnt (sched (exec acts c))).
  rewrite exec_sched, ready_cycles_sched. apply sched_exec_cnt. exact H.
Qed.

(** *** The warm-up phase *)

Lemma ready_cycle_warm_up (r : vario_value_t) (c : Config) :
  ready c = true ->
  myWarmUpPhase (obj (snd (triggerReadValues r c)))
  = if c_uint (myRunCnt (obj c) + 1) =? 100 then false
    else myWarmUpPhase (obj c).
Proof.
  intros Hready.
  rewrite (ready_cycle_projection myWarmUpPhase r c Hready) by okeeps_tac.
  assert (H : okeeps myWarmUpPhase fetch_pending) by okeeps_tac.
  rewrite H, count_cycle_object. cbv zeta.
  destruct (c_uint (myRunCnt (obj c) + 1) =? 100); reflexivity.
Qed.

Lemma ready_cycle_counter (r : vario_value_t) (c : Config) :
  ready c = true ->
  myRunCnt (obj (snd (triggerReadValues r c))) = c_uint (myRunCnt (obj c) + 1).
Proof.
  intros Hready.
  rewrite (ready_cycle_projection myRunCnt r c Hready) by okeeps_tac.
  assert (H : okeeps myRunCnt fetch_pending) by okeeps_tac.
  rewrite H, count_cycle_object. cbv zeta.
  destruct (c_uint (myRunCnt (obj c) + 1) =? 100); reflexivity.
Qed.

Lemma warm_up_invariant (acts : list action) :
  forall (n : nat) (c : Config),
    myRunCnt (obj c) = Z.of_nat n mod 2 ^ int_bits IW ->
    myWarmUpPhase (obj c) = (n <? 100)%nat ->
    myWarmUpPhase (obj (exec acts c)) = (n + ready_cycles acts c <? 100)%nat.
Proof.
  destruct int_bits_even as [h [Hh Hbig]].
  induction acts as [| a acts IH]; intros n c Hcnt Hwarm;
    cbn [exec ready_cycles].
  - rewrite Nat.add_0_r. exact Hwarm.
  - destruct a as [ms | r]; cbn [perform].
    + rewrite (IH n) by assumption. reflexivity.
    + destruct (ready c) eqn:Hready.
      * rewrite (IH (S n)).
        -- f_equal. lia.
        -- rewrite (ready_cycle_counter r c Hready), Hcnt.
           unfold c_uint, wrap_unsigned. rewrite Zplus_mod_idemp_l.
           f_equal. lia.
        -- rewrite (ready_cycle_warm_up r c Hready), Hcnt, Hwarm.
           unfold c_uint, wrap_unsigned. rewrite Zplus_mod_idemp_l.
           destruct (Nat.ltb_spec (S n) 100) as [Hlt | Hge].
           ++ rewrite Z.mod_small by lia.
              destruct (Z.eqb_spec (Z.of_nat n + 1) 100); [lia |].
              apply Nat.ltb_lt. lia.
           ++ assert (E : (n <? 100)%nat = (n =? 99)%nat).
              { destruct (Nat.ltb_spec n 100), (Nat.eqb_spec n 99);
                  reflexivity || lia. }
              rewrite E. destruct (Nat.eqb_spec n 99) as [-> | Hn].
              ** rewrite Z.mod_small by lia. reflexivity.
              ** destruct (_ =? 100); reflexivity.
      * rewrite (triggerReadValues_not_ready r c Hready). cbn [snd].
        rewrite (IH n) by assumption. reflexivity.
Qed.

(** X11.  After [begin] (counter 0, warm-up on) the warm-up phase lasts for
    exactly the first 99 ready cycles: it is over from the 100th on and
    never comes back, whatever the counter does later. *)
Theorem warm_up_ends_at_cycle_100 (acts : list action) (c : Config) :
  myRunCnt (obj c) = 0 ->
  myWarmUpPhase (obj c) = true ->
  myWarmUpPhase (obj (exec acts c)) = (ready_cycles acts c <? 100)%nat.
Proof.
  intros Hcnt Hwarm.
  apply (warm_up_invariant acts O c); [| exact Hwarm].
  rewrite Hcnt. symmetry. apply Z.mod_0_l.
  pose proof (c_uint_range 0). lia.
Qed.

(** X12.  Until the cycle counter wraps around, the state machine fixes the
    reference height exactly once, on the 100th ready cycle after
    [begin], and not before. *)
Theorem reference_height_fixed_once_until_wraparound (acts : list action)
  (c : Config) :
  myRunCnt (obj c) = 0 ->
  Z.of_nat (ready_cycles acts c) < 2 ^ int_bits IW + 100 ->
  reference_fixes (trace (env (exec acts c)))
  = Nat.add (reference_fixes (trace (env c)))
      (if 100 <=? Z.of_nat (ready_cycles acts c) then 1%nat else 0%nat).
Proof.
  intros Hcnt Hn. rewrite reference_fixes_exec, Hcnt.
  rewrite hits_100_once by lia. reflexivity.
Qed.

(** *** The conversion time *)

Lemma sched_ready_cycles_bound (acts : list action) :
  forward acts ->
  forall v : Sched,
    0 <= s_ct v -> 0 <= s_clock v ->
    s_clock v + elapsed acts + s_ct v < 2 ^ 32 ->
    s_next v <= s_clock v + s_ct v ->
    (s_ct v + 1) * Z.of_nat (sched_ready_cycles acts v)
    + Z.max 0 (s_next v + 1 - s_clock v)
    <= elapsed acts + s_ct v + 1.
Proof.
  induction 1 as [| a acts Ha Hf IH]; intros v Hct Hclk Hwrap Hnext;
    cbn [sched_ready_cycles elapsed] in *.
  - lia.
  - pose proof (elapsed_nonneg acts Hf) as He.
    destruct a as [ms | r]; cbn [sched_perform elapsed] in *.
    + assert (E : u32 (s_clock v + ms) = s_clock v + ms)
        by (apply u32_id; lia).
      specialize (IH (sched_delay ms v)).
      cbn [sched_delay s_ct s_clock s_next] in IH. rewrite E in IH.
      specialize (IH Hct ltac:(lia) ltac:(lia) ltac:(lia)).
      cbn [Nat.add]. lia.
    + unfold sched_step. destruct (Z.ltb_spec (s_next v) (s_clock v)) as [Hr | Hr];
        cbn [snd].
      * assert (E : u32 (s_clock v + s_ct v) = s_clock v + s_ct v)
          by (apply u32_id; lia).
        match goal with |- context [sched_ready_cycles acts ?v'] =>
          specialize (IH v'); set (N := sched_ready_cycles acts v') in * end.
        clearbody N. cbn [s_ct s_clock s_next] in IH. rewrite E in IH.
        specialize (IH Hct Hclk Hwrap ltac:(lia)).
        rewrite Nat2Z.inj_add. change (Z.of_nat 1) with 1.
        rewrite Z.mul_add_distr_l. lia.
      * cbn [Nat.add]. apply IH; assumption.
Qed.

(** X13.  The conversion time is respected: as long as the clock does not wrap,
    two ready cycles are more than the wait time apart, so an execution
    that takes [T] ms has at most [T / (myct + 1) + 1] ready cycles. *)
Theorem ready_cycles_bounded_by_elapsed_time (acts : list action) (c : Config) :
  forward acts ->
  0 <= myct (obj c) -> 0 <= clock (env c) ->
  clock (env c) + elapsed acts + myct (obj c) < 2 ^ 32 ->
  nextRead (obj c) <= clock (env c) + myct (obj c) ->
  (myct (obj c) + 1) * Z.of_nat (ready_cycles acts c)
  <= elapsed acts + myct (obj c) + 1.
Proof.
  intros Hf Hct Hclk Hwrap Hnext.
  pose proof (sched_ready_cycles_bound acts Hf (sched c) Hct Hclk Hwrap Hnext)
    as H.
  rewrite <- ready_cycles_sched in H. cbn [sched s_ct s_next s_clock] in H.
  lia.
Qed.

(** *** A deadline that cannot pass *)

Lemma stalled_exec (acts : list action) :
  forall c : Config,
    nextRead (obj c) = UINT32_MAX -> 0 <= clock (env c) < 2 ^ 32 ->
    ready_cycles acts c = O
    /\ obj (exec acts c) = obj c
    /\ trace (env (exec acts c)) = trace (env c).
Proof.
  induction acts as [| a acts IH]; intros c Hn Hclk;
    cbn [exec ready_cycles]; [repeat split |].
  destruct a as [ms | r]; cbn [perform].
  - destruct (IH (snd (delay ms c))) as [H1 [H2 H3]].
    + exact Hn.
    + cbn [delay snd env advance clock]. apply u32_range.
    + rewrite H1, H2, H3. repeat split.
  - assert (Hready : ready c = false).
    { unfold ready. apply Z.ltb_ge. rewrite Hn. unfold UINT32_MAX.
      change (2 ^ 32) with 4294967296 in Hclk. lia. }
    rewrite Hready, (triggerReadValues_not_ready r c Hready). cbn [snd].
    apply IH; assumption.
Qed.

Lemma stalled_await (fuel : nat) (r : vario_value_t) :
  forall c : Config,
    nextRead (obj c) = UINT32_MAX -> 0 <= clock (env c) < 2 ^ 32 ->
    await fuel r c = None.
Proof.
  induction fuel as [| fuel IH]; intros c Hn Hclk; cbn [await];
    [reflexivity |].
  assert (Hready : ready c = false).
  { unfold ready. apply Z.ltb_ge. rewrite Hn. unfold UINT32_MAX.
    change (2 ^ 32) with 4294967296 in Hclk. lia. }
  rewrite (triggerReadValues_not_ready r c Hready). cbn [fst snd].
  apply IH.
  - exact Hn.
  - cbn [delay snd env advance clock]. apply u32_range.
Qed.

(** X14.  A ready cycle in the millisecond in which [millis() + myct] is the
    largest [unsigned long] sets a deadline that [millis()] never
    exceeds: from then on no call is a ready cycle, the object and the
    bus trace stay as they are, and every blocking read loops for
    ever. *)
Theorem deadline_at_max_never_passes (r : vario_value_t) (c : Config) :
  ready c = true ->
  0 <= clock (env c) -> 0 <= myct (obj c) ->
  clock (env c) + myct (obj c) = UINT32_MAX ->
  let c' := snd (triggerReadValues r c) in
  (forall acts, ready_cycles acts c' = O
                /\ obj (exec acts c') = obj c'
                /\ trace (env (exec acts c')) = trace (env c'))
  /\ (forall fuel r', await fuel r' c' = None).
Proof.
  intros Hready Hclk Hct Hmax. cbv zeta.
  destruct (triggerReadValues_sched r c) as [_ Hs].
  assert (Hn : nextRead (obj (snd (triggerReadValues r c))) = UINT32_MAX
               /\ clock (env (snd (triggerReadValues r c))) = clock (env c)).
  { change (nextRead (obj (snd (triggerReadValues r c))))
      with (s_next (sched (snd (triggerReadValues r c)))).
    change (clock (env (snd (triggerReadValues r c))))
      with (s_clock (sched (snd (triggerReadValues r c)))).
    rewrite Hs. unfold sched_step.
    change (s_next (sched c) <? s_clock (sched c)) with (ready c).
    rewrite Hready. cbv zeta. cbn [snd s_next s_clock s_ct sched].
    rewrite Hmax. split; reflexivity. }
  destruct Hn as [Hn Hc].
  assert (Hrange : 0 <= clock (env (snd (triggerReadValues r c))) < 2 ^ 32).
  { rewrite Hc. unfold UINT32_MAX in Hmax.
    change (2 ^ 32) with 4294967296. lia. }
  split.
  - intros acts. apply stalled_exec; assumption.
  - intros fuel r'. apply stalled_await; assumption.
Qed.

End Schedule.

(** ** The inputs of the compensation stay in range *)

Section Ranges.

Context {FP : Floating} {IW : int_width}.

Lemma wire_word_24 (answers : nat -> Z) (pos : nat) :
  uint24 (wire_word answers pos 3).
Proof.
  pose (c := mkConfig (FP := FP) power_on (mkWorld 0 answers pos [])).
  destruct (readRegister24_spec MS5611_CMD_ADC_READ c) as [E [H _]].
  rewrite E in H. exact H.
Qed.

Lemma fetch_pending_idle (c : Config) :
  conversion_pending (myPendingValueType (obj c)) = false ->
  fetch_pending c = (tt, c).
Proof.
  intros H. unfold fetch_pending. unfold bind at 1. cbn [the fst snd].
  destruct (myPendingValueType (obj c)); try discriminate; reflexivity.
Qed.

Lemma fetch_pending_raw_values (c : Config) :
  uint24 (myRawPressureVal_D1 (obj c)) ->
  uint24 (myRawTemperatureVal_D2 (obj c)) ->
  uint24 (myRawPressureVal_D1 (obj (snd (fetch_pending c))))
  /\ uint24 (myRawTemperatureVal_D2 (obj (snd (fetch_pending c)))).
Proof.
  intros H1 H2.
  destruct (myPendingValueType (obj c)) eqn:Hp.
  - rewrite fetch_pending_idle by (rewrite Hp; reflexivity).
    split; assumption.
  - destruct (fetch_pending_pressure c Hp) as (E1 & E2 & _).
    rewrite E1, E2. split; [apply wire_word_24 | exact H2].
  - rewrite (fetch_pending_temperature c Hp).
    split; [exact H1 | apply wire_word_24].
  - rewrite fetch_pending_idle by (rewrite Hp; reflexivity).
    split; assumption.
Qed.

Lemma ready_cycle_raw_values (r : vario_value_t) (c : Config) :
  ready c = true ->
  uint24 (myRawPressureVal_D1 (obj c)) ->
  uint24 (myRawTemperatureVal_D2 (obj c)) ->
  uint24 (myRawPressureVal_D1 (obj (snd (triggerReadValues r c))))
  /\ uint24 (myRawTemperatureVal_D2 (obj (snd (triggerReadValues r c)))).
Proof.
  intros Hready H1 H2.
  assert (K1 : okeeps myRawPressureVal_D1 count_cycle) by okeeps_tac.
  assert (K2 : okeeps myRawTemperatureVal_D2 count_cycle) by okeeps_tac.
  rewrite (ready_cycle_projection myRawPressureVal_D1 r c Hready)
    by okeeps_tac.
  rewrite (ready_cycle_projection myRawTemperatureVal_D2 r c Hready)
    by okeeps_tac.
  apply fetch_pending_raw_values; [rewrite K1 | rewrite K2]; assumption.
Qed.

(** X15.  The state machine keeps the inputs of the compensation in the range
    of the sensor: after any execution the calibration words are still
    16-bit words and the two raw values 24-bit words, whatever the device
    answers. *)
Theorem compensation_inputs_stay_in_range (acts : list action) (c : Config) :
  Forall uint16 (myCompensationValues (obj c)) ->
  uint24 (myRawPressureVal_D1 (obj c)) ->
  uint24 (myRawTemperatureVal_D2 (obj c)) ->
  Forall uint16 (myCompensationValues (obj (exec acts c)))
  /\ uint24 (myRawPressureVal_D1 (obj (exec acts c)))
  /\ uint24 (myRawTemperatureVal_D2 (obj (exec acts c))).
Proof.
  revert c. induction acts as [| a acts IH]; intros c Hcal H1 H2; cbn [exec];
    [split; [| split]; assumption |].
  destruct a as [ms | r]; cbn [perform].
  - apply IH; assumption.
  - destruct (ready c) eqn:Hready.
    + destruct (ready_cycle_raw_values r c Hready H1 H2).
      destruct (settings_inv _ _ _ _ _ _ _
                  (okeeps_settings_triggerReadValues r c)) as (Hc & _).
      apply IH; [rewrite Hc | |]; assumption.
    + rewrite (triggerReadValues_not_ready r c Hready). apply IH; assumption.
Qed.

End Ranges.

(** ** The blocking reads *)

Section BlockingReads.

Context {FP : Floating} {IW : int_width}.

Lemma readPressure_unfold (fuel : nat) (comp : bool) (c c1 c2 : Config)
  (D1 D2 : Z) :
  readRawPressure fuel c = Some (D1, c1) ->
  readRawTemperature fuel c1 = Some (D2, c2) ->
  exists off2 sens2,
    readPressure fuel comp c
    = Some (fst (calcTemperatureCompensatedPressure D1 D2
                   (set_myDoSecondOrderCompensation comp (obj c2))),
            mkConfig (if comp
                      then set_mySENS2 sens2 (set_myOFF2 off2 (obj c2))
                      else obj c2)
                     (env c2)).
Proof.
  intros H1 H2. unfold readPressure.
  rewrite (bindB_some _ _ _ _ _ H1), (bindB_some _ _ _ _ _ H2).
  unfold lift, method. cbn [fst snd].
  generalize (obj c2) as o. intros o.
  unfold calcTemperatureCompensatedPressure.
  change (myDoSecondOrderCompensation (set_myDoSecondOrderCompensation comp o))
    with comp.
  change (C (set_myDoSecondOrderCompensation comp o)) with (C o).
  destruct comp.
  - cbv zeta.
    match goal with |- context [?t <? 2000] => destruct (t <? 2000) end;
      match goal with |- context [?t <? -1500] => destruct (t <? -1500) end;
      cbv beta iota delta [fst snd]; simpl_obj; rewrite ?set_scratch_twice;
      eexists; eexists; reflexivity.
  - exists 0, 0. cbv beta iota zeta delta [fst snd]. reflexivity.
Qed.


Lemma readTemperature_unfold (fuel : nat) (comp : bool) (c c2 : Config)
  (D2 : Z) :
  readRawTemperature fuel c = Some (D2, c2) ->
  exists temp2,
    readTemperature fuel comp c
    = Some (ddiv (d_of_Z (fst (calcTemperature D2
                                 (set_myDoSecondOrderCompensation comp (obj c2)))))
                 (d_of_Z 100),
            mkConfig (set_myTEMP2 temp2 (obj c2)) (env c2)).
Proof.
  intros H2. unfold readTemperature.
  rewrite (bindB_some _ _ _ _ _ H2).
  unfold lift, method. cbn [fst snd].
  generalize (obj c2) as o. intros o.
  unfold calcTemperature.
  change (myDoSecondOrderCompensation
            (set_myTEMP2 0 (set_myDoSecondOrderCompensation comp o)))
    with comp.
  change (C (set_myDoSecondOrderCompensation comp o)) with (C o).
  destruct comp.
  - cbv zeta.
    match goal with |- context [?t <? 2000] => destruct (t <? 2000) end;
      cbv beta iota delta [fst snd]; simpl_obj; rewrite ?set_myTEMP2_twice;
      eexists; reflexivity.
  - exists 0. cbv beta iota zeta delta [fst snd]. reflexivity.
Qed.

(** *** What the blocking reads leave alone *)

Lemma some_pair_inv {A : Type} (a b : A) (c1 c2 : Config) :
  Some (a, c1) = Some (b, c2) -> a = b /\ c1 = c2.
Proof. intros H. injection H as -> ->. split; reflexivity. Qed.

Lemma bindB_inv {A A' : Type} (m : B A) (k : A -> B A') (c c' : Config)
  (b : A') :
  bindB m k c = Some (b, c') ->
  exists a c1, m c = Some (a, c1) /\ k a c1 = Some (b, c').
Proof.
  unfold bindB. destruct (m c) as [[a c1] |]; [| discriminate].
  intros H. exists a, c1. split; [reflexivity | exact H].
Qed.

Lemma bkeeps_await (fuel : nat) (r : vario_value_t) :
  bkeeps settings (await fuel r).
Proof.
  induction fuel as [| fuel IH]; intros c a c'; cbn [await];
    [discriminate |].
  pose proof (okeeps_settings_triggerReadValues r c) as Hk.
  destruct (fst (triggerReadValues r c)).
  - intros H. injection H as _ <-. exact Hk.
  - intros H. apply IH in H. rewrite H. exact Hk.
Qed.

Lemma bkeeps_readRawTemperature (fuel : nat) :
  bkeeps settings (readRawTemperature fuel).
Proof.
  intros c a c' H. unfold readRawTemperature in H.
  apply bindB_inv in H. destruct H as [u [c1 [H1 H2]]].
  injection H2 as _ <-. exact (bkeeps_await _ _ _ _ _ H1).
Qed.

Lemma bkeeps_readRawPressure (fuel : nat) :
  bkeeps settings (readRawPressure fuel).
Proof.
  intros c a c' H. unfold readRawPressure in H.
  apply bindB_inv in H. destruct H as [u [c1 [H1 H2]]].
  injection H2 as _ <-. exact (bkeeps_await _ _ _ _ _ H1).
Qed.

Lemma readPressure_inv (fuel : nat) (comp : bool) (c c' : Config) (p : Z) :
  readPressure fuel comp c = Some (p, c') ->
  exists D1 c1 D2 c2,
    readRawPressure fuel c = Some (D1, c1)
    /\ readRawTemperature fuel c1 = Some (D2, c2).
Proof.
  unfold readPressure. intros H.
  apply bindB_inv in H. destruct H as [D1 [c1 [H1 H]]].
  apply bindB_inv in H. destruct H as [D2 [c2 [H2 _]]].
  exists D1, c1, D2, c2. split; assumption.
Qed.

Lemma bkeeps_readPressure (fuel : nat) (comp : bool) :
  bkeeps settings (readPressure fuel comp).
Proof.
  intros c p c' H.
  destruct (readPressure_inv _ _ _ _ _ H) as (D1 & c1 & D2 & c2 & H1 & H2).
  destruct (readPressure_unfold fuel comp c c1 c2 D1 D2 H1 H2)
    as (a & b & E).
  rewrite E in H. apply some_pair_inv in H. destruct H as [_ <-]. cbn [obj].
  rewrite <- (bkeeps_readRawPressure _ _ _ _ H1).
  rewrite <- (bkeeps_readRawTemperature _ _ _ _ H2).
  destruct comp; reflexivity.
Qed.

Lemma readTemperature_inv (fuel : nat) (comp : bool) (c c' : Config)
  (t : double) :
  readTemperature fuel comp c = Some (t, c') ->
  exists D2 c2, readRawTemperature fuel c = Some (D2, c2).
Proof.
  unfold readTemperature. intros H.
  apply bindB_inv in H. destruct H as [D2 [c2 [H2 _]]].
  exists D2, c2. exact H2.
Qed.

Lemma bkeeps_begin_seed (fuel n : nat) : bkeeps settings (begin_seed fuel n).
Proof.
  induction n as [| n IH]; intros c u c'; cbn [begin_seed].
  - intros H. injection H as _ <-. reflexivity.
  - intros H. apply bindB_inv in H. destruct H as [p [c1 [H1 H]]].
    apply bindB_inv in H. destruct H as [u1 [c2 [H2 H3]]].
    injection H2 as _ <-. apply IH in H3. rewrite H3.
    cbn [assign snd obj].
    rewrite <- (bkeeps_readPressure _ _ _ _ _ H1). reflexivity.
Qed.

(** X16.  [readPressure] returns what [calcTemperatureCompensatedPressure]
    computes, with the second-order flag as the argument says, from the
    raw pressure that [readRawPressure] returns and the raw temperature
    that the following [readRawTemperature] returns; the calibration is
    the one of the call. *)
Theorem readPressure_agrees_with_compensation (fuel : nat) (comp : bool)
  (b : Z) (c : Config) :
  steady b c -> b + 63 < 2 ^ 32 -> (24 <= fuel)%nat ->
  exists D1 c1 D2 c2 c',
    readRawPressure fuel c = Some (D1, c1)
    /\ readRawTemperature fuel c1 = Some (D2, c2)
    /\ readPressure fuel comp c
       = Some (fst (calcTemperatureCompensatedPressure D1 D2
                      (set_myDoSecondOrderCompensation comp (obj c))), c').
Proof.
  intros Hs Hb Hf.
  destruct (readRawPressure_terminates fuel b c) as [D1 [c1 [H1 Hs1]]];
    auto; try lia.
  destruct (readRawTemperature_terminates fuel (b + 23) c1)
    as [D2 [c2 [H2 Hs2]]]; auto; try lia.
  destruct (readPressure_unfold fuel comp c c1 c2 D1 D2 H1 H2)
    as (x & y & E).
  exists D1, c1, D2, c2. eexists. split; [exact H1 |]. split; [exact H2 |].
  rewrite E. f_equal. f_equal.
  pose proof (bkeeps_readRawPressure _ _ _ _ H1) as K1.
  pose proof (bkeeps_readRawTemperature _ _ _ _ H2) as K2.
  rewrite K1 in K2. unfold settings in K2. injection K2 as Hcal _ _ _ _ _.
  apply (compensation_results_agree
           (set_myDoSecondOrderCompensation comp (obj c2))
           (set_myDoSecondOrderCompensation comp (obj c)) D1 D2).
  - exact Hcal.
  - reflexivity.
Qed.

(** X17.  [readTemperature] returns, in degrees, a hundredth of what
    [calcTemperature] computes, with the second-order flag as the
    argument says, from the raw temperature that [readRawTemperature]
    returns. *)
Theorem readTemperature_agrees_with_compensation (fuel : nat) (comp : bool)
  (b : Z) (c : Config) :
  steady b c -> b + 40 < 2 ^ 32 -> (24 <= fuel)%nat ->
  exists D2 c2 c',
    readRawTemperature fuel c = Some (D2, c2)
    /\ readTemperature fuel comp c
       = Some (ddiv (d_of_Z (fst (calcTemperature D2
                                    (set_myDoSecondOrderCompensation comp (obj c)))))
                    (d_of_Z 100), c').
Proof.
  intros Hs Hb Hf.
  destruct (readRawTemperature_terminates fuel b c) as [D2 [c2 [H2 Hs2]]];
    auto.
  destruct (readTemperature_unfold fuel comp c c2 D2 H2) as (x & E).
  exists D2, c2. eexists. split; [exact H2 |].
  rewrite E. f_equal. f_equal. f_equal. f_equal.
  pose proof (bkeeps_readRawTemperature _ _ _ _ H2) as K2.
  unfold settings in K2. injection K2 as Hcal _ _ _ _ _.
  apply (compensation_results_agree
           (set_myDoSecondOrderCompensation comp (obj c2))
           (set_myDoSecondOrderCompensation comp (obj c)) 0 D2).
  - exact Hcal.
  - reflexivity.
Qed.

End BlockingReads.

(** ** Oversampling and initialisation *)

Section Initialisation.

Context {FP : Floating} {IW : int_width}.

Lemma ready_cycle_deadline (r : vario_value_t) (c : Config) :
  ready c = true ->
  nextRead (obj (snd (triggerReadValues r c)))
  = u32 (clock (env c) + myct (obj c)).
Proof.
  intros Hready. destruct (triggerReadValues_sched r c) as [_ Hs].
  change (nextRead (obj (snd (triggerReadValues r c))))
    with (s_next (sched (snd (triggerReadValues r c)))).
  rewrite Hs. unfold sched_step.
  change (s_next (sched c) <? s_clock (sched c)) with (ready c).
  rewrite Hready. reflexivity.
Qed.

Lemma setOversampling_object (osr : ms5611_osr_t) (c : Config) :
  snd (setOversampling osr c)
  = mkConfig (set_myuosr osr (set_myct (conversion_time osr) (obj c))) (env c).
Proof. destruct osr; reflexivity. Qed.

(** X18.  [setOversampling] only records its argument: [getOversampling]
    returns it, and the next ready cycle sends the conversion command
    with its code and waits the conversion time of the table. *)
Theorem setOversampling_takes_effect (osr : ms5611_osr_t) (r : vario_value_t)
  (c : Config) :
  ready c = true ->
  let c1 := snd (setOversampling osr c) in
  let c2 := snd (triggerReadValues r c1) in
  fst (getOversampling c1) = osr
  /\ env c1 = env c
  /\ nextRead (obj c2) = u32 (clock (env c) + conversion_time osr)
  /\ hd_error (trace (env c2))
     = Some (request_event (next_kind r (c_uint (myRunCnt (obj c) + 1))) osr).
Proof.
  intros Hready. cbv zeta. rewrite setOversampling_object.
  set (c1 := mkConfig (set_myuosr osr (set_myct (conversion_time osr) (obj c)))
                      (env c)).
  assert (Hready1 : ready c1 = true) by exact Hready.
  split; [reflexivity |]. split; [reflexivity |]. split.
  - rewrite (ready_cycle_deadline r c1 Hready1). reflexivity.
  - rewrite triggerReadValues_stages, Hready1. unfold bind.
    rewrite request_next_env.
    assert (Hu : okeeps myuosr count_cycle) by okeeps_tac.
    assert (Hu' : okeeps myuosr fetch_pending) by okeeps_tac.
    assert (Hc : okeeps myRunCnt fetch_pending) by okeeps_tac.
    rewrite Hu', Hu, Hc, count_cycle_object. cbv zeta.
    assert (Hcnt : myRunCnt (obj c1) = myRunCnt (obj c)) by reflexivity.
    assert (Hosr : myuosr (obj c1) = osr) by reflexivity.
    rewrite Hcnt, Hosr.
    destruct (c_uint (myRunCnt (obj c) + 1) =? 100); reflexivity.
Qed.

(** *** The state after [begin] *)

Lemma begin_prelude_object (osr : ms5611_osr_t) (c : Config) :
  List.length (myCompensationValues (obj c)) = 6%nat ->
  let c1 :=
    snd (bind (log WireBegin) (fun _ =>
         bind reset (fun _ =>
         bind (setOversampling osr) (fun _ =>
         bind (delay 100) (fun _ =>
         bind readPROM (fun _ =>
         bind (assign set_myPendingValueType NONE) (fun _ =>
         assign set_myPressureSmoothingFactor (d_dec 9 (-1)))))))) c) in
  settings (obj c1)
  = (prom_words (wire_in (env c)) (wire_pos (env c)),
     myDoSecondOrderCompensation (obj c), d_dec 9 (-1),
     myVerticalSpeedSmoothingFactor (obj c), conversion_time osr, osr).
Proof.
  intros Hlen. cbv zeta.
  rewrite snd_bind. cbv beta. rewrite snd_bind. cbv beta.
  set (ca := snd (reset (snd (log WireBegin c)))).
  assert (Ha : obj ca = obj c /\ wire_in (env ca) = wire_in (env c)
               /\ wire_pos (env ca) = wire_pos (env c))
    by (repeat split; reflexivity).
  clearbody ca. destruct Ha as (Ha1 & Ha2 & Ha3).
  rewrite snd_bind. cbv beta. rewrite setOversampling_object.
  rewrite snd_bind. cbv beta.
  match goal with |- context [delay 100 ?c0] =>
    set (cb := snd (delay 100 c0)) end.
  rewrite snd_bind. cbv beta.
  assert (Hb : myCompensationValues (obj cb) = myCompensationValues (obj ca)
               /\ myDoSecondOrderCompensation (obj cb)
                  = myDoSecondOrderCompensation (obj ca)
               /\ myVerticalSpeedSmoothingFactor (obj cb)
                  = myVerticalSpeedSmoothingFactor (obj ca)
               /\ myct (obj cb) = conversion_time osr
               /\ myuosr (obj cb) = osr
               /\ wire_in (env cb) = wire_in (env ca)
               /\ wire_pos (env cb) = wire_pos (env ca))
    by (repeat split; reflexivity).
  clearbody cb. destruct Hb as (Hb1 & Hb2 & Hb3 & Hb4 & Hb5 & Hb6 & Hb7).
  assert (Ho : obj (snd (readPROM cb))
               = set_myCompensationValues
                   (prom_words (wire_in (env cb)) (wire_pos (env cb)))
                   (obj cb)).
  { unfold readPROM. rewrite readPROM_from_spec. cbn [obj].
    rewrite prom_array_six by (rewrite Hb1, Ha1; exact Hlen). reflexivity. }
  rewrite snd_bind. cbv beta. cbn [assign fst snd obj env].
  rewrite Ho.
  set (W := prom_words (wire_in (env cb)) (wire_pos (env cb))).
  assert (E : settings (set_myPressureSmoothingFactor (d_dec 9 (-1))
                          (set_myPendingValueType NONE
                             (set_myCompensationValues W (obj cb))))
              = (W, myDoSecondOrderCompensation (obj cb), d_dec 9 (-1),
                 myVerticalSpeedSmoothingFactor (obj cb), myct (obj cb),
                 myuosr (obj cb))) by reflexivity.
  rewrite E. unfold W. rewrite Hb2, Hb3, Hb4, Hb5, Hb6, Hb7, Ha1, Ha2, Ha3.
  reflexivity.
Qed.


Lemma lift_inv {A : Type} (m : M A) (c c1 : Config) (a : A) :
  lift m c = Some (a, c1) -> a = fst (m c) /\ c1 = snd (m c).
Proof.
  unfold lift. rewrite (surjective_pairing (m c)) at 1.
  intros H. apply some_pair_inv in H. destruct H as [<- <-].
  split; reflexivity.
Qed.

Lemma readRawTemperature_value (fuel : nat) (c c' : Config) (v : Z) :
  readRawTemperature fuel c = Some (v, c') ->
  v = myRawTemperatureVal_D2 (obj c').
Proof.
  unfold readRawTemperature. intros H.
  apply bindB_inv in H. destruct H as [u [c1 [_ H]]].
  apply lift_inv in H. destruct H as [-> ->]. reflexivity.
Qed.

(** What [begin] leaves behind, whenever it returns. *)
Lemma begin_post (fuel : nat) (osr : ms5611_osr_t) (c c' : Config) (b : bool) :
  List.length (myCompensationValues (obj c)) = 6%nat ->
  begin fuel osr c = Some (b, c') ->
  settings (obj c')
  = (prom_words (wire_in (env c)) (wire_pos (env c)), false,
     d_dec 9 (-1), d_dec 9 (-1), conversion_time osr, osr)
  /\ myRunCnt (obj c') = 0
  /\ myWarmUpPhase (obj c') = true
  /\ myReferenceHeight (obj c')
     = calcAltitude (mySmoothedPressureVal (obj c')) default_aSeaLevelPressure
  /\ myTemperatureVal (obj c')
     = s32 (d_trunc
              (ddiv (d_of_Z (fst (calcTemperature
                                    (myRawTemperatureVal_D2 (obj c'))
                                    (set_myDoSecondOrderCompensation true (obj c')))))
                    (d_of_Z 100))).
Proof.
  intros Hlen H. unfold begin in H.
  apply bindB_inv in H. destruct H as (u1 & c1 & H1 & H).
  apply lift_inv in H1. destruct H1 as [_ H1].
  pose proof (begin_prelude_object osr c Hlen) as S1. cbv zeta in S1.
  rewrite <- H1 in S1. clear H1.
  apply bindB_inv in H. destruct H as (u2 & c2 & H2 & H).
  apply bkeeps_begin_seed in H2.
  apply bindB_inv in H. destruct H as (D2 & c3 & H3 & H).
  apply bkeeps_readRawTemperature in H3.
  apply bindB_inv in H. destruct H as (u4 & c4 & H4 & H).
  apply lift_inv in H4. destruct H4 as [_ H4].
  assert (S4 : settings (obj c4)
               = (myCompensationValues (obj c3),
                  myDoSecondOrderCompensation (obj c3),
                  myPressureSmoothingFactor (obj c3), d_dec 9 (-1),
                  myct (obj c3), myuosr (obj c3)))
    by (rewrite H4; reflexivity).
  clear H4.
  apply bindB_inv in H. destruct H as (t & c5 & H5 & H).
  destruct (readTemperature_inv _ _ _ _ _ H5) as (D2' & c5' & H5').
  destruct (readTemperature_unfold fuel true c4 c5' D2' H5') as (x & E5).
  rewrite E5 in H5. apply some_pair_inv in H5. destruct H5 as [Ht Hc5].
  pose proof (readRawTemperature_value _ _ _ _ H5') as HD2.
  apply bkeeps_readRawTemperature in H5'.
  apply lift_inv in H. destruct H as [_ H].
  assert (F : settings (obj c')
              = (myCompensationValues (obj c5'), false,
                 myPressureSmoothingFactor (obj c5'),
                 myVerticalSpeedSmoothingFactor (obj c5'),
                 myct (obj c5'), myuosr (obj c5'))
              /\ myRunCnt (obj c') = 0
              /\ myWarmUpPhase (obj c') = true
              /\ myReferenceHeight (obj c')
                 = calcAltitude (mySmoothedPressureVal (obj c'))
                     default_aSeaLevelPressure
              /\ myTemperatureVal (obj c') = s32 (d_trunc t)
              /\ myRawTemperatureVal_D2 (obj c')
                 = myRawTemperatureVal_D2 (obj c5'))
    by (rewrite H, <- Hc5; repeat split; reflexivity).
  clear H Hc5 E5.
  destruct F as (F1 & F2 & F3 & F4 & F5 & F6).
  rewrite H2, S1 in H3.
  destruct (settings_inv _ _ _ _ _ _ _ H3) as (Q1 & _ & Q3 & _ & Q5 & Q6).
  rewrite Q1, Q3, Q5, Q6 in S4.
  rewrite S4 in H5'.
  destruct (settings_inv _ _ _ _ _ _ _ H5') as (T1 & _ & T3 & T4 & T5 & T6).
  rewrite T1, T3, T4, T5, T6 in F1.
  split; [exact F1 |]. split; [exact F2 |]. split; [exact F3 |].
  split; [exact F4 |].
  rewrite F5, F6, <- Ht, <- HD2. do 4 f_equal.
  destruct (settings_inv _ _ _ _ _ _ _ F1) as (U1 & _).
  apply (compensation_results_agree
           (set_myDoSecondOrderCompensation true (obj c5'))
           (set_myDoSecondOrderCompensation true (obj c')) 0 D2').
  - change (myCompensationValues (obj c5') = myCompensationValues (obj c')).
    rewrite T1, U1. reflexivity.
  - reflexivity.
Qed.

(** X19.  [begin] returns true and leaves the driver initialised: the
    calibration words are the six PROM words, the oversampling and its
    wait time are the argument's, both smoothing factors are 0.9, the
    second-order compensation is off, the cycle counter is 0, the warm-up
    phase is on, the reference height is the altitude of the smoothed
    pressure, and the temperature member holds the second-order
    temperature in whole degrees (a hundredth of what [calcTemperature]
    returns). *)
Theorem begin_initial_state (fuel : nat) (osr : ms5611_osr_t) (c : Config) :
  (24 <= fuel)%nat ->
  0 <= clock (env c) ->
  nextRead (obj c) <= clock (env c) + 100 ->
  clock (env c) + 3000 < 2 ^ 32 ->
  List.length (myCompensationValues (obj c)) = 6%nat ->
  exists c',
    begin fuel osr c = Some (true, c')
    /\ settings (obj c')
       = (prom_words (wire_in (env c)) (wire_pos (env c)), false,
          d_dec 9 (-1), d_dec 9 (-1), conversion_time osr, osr)
    /\ myRunCnt (obj c') = 0
    /\ myWarmUpPhase (obj c') = true
    /\ myReferenceHeight (obj c')
       = calcAltitude (mySmoothedPressureVal (obj c')) default_aSeaLevelPressure
    /\ myTemperatureVal (obj c')
       = s32 (d_trunc
                (ddiv (d_of_Z (fst (calcTemperature
                                      (myRawTemperatureVal_D2 (obj c'))
                                      (set_myDoSecondOrderCompensation true
                                         (obj c')))))
                      (d_of_Z 100))).
Proof.
  intros Hf Hclk Hnext Hwrap Hlen.
  destruct (begin_terminates fuel osr c Hf Hclk Hnext Hwrap) as [c' H].
  exists c'. split; [exact H |].
  exact (begin_post fuel osr c c' true Hlen H).
Qed.

End Initialisation.

(** *** The bus traffic of [begin] *)

Section BeginTrace.

Context {FP : Floating} {IW : int_width}.

Lemma trace_extends_refl (c : Config) : trace_extends c c.
Proof. exists []. reflexivity. Qed.

Lemma trace_extends_trans (c1 c2 c3 : Config) :
  trace_extends c1 c2 -> trace_extends c2 c3 -> trace_extends c1 c3.
Proof.
  intros [l1 H1] [l2 H2]. exists (l2 ++ l1).
  rewrite H2, H1. apply app_assoc.
Qed.

Lemma trace_extends_same (c c' : Config) :
  trace (env c') = trace (env c) -> trace_extends c c'.
Proof. intros H. exists []. exact H. Qed.

Lemma triggerReadValues_extends (r : vario_value_t) (c : Config) :
  trace_extends c (snd (triggerReadValues r c)).
Proof.
  rewrite triggerReadValues_stages.
  destruct (ready c); [| apply trace_extends_refl].
  unfold bind, trace_extends.
  rewrite request_next_env, fetch_pending_env, count_cycle_env.
  destruct (conversion_pending _);
    destruct (c_uint (myRunCnt (obj c) + 1) =? 100);
    cbn [emit trace];
    first [ refine (ex_intro _ [_; _; _; _] eq_refl)
          | refine (ex_intro _ [_; _; _] eq_refl)
          | refine (ex_intro _ [_; _] eq_refl)
          | refine (ex_intro _ [_] eq_refl) ].
Qed.

Lemma await_extends (fuel : nat) (r : vario_value_t) :
  forall c c', await fuel r c = Some (tt, c') -> trace_extends c c'.
Proof.
  induction fuel as [| fuel IH]; intros c c'; cbn [await]; [discriminate |].
  pose proof (triggerReadValues_extends r c) as Hk.
  destruct (fst (triggerReadValues r c)).
  - intros H. apply some_pair_inv in H. destruct H as [_ <-]. exact Hk.
  - intros H. apply IH in H.
    apply (trace_extends_trans _ _ _ Hk).
    apply (trace_extends_trans _ (snd (delay 1 (snd (triggerReadValues r c))))).
    + apply trace_extends_same. reflexivity.
    + exact H.
Qed.

Lemma readRawTemperature_extends (fuel : nat) (c c' : Config) (v : Z) :
  readRawTemperature fuel c = Some (v, c') -> trace_extends c c'.
Proof.
  unfold readRawTemperature. intros H.
  apply bindB_inv in H. destruct H as (u & c1 & Ha & Hl).
  apply lift_inv in Hl. destruct Hl as [_ ->]. destruct u.
  exact (await_extends _ _ _ _ Ha).
Qed.

Lemma readRawPressure_extends (fuel : nat) (c c' : Config) (v : Z) :
  readRawPressure fuel c = Some (v, c') -> trace_extends c c'.
Proof.
  unfold readRawPressure. intros H.
  apply bindB_inv in H. destruct H as (u & c1 & Ha & Hl).
  apply lift_inv in Hl. destruct Hl as [_ ->]. destruct u.
  exact (await_extends _ _ _ _ Ha).
Qed.

Lemma readPressure_extends (fuel : nat) (comp : bool) (c c' : Config) (p : Z) :
  readPressure fuel comp c = Some (p, c') -> trace_extends c c'.
Proof.
  intros H.
  destruct (readPressure_inv _ _ _ _ _ H) as (D1 & c1 & D2 & c2 & H1 & H2).
  destruct (readPressure_unfold fuel comp c c1 c2 D1 D2 H1 H2)
    as (a & b & E).
  rewrite E in H. apply some_pair_inv in H. destruct H as [_ <-].
  apply (trace_extends_trans _ _ _ (readRawPressure_extends _ _ _ _ H1)).
  apply (trace_extends_trans _ _ _ (readRawTemperature_extends _ _ _ _ H2)).
  apply trace_extends_same. reflexivity.
Qed.

Lemma readTemperature_extends (fuel : nat) (comp : bool) (c c' : Config)
  (t : double) :
  readTemperature fuel comp c = Some (t, c') -> trace_extends c c'.
Proof.
  intros H.
  destruct (readTemperature_inv _ _ _ _ _ H) as (D2 & c2 & H2).
  destruct (readTemperature_unfold fuel comp c c2 D2 H2) as (a & E).
  rewrite E in H. apply some_pair_inv in H. destruct H as [_ <-].
  apply (trace_extends_trans _ _ _ (readRawTemperature_extends _ _ _ _ H2)).
  apply trace_extends_same. reflexivity.
Qed.

Lemma begin_seed_extends (fuel n : nat) :
  forall c c', begin_seed fuel n c = Some (tt, c') -> trace_extends c c'.
Proof.
  induction n as [| n IH]; intros c c'; cbn [begin_seed].
  - intros H. apply lift_inv in H. destruct H as [_ ->].
    apply trace_extends_refl.
  - intros H. apply bindB_inv in H. destruct H as (p & c1 & H1 & H).
    apply bindB_inv in H. destruct H as (u & c2 & H2 & H3).
    apply lift_inv in H2. destruct H2 as [_ ->].
    apply (trace_extends_trans _ _ _ (readPressure_extends _ _ _ _ _ H1)).
    apply IH in H3. revert H3. apply trace_extends_trans.
    apply trace_extends_same. reflexivity.
Qed.

Lemma env_assign {A : Type} (set : A -> VarioMS5611 -> VarioMS5611) (v : A)
  (c : Config) :
  env (snd (assign set v c)) = env c.
Proof. reflexivity. Qed.

Lemma begin_prelude_env (osr : ms5611_osr_t) (c : Config) :
  let c1 :=
    snd (bind (log WireBegin) (fun _ =>
         bind reset (fun _ =>
         bind (setOversampling osr) (fun _ =>
         bind (delay 100) (fun _ =>
         bind readPROM (fun _ =>
         bind (assign set_myPendingValueType NONE) (fun _ =>
         assign set_myPressureSmoothingFactor (d_dec 9 (-1)))))))) c) in
  trace (env c1)
  = [WireRequested 2; WireSent 0xAC; WireRequested 2; WireSent 0xAA;
     WireRequested 2; WireSent 0xA8; WireRequested 2; WireSent 0xA6;
     WireRequested 2; WireSent 0xA4; WireRequested 2; WireSent 0xA2;
     WireSent MS5611_CMD_RESET; WireBegin]
    ++ trace (env c).
Proof.
  cbv zeta.
  rewrite snd_bind. cbv beta. rewrite snd_bind. cbv beta.
  set (ca := snd (reset (snd (log WireBegin c)))).
  assert (Ha1 : trace (env ca)
                = WireSent MS5611_CMD_RESET :: WireBegin :: trace (env c))
    by reflexivity.
  clearbody ca.
  rewrite snd_bind. cbv beta. rewrite setOversampling_object.
  rewrite snd_bind. cbv beta.
  match goal with |- context [delay 100 ?c0] =>
    set (cb := snd (delay 100 c0)) end.
  assert (Hb1 : trace (env cb) = trace (env ca)) by reflexivity.
  clearbody cb.
  rewrite snd_bind. cbv beta.
  rewrite snd_bind. cbv beta. rewrite !env_assign.
  unfold readPROM. rewrite readPROM_from_spec.
  cbn [env trace]. rewrite Hb1, Ha1. reflexivity.
Qed.

(** X20.  The bus traffic of [begin] starts with [Wire.begin()], the reset
    command 0x1E and the six PROM reads at 0xA2, ..., 0xAC, in this
    order; whatever [begin] sends after that comes later in the trace,
    and nothing that was in the trace before is lost. *)
Theorem begin_bus_prelude (fuel : nat) (osr : ms5611_osr_t) (c : Config) :
  (24 <= fuel)%nat ->
  0 <= clock (env c) ->
  nextRead (obj c) <= clock (env c) + 100 ->
  clock (env c) + 3000 < 2 ^ 32 ->
  exists c' later,
    begin fuel osr c = Some (true, c')
    /\ trace (env c')
       = later
         ++ [WireRequested 2; WireSent 0xAC; WireRequested 2; WireSent 0xAA;
             WireRequested 2; WireSent 0xA8; WireRequested 2; WireSent 0xA6;
             WireRequested 2; WireSent 0xA4; WireRequested 2; WireSent 0xA2;
             WireSent MS5611_CMD_RESET; WireBegin]
         ++ trace (env c).
Proof.
  intros Hf Hclk Hnext Hwrap.
  destruct (begin_terminates fuel osr c Hf Hclk Hnext Hwrap) as [c' H].
  exists c'. pose proof H as H0. unfold begin in H.
  apply bindB_inv in H. destruct H as (u1 & c1 & H1 & H).
  apply lift_inv in H1. destruct H1 as [_ H1].
  pose proof (begin_prelude_env osr c) as T1. cbv zeta in T1.
  rewrite <- H1 in T1. clear H1.
  apply bindB_inv in H. destruct H as (u2 & c2 & H2 & H). destruct u2.
  apply begin_seed_extends in H2.
  apply bindB_inv in H. destruct H as (D2 & c3 & H3 & H).
  apply readRawTemperature_extends in H3.
  apply bindB_inv in H. destruct H as (u4 & c4 & H4 & H).
  apply lift_inv in H4. destruct H4 as [_ H4].
  assert (E4 : trace_extends c3 c4)
    by (apply trace_extends_same; rewrite H4; reflexivity).
  clear H4.
  apply bindB_inv in H. destruct H as (t & c5 & H5 & H).
  apply readTemperature_extends in H5.
  apply lift_inv in H. destruct H as [_ H].
  assert (E5 : trace_extends c5 c')
    by (apply trace_extends_same; rewrite H; reflexivity).
  clear H.
  pose proof (trace_extends_trans _ _ _ H2
                (trace_extends_trans _ _ _ H3
                   (trace_extends_trans _ _ _ E4
                      (trace_extends_trans _ _ _ H5 E5)))) as [l Hl].
  exists l. split; [exact H0 |]. rewrite Hl, T1. reflexivity.
Qed.

End BeginTrace.

Section Sketch.

Context {FP : Floating} {IW : int_width}.

(** X21.  The sketch's [setup] returns without a retry and leaves the driver
    with the calibration words of the PROM, second-order compensation
    off, pressure smoothing 0.93, vertical-speed smoothing 0.92,
    oversampling [MS5611_ULTRA_HIGH_RES] with its 10 ms conversion time,
    the cycle counter at 0 and the warm-up phase on. *)
Theorem setup_configuration (tries fuel : nat) (c : Config) :
  (24 <= fuel)%nat ->
  0 <= clock (env c) ->
  nextRead (obj c) <= clock (env c) + 100 ->
  clock (env c) + 3000 < 2 ^ 32 ->
  List.length (myCompensationValues (obj c)) = 6%nat ->
  exists c',
    setup (S tries) fuel c = Some (O, c')
    /\ settings (obj c')
       = (prom_words (wire_in (env c)) (wire_pos (env c)), false,
          d_dec 93 (-2), d_dec 92 (-2), 10, MS5611_ULTRA_HIGH_RES)
    /\ myRunCnt (obj c') = 0
    /\ myWarmUpPhase (obj c') = true.
Proof.
  intros Hf Hclk Hnext Hwrap Hlen.
  unfold setup. unfold bindB at 1, lift at 1.
  match goal with |- context [let (_, _) := ?x in _] =>
    assert (H0 : obj (snd x) = obj c
                 /\ clock (env (snd x)) = clock (env c)
                 /\ wire_in (env (snd x)) = wire_in (env c)
                 /\ wire_pos (env (snd x)) = wire_pos (env c))
      by (repeat split; reflexivity);
    destruct x as [u0 c0] end.
  cbn [snd] in H0. destruct H0 as (Ho & Hc & Hi & Hp).
  destruct (begin_terminates fuel MS5611_ULTRA_HIGH_RES c0 Hf)
    as (c1 & E1); try (rewrite ?Ho, ?Hc; assumption).
  destruct (begin_post fuel MS5611_ULTRA_HIGH_RES c0 c1 true)
    as (S1 & R1 & W1 & _); [rewrite Ho; exact Hlen | exact E1 |].
  rewrite Hi, Hp in S1.
  assert (E : setup_retry (S tries) fuel O c0 = Some (O, c1))
    by (cbn [setup_retry]; rewrite E1; reflexivity).
  rewrite (bindB_some _ _ _ _ _ E).
  destruct (settings_inv _ _ _ _ _ _ _ S1) as (Q1 & Q2 & _).
  unfold lift.
  match goal with |- context [Some (?m c1)] => set (r := m c1) end.
  assert (Hr : fst r = O
               /\ settings (obj (snd r))
                  = (myCompensationValues (obj c1),
                     myDoSecondOrderCompensation (obj c1),
                     d_dec 93 (-2), d_dec 92 (-2), 10, MS5611_ULTRA_HIGH_RES)
               /\ myRunCnt (obj (snd r)) = myRunCnt (obj c1)
               /\ myWarmUpPhase (obj (snd r)) = myWarmUpPhase (obj c1))
    by (repeat split; reflexivity).
  clearbody r. destruct r as [n c2]. cbn [fst snd] in Hr.
  destruct Hr as (-> & S2 & R2 & W2).
  exists c2. split; [reflexivity |].
  rewrite S2, R2, W2, Q1, Q2. repeat split; assumption.
Qed.

End Sketch.

(** ** What the blocking reads return *)

Section BlockingResults.

Context {FP : Floating} {IW : int_width}.

Lemma ready_cycle_wire (r : vario_value_t) (c : Config) :
  ready c = true ->
  wire_in (env (snd (triggerReadValues r c))) = wire_in (env c)
  /\ wire_pos (env (snd (triggerReadValues r c)))
     = ((if conversion_pending (myPendingValueType (obj c)) then 3 else 0)
        + wire_pos (env c))%nat.
Proof.
  intros Hready. rewrite triggerReadValues_stages, Hready. unfold bind.
  rewrite request_next_env, fetch_pending_env.
  assert (Hp : okeeps myPendingValueType count_cycle) by okeeps_tac.
  rewrite Hp, count_cycle_env.
  destruct (conversion_pending (myPendingValueType (obj c)));
    destruct (c_uint (myRunCnt (obj c) + 1) =? 100); split; reflexivity.
Qed.

Lemma ready_cycle_fetched (r : vario_value_t) (c : Config) :
  ready c = true ->
  let w := wire_word (wire_in (env c)) (wire_pos (env c)) 3 in
  let o := obj (snd (triggerReadValues r c)) in
  (myPendingValueType (obj c) = DIGITAL_TEMPERATURE_VALUE ->
   myRawTemperatureVal_D2 o = w)
  /\ (myPendingValueType (obj c) = DIGITAL_PRESSURE_VALUE ->
      myRawPressureVal_D1 o = w).
Proof.
  intros Hready. cbv zeta.
  assert (Hp : okeeps myPendingValueType count_cycle) by okeeps_tac.
  assert (Hw : wire_word (wire_in (env (snd (count_cycle c))))
                 (wire_pos (env (snd (count_cycle c)))) 3
               = wire_word (wire_in (env c)) (wire_pos (env c)) 3).
  { rewrite count_cycle_env.
    destruct (c_uint (myRunCnt (obj c) + 1) =? 100); reflexivity. }
  split; intros Hk.
  - rewrite (ready_cycle_projection myRawTemperatureVal_D2 r c Hready)
      by okeeps_tac.
    rewrite fetch_pending_temperature by (rewrite Hp; exact Hk).
    rewrite Hw. reflexivity.
  - rewrite (ready_cycle_projection myRawPressureVal_D1 r c Hready)
      by okeeps_tac.
    destruct (fetch_pending_pressure (snd (count_cycle c))) as (E & _);
      [rewrite Hp; exact Hk |].
    rewrite E, Hw. reflexivity.
Qed.

Lemma await_fetched (fuel : nat) (r : vario_value_t) (c c' : Config) :
  await fuel r c = Some (tt, c') ->
  exists c1,
    ready c1 = true /\ myPendingValueType (obj c1) = r
    /\ c' = snd (triggerReadValues r c1).
Proof.
  intros H. destruct (await_last_call fuel r c c' H) as (c1 & Ht & ->).
  apply triggerReadValues_true_iff in Ht. destruct Ht as [Hready Hp].
  exists c1. repeat split; assumption.
Qed.

(** X22.  A blocking raw read returns the conversion result that its last
    cycle fetched: the big-endian word of the last three bytes taken from
    the bus, a 24-bit value, whatever was stored before the call. *)
Theorem blocking_raw_reads_return_the_fetched_word (fuel : nat) (b : Z)
  (c : Config) :
  steady b c -> b + 40 < 2 ^ 32 -> (24 <= fuel)%nat ->
  (exists v c',
      readRawTemperature fuel c = Some (v, c')
      /\ uint24 v
      /\ (3 <= wire_pos (env c'))%nat
      /\ v = wire_word (wire_in (env c')) (wire_pos (env c') - 3) 3)
  /\ (exists v c',
         readRawPressure fuel c = Some (v, c')
         /\ uint24 v
         /\ (3 <= wire_pos (env c'))%nat
         /\ v = wire_word (wire_in (env c')) (wire_pos (env c') - 3) 3).
Proof.
  intros Hs Hb Hf. split.
  - destruct (readRawTemperature_terminates fuel b c Hs Hb Hf)
      as (v & c' & H & _).
    exists v, c'. split; [exact H |].
    unfold readRawTemperature in H.
    apply bindB_inv in H. destruct H as (u & c1 & Ha & Hl).
    apply lift_inv in Hl. destruct Hl as [-> ->]. destruct u.
    destruct (await_fetched _ _ _ _ Ha) as (cl & Hready & Hp & ->).
    destruct (ready_cycle_wire DIGITAL_TEMPERATURE_VALUE cl Hready)
      as [Hin Hpos].
    destruct (ready_cycle_fetched DIGITAL_TEMPERATURE_VALUE cl Hready)
      as [Hw _].
    rewrite Hp in Hpos. cbn [conversion_pending] in Hpos.
    cbn [the fst snd]. rewrite (Hw Hp), Hin, Hpos.
    replace (3 + wire_pos (env cl) - 3)%nat with (wire_pos (env cl)) by lia.
    split; [apply wire_word_24 |]. split; [lia | reflexivity].
  - destruct (readRawPressure_terminates fuel b c Hs Hb Hf)
      as (v & c' & H & _).
    exists v, c'. split; [exact H |].
    unfold readRawPressure in H.
    apply bindB_inv in H. destruct H as (u & c1 & Ha & Hl).
    apply lift_inv in Hl. destruct Hl as [-> ->]. destruct u.
    destruct (await_fetched _ _ _ _ Ha) as (cl & Hready & Hp & ->).
    destruct (ready_cycle_wire DIGITAL_PRESSURE_VALUE cl Hready)
      as [Hin Hpos].
    destruct (ready_cycle_fetched DIGITAL_PRESSURE_VALUE cl Hready)
      as [_ Hw].
    rewrite Hp in Hpos. cbn [conversion_pending] in Hpos.
    cbn [the fst snd]. rewrite (Hw Hp), Hin, Hpos.
    replace (3 + wire_pos (env cl) - 3)%nat with (wire_pos (env cl)) by lia.
    split; [apply wire_word_24 |]. split; [lia | reflexivity].
Qed.

End BlockingResults.

(** ** The return value and the deadline *)

Section ReturnAndDeadline.

Context {FP : Floating} {IW : int_width}.

(** [begin] ends in a state in which a conversion is requested: its last
    blocking read has asked for a temperature. *)
Lemma begin_requests_conversion (fuel : nat) (osr : ms5611_osr_t)
  (c cb : Config) (b : bool) :
  begin fuel osr c = Some (b, cb) -> conversion_requested cb.
Proof.
  intros H. unfold begin in H.
  apply bindB_inv in H. destruct H as (u1 & c1 & _ & H).
  apply bindB_inv in H. destruct H as (u2 & c2 & _ & H).
  apply bindB_inv in H. destruct H as (D2 & c3 & _ & H).
  apply bindB_inv in H. destruct H as (u4 & c4 & _ & H).
  apply bindB_inv in H. destruct H as (t & c5 & H5 & H).
  destruct (readTemperature_inv _ _ _ _ _ H5) as (D2' & c5' & H5').
  destruct (readTemperature_unfold fuel true c4 c5' D2' H5') as (x & E5).
  rewrite E5 in H5. apply some_pair_inv in H5. destruct H5 as [_ Hc5].
  unfold readRawTemperature in H5'.
  apply bindB_inv in H5'. destruct H5' as (u & c6 & Ha & Hl).
  apply lift_inv in Hl. destruct Hl as [_ ->]. destruct u.
  destruct (await_fetched _ _ _ _ Ha) as (cl & Hready & _ & ->).
  destruct (ready_cycle_view DIGITAL_TEMPERATURE_VALUE cl) as (Hp & _);
    [right; reflexivity | exact Hready |].
  apply lift_inv in H. destruct H as [_ H].
  assert (E : myPendingValueType (obj cb)
              = myPendingValueType
                  (obj (snd (triggerReadValues DIGITAL_TEMPERATURE_VALUE cl))))
    by (rewrite H, <- Hc5; reflexivity).
  right. rewrite E. exact Hp.
Qed.

(** The calls of the class keep a conversion requested. *)
Lemma exec_keeps_conversion_requested (acts : list action) :
  class_calls acts ->
  forall c, conversion_requested c -> conversion_requested (exec acts c).
Proof.
  induction 1 as [| a acts Ha _ IH]; intros c Hc; cbn [exec]; [exact Hc |].
  apply IH. destruct a as [ms | r]; cbn [perform].
  - exact Hc.
  - destruct (ready c) eqn:Hready.
    + apply pending_after_ready_cycle; assumption.
    + rewrite (triggerReadValues_not_ready r c Hready). exact Hc.
Qed.

(** The loop of a blocking read ends at the first iteration whose call
    returns true. *)
Lemma await_first_true (fuel : nat) (r : vario_value_t) :
  forall c c',
    await fuel r c = Some (tt, c')
    <-> exists k,
          (k < fuel)%nat
          /\ (forall j, (j < k)%nat ->
                        fst (triggerReadValues r (waits j r c)) = false)
          /\ fst (triggerReadValues r (waits k r c)) = true
          /\ c' = snd (triggerReadValues r (waits k r c)).
Proof.
  induction fuel as [| fuel IH]; intros c c'; cbn [await].
  - split; [discriminate |]. intros (k & Hk & _). lia.
  - destruct (fst (triggerReadValues r c)) eqn:E.
    + split.
      * intros H. apply some_pair_inv in H. destruct H as [_ <-].
        exists O. cbn [waits]. repeat split; [lia | intros j Hj; lia | exact E].
      * intros (k & Hk & Hbefore & Hk1 & ->).
        destruct k as [| k]; [reflexivity |].
        specialize (Hbefore O ltac:(lia)). cbn [waits] in Hbefore. congruence.
    + rewrite IH. split.
      * intros (k & Hk & Hbefore & Hk1 & ->).
        exists (S k). cbn [waits]. repeat split; [lia | | exact Hk1].
        intros [| j] Hj; cbn [waits]; [exact E | apply Hbefore; lia].
      * intros (k & Hk & Hbefore & Hk1 & ->).
        destruct k as [| k]; [cbn [waits] in Hk1; congruence |].
        exists k. cbn [waits] in *. repeat split; [lia | | exact Hk1].
        intros j Hj. apply (Hbefore (S j)). lia.
Qed.

(** C6.  On a driver in use (a conversion requested, as in the state that
    [begin] returns, and then any calls of the class) the step returns
    true if and only if the conversion just completed on this cycle is of
    the kind requested, and false otherwise.  The loop of a blocking read
    ends at the first call on which a conversion of its kind has just
    been read, not before and not later, and it does end. *)
Theorem triggerReadValues_return (c0 : Config) (acts : list action)
  (r : vario_value_t) :
  (conversion_requested c0
   \/ exists fuel osr c b, begin fuel osr c = Some (b, c0)) ->
  class_calls acts ->
  let c := exec acts c0 in
  fst (triggerReadValues r c) = completed_matches r c
  /\ (r = DIGITAL_PRESSURE_VALUE \/ r = DIGITAL_TEMPERATURE_VALUE ->
      forall fuel c',
        await fuel r c = Some (tt, c')
        <-> exists k,
              (k < fuel)%nat
              /\ (forall j, (j < k)%nat ->
                            completed_matches r (waits j r c) = false)
              /\ completed_matches r (waits k r c) = true
              /\ c' = snd (triggerReadValues r (waits k r c)))
  /\ (r = DIGITAL_PRESSURE_VALUE \/ r = DIGITAL_TEMPERATURE_VALUE ->
      forall b fuel,
        steady b c -> b + 40 < 2 ^ 32 -> (24 <= fuel)%nat ->
        exists c', await fuel r c = Some (tt, c')).
Proof.
  intros H0 Hacts. cbv zeta.
  assert (Hreq : conversion_requested c0).
  { destruct H0 as [H0 | (fuel & osr & c & b & H0)]; [exact H0 |].
    exact (begin_requests_conversion _ _ _ _ _ H0). }
  pose proof (exec_keeps_conversion_requested acts Hacts c0 Hreq) as Hc.
  split; [| split].
  - apply triggerReadValues_completed. unfold conversion_requested in Hc. tauto.
  - intros Hr fuel c'. rewrite await_first_true.
    assert (Hm : forall c1, fst (triggerReadValues r c1) = completed_matches r c1)
      by (intros c1; apply triggerReadValues_completed; tauto).
    split; intros (k & Hk & Hbefore & Hk1 & Hc');
      exists k; (split; [exact Hk |]); (split; [| split]);
      try exact Hc'.
    + intros j Hj. rewrite <- Hm. apply Hbefore. exact Hj.
    + rewrite <- Hm. exact Hk1.
    + intros j Hj. rewrite Hm. apply Hbefore. exact Hj.
    + rewrite Hm. exact Hk1.
  - intros Hr b fuel Hs Hb Hf.
    destruct (await_terminates fuel r b (exec acts c0) Hr Hs Hb Hf)
      as (c' & H & _).
    exists c'. exact H.
Qed.

(** *** The deadline across the wrap-around of [millis()] *)

(** A ready cycle sends a command: the trace grows. *)
Lemma ready_cycle_sends (r : vario_value_t) (c : Config) :
  ready c = true ->
  exists e l,
    trace (env (snd (triggerReadValues r c))) = e :: l ++ trace (env c).
Proof.
  intros Hready. rewrite triggerReadValues_stages, Hready. unfold bind.
  rewrite request_next_env, fetch_pending_env, count_cycle_env.
  destruct (conversion_pending _);
    destruct (c_uint (myRunCnt (obj c) + 1) =? 100);
    cbn [emit trace];
    first [ refine (ex_intro _ _ (ex_intro _ [_; _; _] eq_refl))
          | refine (ex_intro _ _ (ex_intro _ [_; _] eq_refl))
          | refine (ex_intro _ _ (ex_intro _ [_] eq_refl))
          | refine (ex_intro _ _ (ex_intro _ [] eq_refl)) ].
Qed.

(** As long as the deadline [millis() + myct] does not pass the range of
    [unsigned long], every call up to the deadline is a no-op. *)
Lemma triggerReadValues_within_conversion_time (r r' : vario_value_t)
  (c : Config) (ms : Z) :
  ready c = true ->
  0 <= clock (env c) -> 0 <= myct (obj c) ->
  clock (env c) + myct (obj c) < 2 ^ 32 ->
  0 <= ms <= myct (obj c) ->
  let c2 := snd (delay ms (snd (triggerReadValues r c))) in
  triggerReadValues r' c2 = (false, c2).
Proof.
  intros Hready Hclk Hct Hwrap Hms. cbv zeta.
  apply triggerReadValues_not_ready. unfold ready.
  destruct (triggerReadValues_sched r c) as [_ Hs].
  cbn [delay snd obj env advance clock].
  change (nextRead (obj (snd (triggerReadValues r c))))
    with (s_next (sched (snd (triggerReadValues r c)))).
  change (clock (env (snd (triggerReadValues r c))))
    with (s_clock (sched (snd (triggerReadValues r c)))).
  rewrite Hs. unfold sched_step.
  change (s_next (sched c) <? s_clock (sched c)) with (ready c).
  rewrite Hready. cbv zeta. cbn [snd s_next s_clock s_ct sched].
  rewrite !u32_id by lia. apply Z.ltb_ge. lia.
Qed.

(** C7, where the code departs from it.  A ready cycle within [myct] ms
    of the wrap-around of [millis()] stores a deadline that has wrapped
    to a small number; a call made [ms] ms later, before the clock wraps
    and so less than [myct] ms after the request, is before the deadline
    [millis() + myct], and yet it is a ready cycle: it does not return
    (false, unchanged state), and it issues a bus command. *)
Theorem triggerReadValues_early_when_deadline_wraps (r r' : vario_value_t)
  (c : Config) (ms : Z) :
  ready c = true ->
  0 <= myct (obj c) <= 10 ->
  2 ^ 32 <= clock (env c) + myct (obj c) ->
  0 <= ms -> clock (env c) + ms < 2 ^ 32 ->
  let c1 := snd (triggerReadValues r c) in
  let c2 := snd (delay ms c1) in
  clock (env c2) = clock (env c1) + ms
  /\ clock (env c2) < clock (env c1) + myct (obj c1)
  /\ ready c2 = true
  /\ triggerReadValues r' c2 <> (false, c2)
  /\ exists e l,
       trace (env (snd (triggerReadValues r' c2))) = e :: l ++ trace (env c2).
Proof.
  intros Hready Hct Hwrap Hms Hclk. cbv zeta.
  change (2 ^ 32) with 4294967296 in *.
  destruct (triggerReadValues_sched r c) as [_ Hs].
  set (c1 := snd (triggerReadValues r c)) in *.
  assert (Hview : nextRead (obj c1) = clock (env c) + myct (obj c) - 4294967296
                  /\ clock (env c1) = clock (env c)
                  /\ myct (obj c1) = myct (obj c)).
  { change (nextRead (obj c1)) with (s_next (sched c1)).
    change (clock (env c1)) with (s_clock (sched c1)).
    change (myct (obj c1)) with (s_ct (sched c1)).
    rewrite Hs. unfold sched_step.
    change (s_next (sched c) <? s_clock (sched c)) with (ready c).
    rewrite Hready. cbv zeta. cbn [snd s_next s_clock s_ct sched].
    split; [| split; reflexivity].
    unfold u32, wrap_unsigned. change (2 ^ 32) with 4294967296.
    symmetry. apply (Z.mod_unique_pos _ _ 1). lia. lia. }
  destruct Hview as (Hn & Hc & Hm).
  set (c2 := snd (delay ms c1)).
  assert (Hc2 : clock (env c2) = clock (env c1) + ms
                /\ nextRead (obj c2) = nextRead (obj c1)).
  { split; [| reflexivity]. unfold c2. cbn [delay snd env advance clock].
    apply u32_id. change (2 ^ 32) with 4294967296. lia. }
  destruct Hc2 as (Hc2 & Hn2).
  assert (Hready2 : ready c2 = true).
  { unfold ready. apply Z.ltb_lt. lia. }
  destruct (ready_cycle_sends r' c2 Hready2) as (e & l & Ht).
  split; [exact Hc2 |]. split; [lia |]. split; [exact Hready2 |].
  split; [| exists e, l; exact Ht].
  intros H. apply (f_equal (fun p => List.length (trace (env (snd p))))) in H.
  cbv beta in H. rewrite Ht in H. cbn [snd List.length] in H.
  rewrite length_app in H. lia.
Qed.

End ReturnAndDeadline.

(** ** Examples *)

Section Examples.

#[local] Existing Instance Binary64.binary64.

Lemma calcTemperature_correction_is_zero_witness :
  fst (calcTemperature 7974202
         (set_myDoSecondOrderCompensation true
            (@datasheet_object Binary64.binary64)))
  = Datasheet.TEMP datasheet_calibration 7974202
  /\ myTEMP2 (snd (calcTemperature 7974202
                     (set_myDoSecondOrderCompensation true
                        (@datasheet_object Binary64.binary64)))) = 0.
Proof.
  apply (calcTemperature_correction_is_zero
           (set_myDoSecondOrderCompensation true
              (@datasheet_object Binary64.binary64)) 7974202).
  - repeat constructor; unfold uint16; cbn; lia.
  - unfold uint24. lia.
Defined.

Lemma calcTemperatureCompensatedPressure_second_order_witness :
  fst (calcTemperatureCompensatedPressure 9085466 7974202
         (set_myDoSecondOrderCompensation true
            (@datasheet_object Binary64.binary64)))
  = Exact.Pressure datasheet_calibration 9085466 7974202.
Proof.
  apply (calcTemperatureCompensatedPressure_second_order
           (set_myDoSecondOrderCompensation true
              (@datasheet_object Binary64.binary64)) 9085466 7974202).
  - reflexivity.
  - repeat constructor; unfold uint16; cbn; lia.
  - unfold uint24. lia.
  - unfold uint24. lia.
  - vm_compute. discriminate.
Defined.

Lemma readPROM_reads_six_words_witness :
  Forall uint16 (myCompensationValues (obj (snd (readPROM boot))))
  /\ wire_pos (env (snd (readPROM boot))) = 12%nat.
Proof.
  destruct (readPROM_reads_six_words boot) as (_ & H1 & _ & H2 & _).
  - reflexivity.
  - split; [exact H1 | exact H2].
Defined.

Lemma ready_cycle_on_the_bus_witness :
  trace (env (snd (triggerReadValues (IW := Int32) NONE
                     (pending_at_1ms DIGITAL_TEMPERATURE_VALUE))))
  = [WireSent 0x40; WireRequested 3; WireSent 0].
Proof.
  rewrite (ready_cycle_on_the_bus (IW := Int32) NONE
             (pending_at_1ms DIGITAL_TEMPERATURE_VALUE)).
  - vm_compute. reflexivity.
  - vm_compute. reflexivity.
Defined.

Lemma temperature_cycle_only_stores_raw_witness :
  myRawTemperatureVal_D2
    (obj (snd (triggerReadValues (IW := Int32) NONE
                 (pending_at_1ms DIGITAL_TEMPERATURE_VALUE))))
  = 8553348.
Proof.
  destruct (temperature_cycle_only_stores_raw (IW := Int32) NONE
              (pending_at_1ms DIGITAL_TEMPERATURE_VALUE)) as (H & _).
  - vm_compute. reflexivity.
  - reflexivity.
  - rewrite H. vm_compute. reflexivity.
Defined.

Lemma pressure_cycle_compensates_the_pair_witness :
  myPressureVal
    (obj (snd (triggerReadValues (IW := Int32) NONE
                 (pending_at_1ms DIGITAL_PRESSURE_VALUE))))
  = fst (calcTemperatureCompensatedPressure 8553348 0
           (@datasheet_object Binary64.binary64)).
Proof.
  destruct (pressure_cycle_compensates_the_pair (IW := Int32) NONE
              (pending_at_1ms DIGITAL_PRESSURE_VALUE))
    as (_ & _ & _ & H & _).
  - vm_compute. reflexivity.
  - reflexivity.
  - rewrite H. vm_compute. reflexivity.
Defined.

Lemma pressure_cycle_vertical_speed_witness :
  lastTime
    (obj (snd (triggerReadValues (IW := Int32) NONE
                 (pending_at_1ms DIGITAL_PRESSURE_VALUE))))
  = 1.
Proof.
  destruct (pressure_cycle_vertical_speed (IW := Int32) NONE
              (pending_at_1ms DIGITAL_PRESSURE_VALUE))
    as (_ & _ & H & _).
  - vm_compute. reflexivity.
  - reflexivity.
  - rewrite H. reflexivity.
Defined.

Lemma run_counter_counts_ready_cycles_witness :
  myRunCnt (obj (exec (IW := Int16) (polling 3) boot)) = 3.
Proof.
  rewrite (run_counter_counts_ready_cycles (IW := Int16) (polling 3) boot).
  - vm_compute. reflexivity.
  - split; [apply Z.le_refl | reflexivity].
Defined.

Lemma warm_up_ends_at_cycle_100_witness :
  myWarmUpPhase (obj (exec (IW := Int16) (polling 99) warming_up)) = true
  /\ myWarmUpPhase (obj (exec (IW := Int16) (polling 100) warming_up)) = false
  /\ myWarmUpPhase (obj (exec (IW := Int16) (polling 250) warming_up)) = false.
Proof.
  split; [| split].
  - rewrite (warm_up_ends_at_cycle_100 (IW := Int16) (polling 99) warming_up).
    + vm_compute. reflexivity.
    + reflexivity.
    + reflexivity.
  - rewrite (warm_up_ends_at_cycle_100 (IW := Int16) (polling 100) warming_up).
    + vm_compute. reflexivity.
    + reflexivity.
    + reflexivity.
  - rewrite (warm_up_ends_at_cycle_100 (IW := Int16) (polling 250) warming_up).
    + vm_compute. reflexivity.
    + reflexivity.
    + reflexivity.
Defined.

Lemma ready_cycles_bounded_by_elapsed_time_witness :
  (10 + 1) * Z.of_nat (ready_cycles (IW := Int32) (polling 3)
                         (waiting_10ms_at 0))
  <= elapsed (polling 3) + 10 + 1.
Proof.
  apply (ready_cycles_bounded_by_elapsed_time (IW := Int32) (polling 3)
           (waiting_10ms_at 0)).
  - repeat (apply Forall_cons; [cbn; try lia; exact I |]). apply Forall_nil.
  - cbn. lia.
  - cbn. lia.
  - vm_compute. reflexivity.
  - cbn. lia.
Defined.

Lemma deadline_at_max_never_passes_witness :
  await (IW := Int32) 1000 DIGITAL_PRESSURE_VALUE
    (snd (triggerReadValues (IW := Int32) NONE (waiting_10ms_at 4294967285)))
  = None.
Proof.
  destruct (deadline_at_max_never_passes (IW := Int32) NONE
              (waiting_10ms_at 4294967285)) as [_ H].
  - vm_compute. reflexivity.
  - cbn. lia.
  - cbn. lia.
  - reflexivity.
  - apply H.
Defined.

Lemma compensation_inputs_stay_in_range_witness :
  uint24 (myRawPressureVal_D1
            (obj (exec (IW := Int32) (polling 3)
                    (pending_at_1ms DIGITAL_PRESSURE_VALUE)))).
Proof.
  destruct (compensation_inputs_stay_in_range (IW := Int32) (polling 3)
              (pending_at_1ms DIGITAL_PRESSURE_VALUE)) as (_ & H & _).
  - repeat constructor; unfold uint16; cbn; lia.
  - unfold uint24. cbn. lia.
  - unfold uint24. cbn. lia.
  - exact H.
Defined.

Lemma setOversampling_takes_effect_witness :
  nextRead
    (obj (snd (triggerReadValues (IW := Int32) NONE
                 (snd (setOversampling MS5611_HIGH_RES
                         (pending_at_1ms NONE))))))
  = 6.
Proof.
  destruct (setOversampling_takes_effect (IW := Int32) MS5611_HIGH_RES NONE
              (pending_at_1ms NONE)) as (_ & _ & H & _).
  - vm_compute. reflexivity.
  - rewrite H. vm_compute. reflexivity.
Defined.

Lemma readPressure_agrees_with_compensation_witness :
  exists D1 c1 D2 c2 c',
    readRawPressure (IW := Int32) 24 boot = Some (D1, c1)
    /\ readRawTemperature (IW := Int32) 24 c1 = Some (D2, c2)
    /\ readPressure (IW := Int32) 24 true boot
       = Some (fst (calcTemperatureCompensatedPressure D1 D2
                      (set_myDoSecondOrderCompensation true (obj boot))), c').
Proof.
  apply (readPressure_agrees_with_compensation (IW := Int32) 24 true 0 boot).
  - unfold steady. cbn. lia.
  - reflexivity.
  - apply le_n.
Defined.

Lemma readTemperature_agrees_with_compensation_witness :
  exists D2 c2 c',
    readRawTemperature (IW := Int32) 24 boot = Some (D2, c2)
    /\ readTemperature (IW := Int32) 24 true boot
       = Some (ddiv (d_of_Z (fst (calcTemperature D2
                                    (set_myDoSecondOrderCompensation true
                                       (obj boot)))))
                    (d_of_Z 100), c').
Proof.
  apply (readTemperature_agrees_with_compensation (IW := Int32) 24 true 0 boot).
  - unfold steady. cbn. lia.
  - reflexivity.
  - apply le_n.
Defined.

Lemma blocking_raw_reads_return_the_fetched_word_witness :
  exists v c',
    readRawTemperature (IW := Int32) 24 boot = Some (v, c') /\ uint24 v.
Proof.
  destruct (blocking_raw_reads_return_the_fetched_word (IW := Int32) 24 0 boot)
    as [(v & c' & H & Hv & _) _].
  - unfold steady. cbn. lia.
  - reflexivity.
  - apply le_n.
  - exists v, c'. split; [exact H | exact Hv].
Defined.

Lemma begin_initial_state_witness :
  exists c',
    begin (IW := Int32) 24 MS5611_STANDARD boot = Some (true, c')
    /\ myct (obj c') = 3
    /\ myRunCnt (obj c') = 0
    /\ myWarmUpPhase (obj c') = true.
Proof.
  destruct (begin_initial_state (IW := Int32) 24 MS5611_STANDARD boot)
    as (c' & H & S & R & W & _).
  - apply le_n.
  - cbn. lia.
  - cbn. lia.
  - reflexivity.
  - reflexivity.
  - exists c'. split; [exact H |].
    destruct (settings_inv _ _ _ _ _ _ _ S) as (_ & _ & _ & _ & Hct & _).
    split; [exact Hct |]. split; [exact R | exact W].
Defined.

Lemma begin_bus_prelude_witness :
  exists c' later,
    begin (IW := Int32) 24 MS5611_STANDARD boot = Some (true, c')
    /\ trace (env c')
       = later
         ++ [WireRequested 2; WireSent 0xAC; WireRequested 2; WireSent 0xAA;
             WireRequested 2; WireSent 0xA8; WireRequested 2; WireSent 0xA6;
             WireRequested 2; WireSent 0xA4; WireRequested 2; WireSent 0xA2;
             WireSent MS5611_CMD_RESET; WireBegin]
         ++ trace (env boot).
Proof.
  apply (begin_bus_prelude (IW := Int32) 24 MS5611_STANDARD boot).
  - apply le_n.
  - cbn. lia.
  - cbn. lia.
  - reflexivity.
Defined.

Lemma setup_configuration_witness :
  exists c',
    setup (IW := Int32) 1 24 boot = Some (O, c')
    /\ myRunCnt (obj c') = 0
    /\ myWarmUpPhase (obj c') = true.
Proof.
  destruct (setup_configuration (IW := Int32) 0 24 boot)
    as (c' & H & _ & R & W).
  - apply le_n.
  - cbn. lia.
  - cbn. lia.
  - reflexivity.
  - reflexivity.
  - exists c'. split; [exact H |]. split; [exact R | exact W].
Defined.

Lemma reference_height_fixed_once_until_wraparound_witness :
  reference_fixes (trace (env (exec (IW := Int16) (polling 99) boot))) = 0%nat
  /\ reference_fixes (trace (env (exec (IW := Int16) (polling 100) boot)))
     = 1%nat
  /\ reference_fixes (trace (env (exec (IW := Int16) (polling 250) boot)))
     = 1%nat.
Proof.
  split; [| split].
  - rewrite (reference_height_fixed_once_until_wraparound (IW := Int16)
               (polling 99) boot).
    + vm_compute. reflexivity.
    + reflexivity.
    + vm_compute. reflexivity.
  - rewrite (reference_height_fixed_once_until_wraparound (IW := Int16)
               (polling 100) boot).
    + vm_compute. reflexivity.
    + reflexivity.
    + vm_compute. reflexivity.
  - rewrite (reference_height_fixed_once_until_wraparound (IW := Int16)
               (polling 250) boot).
    + vm_compute. reflexivity.
    + reflexivity.
    + vm_compute. reflexivity.
Defined.

(** Two [run()] cycles on a driver with a pressure conversion pending
    leave a temperature conversion requested; once its wait is over, the
    step of a temperature read returns true. *)
Lemma triggerReadValues_return_witness :
  let acts := [Elapse 11; Poll NONE; Elapse 11; Poll NONE; Elapse 1] in
  let c := exec (IW := Int32) acts (pending_at_1ms DIGITAL_PRESSURE_VALUE) in
  fst (triggerReadValues (IW := Int32) DIGITAL_TEMPERATURE_VALUE c) = true
  /\ completed_matches DIGITAL_TEMPERATURE_VALUE c = true
  /\ fst (triggerReadValues (IW := Int32) DIGITAL_PRESSURE_VALUE c) = false
  /\ completed_matches DIGITAL_PRESSURE_VALUE c = false.
Proof.
  cbv zeta.
  assert (Hcalls : class_calls
                     [Elapse 11; Poll NONE; Elapse 11; Poll NONE; Elapse 1]).
  { repeat (apply Forall_cons; [cbn; try discriminate; exact I |]).
    apply Forall_nil. }
  destruct (triggerReadValues_return (IW := Int32)
              (pending_at_1ms DIGITAL_PRESSURE_VALUE)
              [Elapse 11; Poll NONE; Elapse 11; Poll NONE; Elapse 1]
              DIGITAL_TEMPERATURE_VALUE) as (HT & _).
  - left. left. reflexivity.
  - exact Hcalls.
  - destruct (triggerReadValues_return (IW := Int32)
                (pending_at_1ms DIGITAL_PRESSURE_VALUE)
                [Elapse 11; Poll NONE; Elapse 11; Poll NONE; Elapse 1]
                DIGITAL_PRESSURE_VALUE) as (HP & _).
    + left. left. reflexivity.
    + exact Hcalls.
    + cbv zeta in HT, HP. rewrite HT, HP.
      repeat split; vm_compute; reflexivity.
Defined.

(** A request at [millis() = 4294967291] with the 10 ms wait time stores
    the deadline 5; the call 1 ms later, 9 ms before the deadline, is a
    ready cycle. *)
Lemma triggerReadValues_early_when_deadline_wraps_witness :
  let c1 := snd (triggerReadValues (IW := Int32) NONE
                   (waiting_10ms_at 4294967291)) in
  let c2 := snd (delay 1 c1) in
  clock (env c2) = clock (env c1) + 1
  /\ clock (env c2) < clock (env c1) + myct (obj c1)
  /\ ready c2 = true
  /\ triggerReadValues (IW := Int32) NONE c2 <> (false, c2)
  /\ exists e l,
       trace (env (snd (triggerReadValues (IW := Int32) NONE c2)))
       = e :: l ++ trace (env c2).
Proof.
  apply (triggerReadValues_early_when_deadline_wraps (IW := Int32) NONE NONE
           (waiting_10ms_at 4294967291) 1).
  - vm_compute. reflexivity.
  - cbn. lia.
  - vm_compute. discriminate.
  - lia.
  - vm_compute. reflexivity.
Defined.

End Examples.
